(** * Clippy: a verification development for [clippy.py]

    The development embeds the four core components of the program --
    [IntentDetector], [OllamaChat], [ActionExecutor] and the turn
    arbitration of [ChatWindow] -- as executable Rocq functions and proves
    properties of them.

    Modelling conventions.
    - A Python [str] is a [string]: a sequence of bytes, the UTF-8 encoding
      of the text.  [str.lower], [str.upper], [str.strip] and the regular
      expression classes act on the ASCII range as Python does and leave the
      bytes above 127 alone; text whose non-ASCII letters change under
      [str.lower] is outside the model.
    - Library and operating-system calls ([os.path], [glob], [subprocess],
      [webbrowser], [requests]) are fields of an environment record: what the
      call returns, or the exception it raises, is read from the record, and
      every side effect is written to a log.
    - A callback passed to [OllamaChat.stream] is recorded in the order in
      which it is invoked; an exception that leaves the call is recorded
      after the callbacks.
    - The chat window is a record of the fields the handlers read and
      write; what the user and the streams do to it is a sequence of
      events, each handled to its end before the next, as the event loop
      of the user interface does. *)

From Stdlib Require Import String Ascii List Bool Arith Lia DecimalString
  ZArith.
Import ListNotations.
Open Scope string_scope.
Open Scope nat_scope.
Open Scope list_scope.

(** String concatenation, Python's [+] on [str]. *)
Infix "+++" := String.append (right associativity, at level 60).

(* ================================================================== *)
(** * Python string operations *)
(* ================================================================== *)

Module Str.

Definition empty : string := EmptyString.

Definition code (c : ascii) : nat := nat_of_ascii c.

Definition between (lo hi : nat) (c : ascii) : bool :=
  (lo <=? code c) && (code c <=? hi).

Definition is_upper : ascii -> bool := between 65 90.
Definition is_lower : ascii -> bool := between 97 122.
Definition is_digit : ascii -> bool := between 48 57.

(** [str.isspace] on the ASCII range: TAB..CR, FS..US and the space. *)
Definition is_space (c : ascii) : bool :=
  between 9 13 c || between 28 32 c.

(** [\w] on the ASCII range. *)
Definition is_word (c : ascii) : bool :=
  is_upper c || is_lower c || is_digit c || Ascii.eqb c "_"%char.

Definition lower_char (c : ascii) : ascii :=
  if is_upper c then ascii_of_nat (code c + 32) else c.

Definition upper_char (c : ascii) : ascii :=
  if is_lower c then ascii_of_nat (code c - 32) else c.

Fixpoint map (f : ascii -> ascii) (s : string) : string :=
  match s with
  | EmptyString => EmptyString
  | String c s' => String (f c) (map f s')
  end.

(** [s.lower()] and [s.upper()] *)
Definition lower : string -> string := map lower_char.
Definition upper : string -> string := map upper_char.

Definition is_empty (s : string) : bool :=
  match s with EmptyString => true | _ => false end.

(** [s.lstrip()] *)
Fixpoint lstrip (s : string) : string :=
  match s with
  | String c s' => if is_space c then lstrip s' else s
  | EmptyString => EmptyString
  end.

(** Removal of the trailing characters that satisfy [p]. *)
Fixpoint rstrip_by (p : ascii -> bool) (s : string) : string :=
  match s with
  | EmptyString => EmptyString
  | String c s' =>
      let r := rstrip_by p s' in
      if p c && is_empty r then EmptyString else String c r
  end.

(** [s.rstrip()], [s.rstrip(ch)] for a one-character [ch], [s.strip()] *)
Definition rstrip : string -> string := rstrip_by is_space.
Definition rstrip_char (ch : ascii) : string -> string :=
  rstrip_by (Ascii.eqb ch).
Definition strip (s : string) : string := lstrip (rstrip s).

(** [s.startswith(p)] *)
Definition startswith (p s : string) : bool := prefix p s.

(** [sub in s] *)
Fixpoint contains (sub s : string) : bool :=
  prefix sub s ||
  match s with
  | EmptyString => false
  | String _ s' => contains sub s'
  end.

(** [s.endswith(p)] *)
Fixpoint endswith (p s : string) : bool :=
  String.eqb p s ||
  match s with
  | EmptyString => false
  | String _ s' => endswith p s'
  end.

(** [s.split(ch, 1)]: the text before the first [ch] and, when there is
    one, the text after it. *)
Fixpoint split_once (ch : ascii) (s : string) : string * option string :=
  match s with
  | EmptyString => (EmptyString, None)
  | String c s' =>
      if Ascii.eqb c ch then (EmptyString, Some s')
      else let '(a, b) := split_once ch s' in (String c a, b)
  end.

(** [s.replace(old, new)] for a non-empty [old]: occurrences are found
    left to right and do not overlap; [skip] counts the characters of the
    current occurrence still to be dropped. *)
Fixpoint replace_from (old new : string) (skip : nat) (s : string) : string :=
  match s with
  | EmptyString => EmptyString
  | String c s' =>
      match skip with
      | S k => replace_from old new k s'
      | O =>
          if prefix old s
          then new +++ replace_from old new (String.length old - 1) s'
          else String c (replace_from old new 0 s')
      end
  end.

Fixpoint intersperse (new s : string) : string :=
  match s with
  | EmptyString => new
  | String c s' => new +++ String c (intersperse new s')
  end.

Definition replace (old new s : string) : string :=
  if is_empty old then intersperse new s else replace_from old new 0 s.

(** [s.count(sub)] *)
Fixpoint count_from (sub : string) (skip : nat) (s : string) : nat :=
  match s with
  | EmptyString => 0
  | String _ s' =>
      match skip with
      | S k => count_from sub k s'
      | O =>
          if prefix sub s
          then S (count_from sub (String.length sub - 1) s')
          else count_from sub 0 s'
      end
  end.

Definition count (sub s : string) : nat :=
  if is_empty sub then S (String.length s) else count_from sub 0 s.

(** [s[:n]] and [s[n:]] *)
Definition take (n : nat) (s : string) : string := substring 0 n s.

Fixpoint drop (n : nat) (s : string) : string :=
  match n, s with
  | S k, String _ s' => drop k s'
  | _, _ => s
  end.

(** [str(n)] for a non-negative integer *)
Definition of_nat (n : nat) : string :=
  NilEmpty.string_of_uint (Nat.to_uint n).

(** [sep.join(l)] with the empty separator *)
Definition join (l : list string) : string :=
  fold_right String.append EmptyString l.

Definition newline : string := String (ascii_of_nat 10) EmptyString.

End Str.

(* ================================================================== *)
(** * Python regular expressions *)
(* ================================================================== *)

(** The fragment of the [re] module that the program uses, with [re]'s
    backtracking semantics: alternatives are tried left to right, a greedy
    repetition tries one more iteration before it tries the rest of the
    pattern and a lazy one the other way round, and the first way through
    the pattern that succeeds is the match. *)

Module Re.

Inductive re : Type :=
| Fail                            (* no string at all *)
| Eps                             (* the empty pattern *)
| Lit (l : string)                (* literal text *)
| Any                             (* [.], any character but the newline *)
| Space                           (* [\s] *)
| NoneOf (cs : list ascii)        (* a negated class *)
| WordB                           (* [\b] *)
| Eol                             (* [$] *)
| Seq (r1 r2 : re)
| Alt (r1 r2 : re)                (* [r1|r2] *)
| Star (greedy : bool) (r : re)   (* [r*] and [r*?] *)
| Grp (n : nat) (r : re).         (* capturing group number [n] *)

(** [r+], [r+?] and [r?] *)
Definition Plus (greedy : bool) (r : re) : re := Seq r (Star greedy r).
Definition Opt (r : re) : re := Alt r Eps.

Fixpoint alts (l : list re) : re :=
  match l with
  | [] => Fail
  | [r] => r
  | r :: l' => Alt r (alts l')
  end.

Fixpoint seqs (l : list re) : re :=
  match l with
  | [] => Eps
  | [r] => r
  | r :: l' => Seq r (seqs l')
  end.

Definition words (l : list string) : re := alts (List.map Lit l).

(** A position in the subject: the character before it, the text after
    it, and the groups captured on the way (latest first). *)
Record mstate : Type := MState {
  prev : option ascii;
  rest : string;
  caps : list (nat * string)
}.

Definition start (p : option ascii) (s : string) : mstate :=
  MState p s [].

Definition eat_if (p : ascii -> bool) (k : mstate -> option mstate)
           (s : mstate) : option mstate :=
  match rest s with
  | String c s' => if p c then k (MState (Some c) s' (caps s)) else None
  | EmptyString => None
  end.

Fixpoint eat_lit (l : string) (s : mstate) : option mstate :=
  match l with
  | EmptyString => Some s
  | String a l' =>
      match rest s with
      | String c s' =>
          if Ascii.eqb a c then eat_lit l' (MState (Some c) s' (caps s))
          else None
      | EmptyString => None
      end
  end.

Definition word_before (s : mstate) : bool :=
  match prev s with Some c => Str.is_word c | None => false end.

Definition word_after (s : mstate) : bool :=
  match rest s with String c _ => Str.is_word c | EmptyString => false end.

Definition is_newline (c : ascii) : bool := Nat.eqb (Str.code c) 10.

(** [$] without [re.MULTILINE]: the end of the subject, or just before a
    newline that ends the subject. *)
Definition at_end (s : mstate) : bool :=
  match rest s with
  | EmptyString => true
  | String c EmptyString => is_newline c
  | _ => false
  end.

Definition consumed (s0 s1 : mstate) : nat :=
  String.length (rest s0) - String.length (rest s1).

(** A repetition of [body] followed by [k], with [n] bounding the number
    of iterations.  A greedy repetition tries one more iteration first
    and [k] when that fails; a lazy one tries [k] first.  An iteration
    that consumes no character is not repeated. *)
Fixpoint iterate (body : (mstate -> option mstate) -> mstate -> option mstate)
         (greedy : bool) (k : mstate -> option mstate) (n : nat)
         (s0 : mstate) {struct n} : option mstate :=
  match n with
  | O => k s0
  | S n' =>
      let more (s1 : mstate) :=
        if String.length (rest s1) <? String.length (rest s0)
        then iterate body greedy k n' s1 else None in
      if greedy then
        match body more s0 with
        | Some m => Some m
        | None => k s0
        end
      else
        match k s0 with
        | Some m => Some m
        | None => body more s0
        end
  end.

(** [run r k s]: match [r] at [s] and go on with [k]; [None] when every
    way through fails.  A repetition cannot iterate more often than
    there are characters left. *)
Fixpoint run (r : re) (k : mstate -> option mstate) (s : mstate)
  {struct r} : option mstate :=
  match r with
  | Fail => None
  | Eps => k s
  | Lit l => match eat_lit l s with Some s' => k s' | None => None end
  | Any => eat_if (fun c => negb (is_newline c)) k s
  | Space => eat_if Str.is_space k s
  | NoneOf cs => eat_if (fun c => negb (existsb (Ascii.eqb c) cs)) k s
  | WordB => if xorb (word_before s) (word_after s) then k s else None
  | Eol => if at_end s then k s else None
  | Seq r1 r2 => run r1 (run r2 k) s
  | Alt r1 r2 =>
      match run r1 k s with
      | Some m => Some m
      | None => run r2 k s
      end
  | Star greedy r' =>
      iterate (run r') greedy k (S (String.length (rest s))) s
  | Grp n r' =>
      run r'
        (fun s' => k (MState (prev s') (rest s')
                             ((n, Str.take (consumed s s') (rest s)) :: caps s')))
        s
  end.

(** [re.match(r, s)] *)
Definition match_ (r : re) (s : string) : option mstate :=
  run r Some (start None s).

(** [re.search(r, s)] *)
Fixpoint search_from (r : re) (p : option ascii) (s : string)
  : option mstate :=
  match run r Some (start p s) with
  | Some m => Some m
  | None =>
      match s with
      | EmptyString => None
      | String c s' => search_from r (Some c) s'
      end
  end.

Definition search (r : re) (s : string) : option mstate :=
  search_from r None s.

Definition found (m : option mstate) : bool :=
  match m with Some _ => true | None => false end.

(** [m.group(n)] for a group that took part in the match. *)
Fixpoint lookup (n : nat) (l : list (nat * string)) : string :=
  match l with
  | [] => EmptyString
  | (i, v) :: l' => if Nat.eqb i n then v else lookup n l'
  end.

Definition group (n : nat) (m : mstate) : string := lookup n (caps m).

(** The subject cut into the non-overlapping matches of [r], found left
    to right, and the characters between them.  For a pattern that does
    not match the empty string; [skip] counts the characters of the
    current match still to be passed. *)
Inductive piece : Type :=
| Text (c : ascii)
| Match (m : mstate).

Fixpoint pieces (r : re) (skip : nat) (p : option ascii) (s : string)
  : list piece :=
  match s with
  | EmptyString => []
  | String c s' =>
      match skip with
      | S k => pieces r k (Some c) s'
      | O =>
          match run r Some (start p s) with
          | Some m =>
              match String.length s - String.length (rest m) with
              | S k => Match m :: pieces r k (Some c) s'
              | O => Text c :: pieces r 0 (Some c) s'
              end
          | None => Text c :: pieces r 0 (Some c) s'
          end
      end
  end.

(** [re.sub(r, '', s)] *)
Fixpoint erase (l : list piece) : string :=
  match l with
  | [] => EmptyString
  | Text c :: l' => String c (erase l')
  | Match _ :: l' => erase l'
  end.

Definition sub_empty (r : re) (s : string) : string :=
  erase (pieces r 0 None s).

(** [re.findall(r, s)] for a pattern with one group *)
Fixpoint groups (l : list piece) : list string :=
  match l with
  | [] => []
  | Text _ :: l' => groups l'
  | Match m :: l' => group 1 m :: groups l'
  end.

Definition findall (r : re) (s : string) : list string :=
  groups (pieces r 0 None s).

End Re.

(* ================================================================== *)
(** * The environment: operating system and libraries *)
(* ================================================================== *)

Module Os.

(** The exceptions the program distinguishes; every one of them derives
    from [Exception].  An exception that derives from two of them, as
    [requests.ConnectTimeout] does, has the class that the first
    matching [except] clause names.  [text] is [str(e)]. *)
Inductive exn_class : Type :=
| ImportError
| TimeoutExpired
| ConnectionError
| Timeout
| OtherException.

Record exn : Type := Exn { cls : exn_class; text : string }.

(** What a call gives: a value, or the exception it raises. *)
Inductive outcome (A : Type) : Type :=
| Ok (a : A)
| Raise (e : exn).
Arguments Ok {A} a.
Arguments Raise {A} e.

(** [subprocess.CompletedProcess] *)
Record completed : Type := Completed {
  returncode : nat;
  stdout : string;
  stderr : string
}.

(** A directory as [os.walk] sees it: its name, the sub-directories it
    descends into and the names of its files. *)
#[local] Unset Elimination Schemes.
Inductive tree : Type :=
| Dir (name : string) (dirs : list tree) (files : list string).
#[local] Set Elimination Schemes.

Record t : Type := Make {
  expanduser : string -> string;
  path_join : string -> string -> string;
  path_exists : string -> bool;
  basename : string -> string;
  dirname : string -> string;
  sep : string;
  environ : string -> option string;
  which : string -> option string;
  (* the tree below a directory; [None] when it cannot be listed *)
  listing : string -> option tree;
  glob_recursive : string -> outcome (list string);
  webbrowser_open : string -> outcome unit;
  startfile : string -> outcome unit;
  popen : list string -> outcome unit;
  subprocess_run : list string -> outcome completed;
  quote_plus : string -> string;
  image_grab : outcome unit;
  strftime : string -> string;
  image_save : string -> outcome unit
}.

(** [os.path.join] of more than two parts *)
Definition join3 (os : t) (a b c : string) : string :=
  path_join os (path_join os a b) c.

End Os.

(* ================================================================== *)
(** * IntentDetector *)
(* ================================================================== *)

Module IntentDetector.
Import Re.

Definition action : Type := string * string.

(** [SITES], a dict: iteration follows the order of insertion. *)
Definition SITES : list (string * string) :=
  [ ("youtube",        "https://www.youtube.com");
    ("yt",             "https://www.youtube.com");
    ("google",         "https://www.google.com");
    ("gmail",          "https://mail.google.com");
    ("github",         "https://github.com");
    ("reddit",         "https://www.reddit.com");
    ("twitter",        "https://twitter.com");
    ("x",              "https://twitter.com");
    ("facebook",       "https://www.facebook.com");
    ("instagram",      "https://www.instagram.com");
    ("linkedin",       "https://www.linkedin.com");
    ("twitch",         "https://www.twitch.tv");
    ("netflix",        "https://www.netflix.com");
    ("amazon",         "https://www.amazon.com");
    ("wikipedia",      "https://www.wikipedia.org");
    ("stackoverflow",  "https://stackoverflow.com");
    ("stack overflow", "https://stackoverflow.com");
    ("whatsapp web",   "https://web.whatsapp.com");
    ("chatgpt",        "https://chat.openai.com");
    ("spotify",        "https://open.spotify.com") ].

(** [APPS], a set: its elements.  The order in which a [for] loop visits
    them is not fixed by the program, so [detect] takes it as the
    argument [apps]. *)
Definition APPS : list string :=
  [ "chrome"; "google chrome"; "firefox"; "edge"; "brave";
    "notepad"; "calculator"; "calc"; "explorer"; "file explorer";
    "cmd"; "terminal"; "powershell"; "spotify";
    "code"; "vscode"; "vs code"; "visual studio code";
    "paint"; "word"; "excel"; "powerpoint";
    "discord"; "slack"; "teams"; "obs"; "vlc";
    "task manager"; "control panel"; "settings";
    "snipping tool"; "whatsapp" ].

(** [FOLDERS], a dict built from the home directory. *)
Definition FOLDERS (os : Os.t) : list (string * string) :=
  let home := Os.expanduser os "~" in
  [ ("desktop",   Os.path_join os home "Desktop");
    ("documents", Os.path_join os home "Documents");
    ("downloads", Os.path_join os home "Downloads");
    ("pictures",  Os.path_join os home "Pictures");
    ("music",     Os.path_join os home "Music");
    ("videos",    Os.path_join os home "Videos");
    ("home",      home) ].

Definition ws1 : re := Plus true Space.   (* [\s+] *)
Definition ws0 : re := Star true Space.   (* [\s*] *)
Definition the_my : list re :=            (* [(?:the\s+)?(?:my\s+)?] *)
  [ Opt (Seq (Lit "the") ws1); Opt (Seq (Lit "my") ws1) ].

(** (?:close|kill|exit|quit|stop|terminate|end|cierra|cerrar)\s+(?:the\s+)?(?:my\s+)?(.+) *)
Definition close_re : re :=
  seqs ([ words ["close"; "kill"; "exit"; "quit"; "stop"; "terminate";
                 "end"; "cierra"; "cerrar"];
          ws1 ] ++ the_my ++ [ Grp 1 (Plus true Any) ]).

(** \b(take|capture|grab|do)\b.*\b(screenshot|screen\s*shot|screen\s*cap|captura)\b *)
Definition take_shot_re : re :=
  seqs [ WordB; Grp 1 (words ["take"; "capture"; "grab"; "do"]); WordB;
         Star true Any;
         WordB;
         Grp 2 (alts [ Lit "screenshot";
                       seqs [Lit "screen"; ws0; Lit "shot"];
                       seqs [Lit "screen"; ws0; Lit "cap"];
                       Lit "captura" ]);
         WordB ].

(** \bscreenshot\b *)
Definition shot_re : re := seqs [ WordB; Lit "screenshot"; WordB ].

(** (?:google|search|search\s+for|look\s+up|busca|buscar)\s+(.+) *)
Definition web_re : re :=
  seqs [ alts [ Lit "google"; Lit "search";
                seqs [Lit "search"; ws1; Lit "for"];
                seqs [Lit "look"; ws1; Lit "up"];
                Lit "busca"; Lit "buscar" ];
         ws1;
         Grp 1 (Plus true Any) ].

(** (?:find|search|look\s+for|busca)\s+(?:my\s+)?(?:files?\s+)?(?:called\s+|named\s+)?(.+?)(?:\s+files?)?(?:\s+on\s+.+)?$ *)
Definition find_re : re :=
  seqs [ alts [ Lit "find"; Lit "search";
                seqs [Lit "look"; ws1; Lit "for"];
                Lit "busca" ];
         ws1;
         Opt (Seq (Lit "my") ws1);
         Opt (seqs [Lit "file"; Opt (Lit "s"); ws1]);
         Opt (Alt (Seq (Lit "called") ws1) (Seq (Lit "named") ws1));
         Grp 1 (Plus false Any);
         Opt (seqs [ws1; Lit "file"; Opt (Lit "s")]);
         Opt (seqs [ws1; Lit "on"; ws1; Plus true Any]);
         Eol ].

(** \b(open|launch|go|navigate)\b *)
Definition open_verb_re : re :=
  seqs [ WordB; Grp 1 (words ["open"; "launch"; "go"; "navigate"]); WordB ].

(** \b(pdf|txt|doc|xls|ppt|jpg|png|mp3|mp4|zip|exe)\b *)
Definition ext_re : re :=
  seqs [ WordB;
         Grp 1 (words ["pdf"; "txt"; "doc"; "xls"; "ppt"; "jpg"; "png";
                       "mp3"; "mp4"; "zip"; "exe"]);
         WordB ].

(** (?:open|launch|start|run|go\s+to|navigate\s+to|abre|abrir)\s+(?:the\s+)?(?:my\s+)?(.+) *)
Definition open_re : re :=
  seqs ([ alts [ Lit "open"; Lit "launch"; Lit "start"; Lit "run";
                 seqs [Lit "go"; ws1; Lit "to"];
                 seqs [Lit "navigate"; ws1; Lit "to"];
                 Lit "abre"; Lit "abrir" ];
          ws1 ] ++ the_my ++ [ Grp 1 (Plus true Any) ]).

(** https?:// and www\. *)
Definition http_re : re := seqs [ Lit "http"; Opt (Lit "s"); Lit "://" ].
Definition www_re : re := Lit "www.".

(** [app_name in target or target in app_name], for the first
    [app_name] the loop over [APPS] meets. *)
Definition known_app (apps : list string) (target : string)
  : option string :=
  find (fun app_name =>
          Str.contains app_name target || Str.contains target app_name)
       apps.

(** The first entry of a dict whose key occurs in [target]. *)
Definition known_key (d : list (string * string)) (target : string)
  : option string :=
  option_map snd (find (fun kv => Str.contains (fst kv) target) d).

(** The rule for [open X], [launch X], ... once its pattern has matched
    with [target] the stripped group. *)
Definition detect_open (os : Os.t) (apps : list string) (target : string)
  : list action :=
  if found (match_ http_re target) || found (match_ www_re target)
  then [("OPEN_URL", target)]
  else
    match known_key SITES target with
    | Some site_url => [("OPEN_URL", site_url)]
    | None =>
    match known_key (FOLDERS os) target with
    | Some folder_path => [("OPEN_FOLDER", folder_path)]
    | None =>
    if Str.contains "\" target || Str.contains "/" target
       || Str.contains ":" target
    then
      let expanded := Os.expanduser os target in
      if Os.path_exists os expanded
      then [("OPEN_FOLDER", expanded)]
      else [("OPEN_APP", target)]
    else
      match known_app apps target with
      | Some app_name => [("OPEN_APP", app_name)]
      | None => [("OPEN_APP", target)]
      end
    end
    end.

(** The rule for file searches: [Some] when it fires. *)
Definition detect_find (lower : string) : option (list action) :=
  match match_ find_re lower with
  | Some m =>
      if negb (found (search open_verb_re lower)) then
        let pattern := Str.strip (group 1 m) in
        if existsb (fun c => Str.contains c pattern) ["*"; "."; "?"]
           || found (search ext_re pattern)
        then
          let pattern :=
            if negb (Str.contains "*" pattern)
               && negb (Str.contains "." pattern)
            then "*." +++ pattern else pattern in
          Some [("FIND_FILE", pattern)]
        else None
      else None
  | None => None
  end.

(** [IntentDetector.detect(text)] *)
Definition detect (os : Os.t) (apps : list string) (text : string)
  : list action :=
  let lower := Str.strip (Str.lower text) in
  match match_ close_re lower with
  | Some m =>
      let target := Str.rstrip_char "." (Str.strip (group 1 m)) in
      match known_app apps target with
      | Some app_name => [("CLOSE_APP", app_name)]
      | None => [("CLOSE_APP", target)]
      end
  | None =>
  if found (search take_shot_re lower) || found (search shot_re lower)
  then [("SCREENSHOT", Str.empty)]
  else
  match match_ web_re lower with
  | Some m => [("SEARCH_WEB", Str.strip (group 1 m))]
  | None =>
  match detect_find lower with
  | Some actions => actions
  | None =>
  match match_ open_re lower with
  | Some m =>
      detect_open os apps (Str.rstrip_char "." (Str.strip (group 1 m)))
  | None => []
  end
  end
  end
  end.

End IntentDetector.


(* ================================================================== *)
(** * OllamaChat: the streaming chat client *)
(* ================================================================== *)

Module OllamaChat.
Import Os.

(** A chat message, the dict with the keys [role] and [content]. *)
Record message : Type := Message { role : string; content : string }.

(** [SYSTEM_PROMPT] *)
Definition SYSTEM_PROMPT : string :=
let nl := Str.newline in
Str.join [
    "You are Clippy, the classic Microsoft Office assistant, revived as a modern ";
    "desktop companion. You are extremely helpful and service-oriented — you LOVE ";
    "helping people and go out of your way to be useful. You're warm, friendly, ";
    "a little cheeky, and occasionally nostalgic about the old days in Microsoft ";
    "Office 97. You have a great sense of humor — you drop witty one-liners and ";
    "sometimes surprise people with unexpectedly deep or philosophical thoughts. ";
    "Keep your answers concise and helpful. You are powered by a local Ollama model ";
    "running on the user's own hardware — no cloud, total privacy. You genuinely ";
    "care about the person you're talking to."; nl; nl;
    "=== ACTIONS ==="; nl;
    "You can perform real actions on the user's computer! When the user asks you to ";
    "do something, include ONE OR MORE action tags in your response. Always write a ";
    "short friendly message AND the action tag(s). Available actions:"; nl; nl;
    "[ACTION:OPEN_URL|<url>] — Open a website. Examples:"; nl;
    "  [ACTION:OPEN_URL|https://www.youtube.com]"; nl;
    "  [ACTION:OPEN_URL|https://www.google.com/search?q=python+tutorial]"; nl;
    "  [ACTION:OPEN_URL|https://github.com]"; nl; nl;
    "[ACTION:OPEN_APP|<name>] — Open an application by name. Examples:"; nl;
    "  [ACTION:OPEN_APP|chrome]"; nl;
    "  [ACTION:OPEN_APP|notepad]"; nl;
    "  [ACTION:OPEN_APP|calculator]"; nl;
    "  [ACTION:OPEN_APP|explorer]"; nl;
    "  [ACTION:OPEN_APP|cmd]"; nl;
    "  [ACTION:OPEN_APP|spotify]"; nl;
    "  [ACTION:OPEN_APP|code] (VS Code)"; nl; nl;
    "[ACTION:SEARCH_WEB|<query>] — Google search for something. Example:"; nl;
    "  [ACTION:SEARCH_WEB|best python IDE 2026]"; nl; nl;
    "[ACTION:OPEN_FOLDER|<path>] — Open a folder in Explorer. Examples:"; nl;
    "  [ACTION:OPEN_FOLDER|C:\Users]"; nl;
    "  [ACTION:OPEN_FOLDER|~\Desktop]"; nl;
    "  [ACTION:OPEN_FOLDER|~\Documents]"; nl; nl;
    "[ACTION:FIND_FILE|<pattern>] — Search for files on Desktop/Documents. Example:"; nl;
    "  [ACTION:FIND_FILE|*.pdf]"; nl;
    "  [ACTION:FIND_FILE|report*]"; nl; nl;
    "[ACTION:SYSTEM_CMD|<command>] — Run a shell command (PowerShell). Example:"; nl;
    "  [ACTION:SYSTEM_CMD|systeminfo]"; nl;
    "  [ACTION:SYSTEM_CMD|ipconfig]"; nl; nl;
    "[ACTION:CLOSE_APP|<name>] — Close/kill an application by name. Examples:"; nl;
    "  [ACTION:CLOSE_APP|chrome]"; nl;
    "  [ACTION:CLOSE_APP|notepad]"; nl;
    "  [ACTION:CLOSE_APP|spotify]"; nl; nl;
    "[ACTION:TYPE_TEXT|<text>] — Type text into the currently focused window."; nl; nl;
    "[ACTION:SCREENSHOT] — Take a screenshot and save to Desktop."; nl; nl;
    "RULES:"; nl;
    "- ALWAYS include the action tag when the user asks you to DO something."; nl;
    "- Write a short friendly message BEFORE the action tag."; nl;
    "- If unsure what the user wants, ask — don't guess dangerous commands."; nl;
    "- You can use multiple action tags in one response."; nl;
    "- For 'open YouTube' → use OPEN_URL with https://www.youtube.com"; nl;
    "- For 'open Chrome' → use OPEN_APP with chrome"; nl;
    "- For 'google X' or 'search for X' → use SEARCH_WEB"; nl;
    "- For 'find my files' → use FIND_FILE"; nl;
    "- The action tags will be hidden from the user and executed automatically."; nl ].

Definition system_message : message := Message "system" SYSTEM_PROMPT.

(** [Settings], the two fields the client reads. *)
Record Settings : Type := MkSettings { ollama_url : string; model : string }.

(** The value of [message.content] in a record.  The protocol sends a
    string; the loop takes whatever JSON value is there, and of a value
    that is not a string it reads one thing only: whether Python takes it
    for true (a non-zero number, a non-empty list or object, [true]) or
    for false ([0], [null], [false], an empty list or object). *)
Inductive fragment : Type :=
| Text (s : string)
| Foreign (is_true : bool).

(** [if content:] *)
Definition truthy (content : fragment) : bool :=
  match content with
  | Text s => negb (Str.is_empty s)
  | Foreign is_true => is_true
  end.

(** One line of the response body as the loop sees it. *)
Inductive line : Type :=
| Blank                               (* an empty line *)
| Malformed                           (* [json.loads] raises JSONDecodeError *)
| Unusable (e : exn)                  (* [json.loads] raises another exception
                                         [e] (bytes that are not UTF-8 raise
                                         UnicodeDecodeError), or a lookup in
                                         the decoded value raises [e] *)
| Data (error : option string)        (* [data["error"]] when present *)
       (delta : fragment)             (* [message.content]; [Text] of the
                                         empty string when absent *)
       (done : bool).                 (* [data.get("done")] *)

(** One step of [resp.iter_lines()]: a line, together with what
    [cancel.is_set()] answers when the loop polls it for that line, or
    the exception the transport raises. *)
Inductive item : Type :=
| Got (cancel_is_set : bool) (l : line)
| Broken (e : exn).

(** The response to the chat request. *)
Record response : Type := Response {
  status_code : nat;
  body : string;                      (* [resp.text] *)
  lines : list item
}.

(** The backend. *)
Record Net : Type := MkNet {
  (* [requests.get(url, timeout=3).status_code] *)
  get_status : string -> outcome nat;
  (* [requests.get(url, timeout=5)]: the status and the model names *)
  get_tags : string -> outcome (nat * list string);
  (* [requests.post(url, json={model, messages, stream})] *)
  post_chat : string -> string -> list message -> outcome response
}.

(** What a call of [stream] does towards its caller, in order: the
    callbacks it invokes and, in last place when it happens, the
    TypeError that leaves the call.  [on_chunk] receives the value of
    [message.content] as it is. *)
Inductive callback : Type :=
| on_chunk (delta : fragment)
| on_done
| on_error (err : string)
| on_model_not_found (models : list string)
| raises_TypeError.

(** [OllamaManager.is_running(url)] *)
Definition is_running (net : Net) (url : string) : bool :=
  match get_status net (Str.rstrip_char "/" url) with
  | Ok status => Nat.eqb status 200
  | Raise _ => false
  end.

(** [OllamaManager.list_models(url)] *)
Definition list_models (net : Net) (url : string) : list string :=
  match get_tags net (Str.rstrip_char "/" url +++ "/api/tags") with
  | Ok (status, names) => if Nat.eqb status 200 then names else []
  | Raise _ => []
  end.

(** [OllamaChat.__init__] and [OllamaChat.clear]: both set [self.messages]
    to the list that holds the system message alone. *)
Definition init : list message := [system_message].
Definition clear (messages : list message) : list message := [system_message].

(** The three [except] clauses of [stream]. *)
Definition except_message (e : exn) : string :=
  match cls e with
  | ConnectionError => "❌ Lost connection to Ollama."
  | Timeout => "⏳ Request timed out."
  | _ => "❌ " +++ text e
  end.

(** How the [for] loop over the lines ends. *)
Inductive loop_exit : Type :=
| Fell_through (full : list fragment) (* [break], or no line is left *)
| Returned.                           (* a [return] after [on_error] *)

(** The loop over [resp.iter_lines()]; [full] is the list of fragments
    gathered so far. *)
Fixpoint consume (items : list item) (full : list fragment)
  : loop_exit * list callback :=
  match items with
  | [] => (Fell_through full, [])
  | Broken e :: _ => (Returned, [on_error (except_message e)])
  | Got cancel_is_set l :: items' =>
      if cancel_is_set then (Fell_through full, [])
      else
        match l with
        | Blank => consume items' full
        | Malformed => consume items' full
        | Unusable e => (Returned, [on_error (except_message e)])
        | Data (Some err) _ _ => (Returned, [on_error ("❌ " +++ err)])
        | Data None delta done =>
            let full' := if truthy delta then full ++ [delta] else full in
            let calls := if truthy delta then [on_chunk delta] else [] in
            if done then (Fell_through full', calls)
            else
              let '(exit, calls') := consume items' full' in
              (exit, calls ++ calls')
        end
  end.

Definition is_nil {A : Type} (l : list A) : bool :=
  match l with [] => true | _ :: _ => false end.

(** [str.join] with the empty separator on [full]: the text, or [None]
    when an element is not a string, on which join raises TypeError. *)
Fixpoint join_text (full : list fragment) : option string :=
  match full with
  | [] => Some Str.empty
  | Text s :: full' =>
      match join_text full' with
      | Some text => Some (s +++ text)
      | None => None
      end
  | Foreign _ :: _ => None
  end.

(** [self.messages.pop()] when the last message is a user message. *)
Definition pop_user (messages : list message) : list message :=
  match rev messages with
  | m :: before =>
      if String.eqb (role m) "user" then rev before else messages
  | [] => messages
  end.

(** [OllamaChat.stream(user_text, on_chunk, on_done, on_error, cancel,
    on_model_not_found)]: the messages after the call and what the call
    does towards its caller.  [handler] tells whether
    [on_model_not_found] was supplied.  The join of the fragments comes
    after the [try] statement: when it raises, no [except] clause sees
    it, no callback is invoked any more and the exception ends the
    call. *)
Definition stream (net : Net) (settings : Settings) (messages : list message)
           (user_text : string) (handler : bool)
  : list message * list callback :=
  let messages := messages ++ [Message "user" user_text] in
  let base := Str.rstrip_char "/" (ollama_url settings) in
  let model := model settings in
  if Str.is_empty base || Str.is_empty model then
    (messages, [on_error "⚠️ Configure Ollama URL and model in Settings."])
  else if negb (is_running net base) then
    (messages,
     [on_error ("❌ Can't reach Ollama at " +++ base +++ Str.newline
                +++ Str.newline +++ "Make sure Ollama is running:"
                +++ Str.newline +++ "  ollama serve")])
  else
    match post_chat net (base +++ "/api/chat") model messages with
    | Raise e => (messages, [on_error (except_message e)])
    | Ok resp =>
        if Nat.eqb (status_code resp) 404 then
          let available := list_models net base in
          if negb (is_nil available) && handler
          then (pop_user messages, [on_model_not_found available])
          else (messages,
                [on_error ("❌ Model '" +++ model +++ "' not found."
                           +++ Str.newline +++ Str.newline
                           +++ "Run: ollama pull " +++ model)])
        else if negb (Nat.eqb (status_code resp) 200) then
          (messages,
           [on_error ("❌ Ollama HTTP " +++ Str.of_nat (status_code resp)
                      +++ Str.newline +++ Str.take 300 (body resp))])
        else
          match consume (lines resp) [] with
          | (Returned, calls) => (messages, calls)
          | (Fell_through full, calls) =>
              match join_text full with
              | None => (messages, calls ++ [raises_TypeError])
              | Some text =>
                  let messages :=
                    if Str.is_empty text then messages
                    else messages ++ [Message "assistant" text] in
                  (messages, calls ++ [on_done])
              end
          end
    end.

End OllamaChat.

(* ================================================================== *)
(** * ActionExecutor *)
(* ================================================================== *)

Module ActionExecutor.
Import Os.

(** What a handler does to the machine. *)
Inductive effect : Type :=
| Browse (url : string)                       (* [webbrowser.open] *)
| StartFile (path : string)                   (* [os.startfile] *)
| Popen (argv : list string)                  (* [subprocess.Popen] *)
| RunProcess (argv : list string) (timeout : nat)   (* [subprocess.run] *)
| Glob (pattern : string)                     (* [glob.glob] *)
| Grab                                        (* [ImageGrab.grab] *)
| SaveImage (path : string).                  (* [img.save] *)

(** A computation: the effects performed, in order, and the value
    returned or the exception raised. *)
Definition M (A : Type) : Type := list effect * outcome A.

Definition ret {A : Type} (a : A) : M A := ([], Ok a).

Definition bind {A B : Type} (m : M A) (f : A -> M B) : M B :=
  match m with
  | (log, Ok a) => let '(log', r) := f a in (log ++ log', r)
  | (log, Raise e) => (log, Raise e)
  end.

(** [try: m except Exception as e: h e] *)
Definition try_except {A : Type} (m : M A) (h : exn -> M A) : M A :=
  match m with
  | (log, Ok a) => (log, Ok a)
  | (log, Raise e) => let '(log', r) := h e in (log ++ log', r)
  end.

Definition perform {A : Type} (e : effect) (r : outcome A) : M A := ([e], r).

Notation "x <- m ;; k" := (bind m (fun x => k))
  (at level 61, m at next level, right associativity).
Notation "m ;;; k" := (bind m (fun _ => k))
  (at level 61, right associativity).

Definition log {A : Type} (m : M A) : list effect := fst m.
Definition result {A : Type} (m : M A) : outcome A := snd m.

(** A dict lookup, [d.get(key)]. *)
Fixpoint get {A : Type} (d : list (string * A)) (key : string) : option A :=
  match d with
  | [] => None
  | (k, v) :: d' => if String.eqb k key then Some v else get d' key
  end.

Definition APP_MAP : list (string * string) :=
  [ ("chrome", "chrome");
    ("google chrome", "chrome");
    ("firefox", "firefox");
    ("edge", "msedge");
    ("microsoft edge", "msedge");
    ("notepad", "notepad");
    ("calculator", "calc");
    ("calc", "calc");
    ("explorer", "explorer");
    ("file explorer", "explorer");
    ("cmd", "cmd");
    ("terminal", "wt");
    ("windows terminal", "wt");
    ("powershell", "powershell");
    ("spotify", "spotify");
    ("whatsapp", "whatsapp:");
    ("code", "code");
    ("vscode", "code");
    ("vs code", "code");
    ("paint", "mspaint");
    ("word", "winword");
    ("excel", "excel");
    ("powerpoint", "powerpnt");
    ("discord", "discord");
    ("slack", "slack");
    ("teams", "teams");
    ("obs", "obs64");
    ("vlc", "vlc");
    ("task manager", "taskmgr");
    ("taskmgr", "taskmgr");
    ("control panel", "control");
    ("settings", "ms-settings:");
    ("snipping tool", "snippingtool") ].

Definition KILL_MAP : list (string * list string) :=
  [ ("chrome", ["chrome"; "chrome.exe"]);
    ("google chrome", ["chrome"; "chrome.exe"]);
    ("firefox", ["firefox"; "firefox.exe"]);
    ("edge", ["msedge"; "msedge.exe"]);
    ("microsoft edge", ["msedge"; "msedge.exe"]);
    ("notepad", ["notepad"; "notepad.exe"]);
    ("spotify", ["spotify"; "spotify.exe"]);
    ("whatsapp", ["WhatsApp"; "WhatsApp.exe"]);
    ("discord", ["discord"; "discord.exe"; "update.exe"]);
    ("slack", ["slack"; "slack.exe"]);
    ("teams", ["teams"; "teams.exe"; "ms-teams.exe"]);
    ("code", ["code"; "code.exe"]);
    ("vscode", ["code"; "code.exe"]);
    ("vs code", ["code"; "code.exe"]);
    ("word", ["winword"; "winword.exe"]);
    ("excel", ["excel"; "excel.exe"]);
    ("powerpoint", ["powerpnt"; "powerpnt.exe"]);
    ("vlc", ["vlc"; "vlc.exe"]);
    ("obs", ["obs64"; "obs64.exe"]);
    ("paint", ["mspaint"; "mspaint.exe"]);
    ("calculator", ["calculatorapp"; "calc.exe"; "calculator.exe"]);
    ("calc", ["calculatorapp"; "calc.exe"]);
    ("terminal", ["windowsterminal"; "wt.exe"]);
    ("cmd", ["cmd"; "cmd.exe"]);
    ("powershell", ["powershell"; "powershell.exe"]);
    ("explorer", ["explorer"; "explorer.exe"]);
    ("task manager", ["taskmgr"; "taskmgr.exe"]) ].

(** [_open_url] *)
Definition _open_url (os : Os.t) (url : string) : M string :=
  let url :=
    if Str.startswith "http://" url || Str.startswith "https://" url
    then url else "https://" +++ url in
  perform (Browse url) (webbrowser_open os url) ;;;
  ret ("🌐 Opened: " +++ url).

(** The program looks for [exe] below [base_dir] with [os.walk]: the
    first file of a directory whose lowered name is [exe] or [exe.exe]
    ends the walk, and a directory two separators below [base_dir] is
    not descended into. *)
Fixpoint walk_find (os : Os.t) (exe base_dir root_dir : string) (t : tree)
  {struct t} : option string :=
  match t with
  | Dir _ dirs files =>
      match find (fun f => String.eqb (Str.lower f) (exe +++ ".exe")
                           || String.eqb (Str.lower f) exe) files with
      | Some f => Some (path_join os root_dir f)
      | None =>
          let depth := Str.count (sep os)
                                 (Str.replace base_dir Str.empty root_dir) in
          if 2 <=? depth then None
          else
            (fix each (l : list tree) : option string :=
               match l with
               | [] => None
               | (Dir name _ _ as d) :: l' =>
                   match walk_find os exe base_dir
                                   (path_join os root_dir name) d with
                   | Some p => Some p
                   | None => each l'
                   end
               end) dirs
      end
  end.

(** The loop of [_open_app] over the installation roots. *)
Fixpoint search_roots (os : Os.t) (exe : string) (roots : list string)
  : option string :=
  match roots with
  | [] => None
  | base_dir :: roots' =>
      if Str.is_empty base_dir then search_roots os exe roots'
      else
        match listing os base_dir with
        | Some t =>
            match walk_find os exe base_dir base_dir t with
            | Some p => Some p
            | None => search_roots os exe roots'
            end
        | None => search_roots os exe roots'
        end
  end.

Definition getenv (os : Os.t) (name : string) : string :=
  match environ os name with Some v => v | None => Str.empty end.

(** [shutil.which] gives a non-empty path or [None]; [found] is tested
    for truth. *)
Definition truthy (p : option string) : option string :=
  match p with
  | Some v => if Str.is_empty v then None else Some v
  | None => None
  end.

Definition or_else (p : option string) (q : option string) : option string :=
  match truthy p with Some v => Some v | None => q end.

(** [_open_app] *)
Definition _open_app (os : Os.t) (name : string) : M string :=
  let name_lower := Str.strip (Str.lower name) in
  let exe := match get APP_MAP name_lower with
             | Some e => e
             | None => name_lower
             end in
  if Str.startswith "ms-" exe then
    perform (StartFile exe) (startfile os exe) ;;;
    ret ("🚀 Opened: " +++ name)
  else
    let found :=
      or_else (which os exe)
        (or_else (which os (exe +++ ".exe"))
           (search_roots os exe
              [ getenv os "PROGRAMFILES";
                getenv os "PROGRAMFILES(X86)";
                getenv os "LOCALAPPDATA" ])) in
    match truthy found with
    | Some path =>
        perform (Popen [path]) (popen os [path]) ;;;
        ret ("🚀 Opened: " +++ name)
    | None =>
        try_except
          (perform (StartFile exe) (startfile os exe) ;;;
           ret ("🚀 Opened: " +++ name))
          (fun _ => ret ("❌ Couldn't find '" +++ name
                         +++ "'. Is it installed?"))
    end.

(** The loop of [_close_app] over the candidate process names: [true]
    when one [taskkill] returns 0. *)
Fixpoint kill_any (os : Os.t) (process_names : list string) : M bool :=
  match process_names with
  | [] => ret false
  | proc :: rest =>
      let argv := [ "taskkill"; "/f"; "/im";
                    if Str.endswith ".exe" proc then proc
                    else proc +++ ".exe" ] in
      killed <- try_except
                  (r <- perform (RunProcess argv 5) (subprocess_run os argv) ;;
                   ret (Nat.eqb (returncode r) 0))
                  (fun _ => ret false) ;;
      if killed then ret true else kill_any os rest
  end.

(** [_close_app] *)
Definition _close_app (os : Os.t) (name : string) : M string :=
  let name_lower := Str.strip (Str.lower name) in
  let process_names :=
    match get KILL_MAP name_lower with
    | Some (p :: ps) => p :: ps
    | _ => [name_lower; name_lower +++ ".exe"]
    end in
  killed <- kill_any os process_names ;;
  if killed then ret ("❌ Closed: " +++ name)
  else ret ("⚠️ Couldn't find '" +++ name +++ "' running.").

(** [_search_web] *)
Definition _search_web (os : Os.t) (query : string) : M string :=
  let url := "https://www.google.com/search?q=" +++ quote_plus os query in
  perform (Browse url) (webbrowser_open os url) ;;;
  ret ("🔍 Searched: " +++ query).

(** [_open_folder] *)
Definition _open_folder (os : Os.t) (path : string) : M string :=
  let path := expanduser os (Str.replace "/" "\" path) in
  if negb (path_exists os path) then ret ("❌ Folder not found: " +++ path)
  else
    perform (StartFile path) (startfile os path) ;;;
    ret ("📁 Opened: " +++ path).

(** The loop of [_find_file] over the search directories; [results] is
    the list gathered so far. *)
Fixpoint collect (os : Os.t) (pattern : string) (search_dirs : list string)
         (results : list string) : M (list string) :=
  match search_dirs with
  | [] => ret results
  | d :: search_dirs' =>
      results <-
        (if path_exists os d then
           let p := join3 os d "**" pattern in
           found <- perform (Glob p) (glob_recursive os p) ;;
           ret (results ++ firstn 20 found)
         else ret results) ;;
      if 30 <=? length results then ret results
      else collect os pattern search_dirs' results
  end.

Definition search_dirs (os : Os.t) : list string :=
  let home := expanduser os "~" in
  [ path_join os home "Desktop";
    path_join os home "Documents";
    path_join os home "Downloads" ].

(** The entry of one file in the text [_find_file] returns. *)
Definition entry (os : Os.t) (f : string) : string :=
  "  📄 " +++ basename os f +++ Str.newline
  +++ "     " +++ dirname os f +++ Str.newline.

(** The text [_find_file] returns for a non-empty list of results. *)
Definition listing_text (os : Os.t) (results : list string) : string :=
  let display := firstn 10 results in
  let text := "🔍 Found " +++ Str.of_nat (length results) +++ " file(s):"
              +++ Str.newline +++ Str.newline in
  let text := text +++ Str.join (List.map (entry os) display) in
  if 10 <? length results
  then text +++ Str.newline +++ "  ... and "
       +++ Str.of_nat (length results - 10) +++ " more."
  else text.

(** [_find_file] *)
Definition _find_file (os : Os.t) (pattern : string) : M string :=
  results <- collect os pattern (search_dirs os) [] ;;
  match results with
  | [] => ret ("🔍 No files matching '" +++ pattern
               +++ "' found in Desktop, Documents, or Downloads.")
  | _ :: _ => ret (listing_text os results)
  end.

Definition dangerous : list string :=
  [ "format"; "del /"; "rm -rf"; "rmdir"; "rd /s"; ":(){"; "shutdown";
    "restart" ].

(** [stdout or stderr or ""] *)
Definition first_nonempty (a b : string) : string :=
  if Str.is_empty a then b else a.

(** [_system_cmd] *)
Definition _system_cmd (os : Os.t) (command : string) : M string :=
  let cmd_lower := Str.lower command in
  if existsb (fun d => Str.contains d cmd_lower) dangerous then
    ret ("🚫 Blocked potentially dangerous command: " +++ command)
  else
    try_except
      (let argv := ["powershell"; "-Command"; command] in
       r <- perform (RunProcess argv 15) (subprocess_run os argv) ;;
       let output := Str.strip (first_nonempty (stdout r) (stderr r)) in
       let output :=
         if 600 <? String.length output
         then Str.take 600 output +++ Str.newline +++ "... (truncated)"
         else output in
       if Str.is_empty output then ret "⚡ Command executed (no output)."
       else ret ("⚡ Command result:" +++ Str.newline +++ output))
      (fun e =>
         match cls e with
         | TimeoutExpired => ret "⏳ Command timed out after 15 seconds."
         | _ => ret ("❌ " +++ text e)
         end).

(** [_screenshot]; [image_grab] stands for the import of [ImageGrab]
    and the call of [ImageGrab.grab]. *)
Definition _screenshot (os : Os.t) : M string :=
  try_except
    (perform Grab (image_grab os) ;;;
     let desktop := path_join os (expanduser os "~") "Desktop" in
     let ts := strftime os "%Y%m%d_%H%M%S" in
     let path :=
       path_join os desktop ("clippy_screenshot_" +++ ts +++ ".png") in
     perform (SaveImage path) (image_save os path) ;;;
     ret ("📸 Screenshot saved: " +++ path))
    (fun e =>
       match cls e with
       | ImportError =>
           ret "❌ Screenshot requires Pillow with ImageGrab support."
       | _ => ret ("❌ Screenshot failed: " +++ text e)
       end).

(** [_type_text] *)
Definition _type_text (os : Os.t) (text : string) : M string :=
  try_except
    (let ps_text := Str.replace "'" "''" text in
     let argv :=
       [ "powershell"; "-Command";
         "Add-Type -AssemblyName System.Windows.Forms; "
         +++ "[System.Windows.Forms.SendKeys]::SendWait('" +++ ps_text
         +++ "')" ] in
     perform (RunProcess argv 5) (subprocess_run os argv) ;;;
     ret "⌨️ Typed text.")
    (fun e => ret ("❌ Type failed: " +++ Os.text e)).

(** The chain of comparisons inside the [try] of [run]. *)
Definition dispatch (os : Os.t) (cmd arg : string) : M string :=
  if String.eqb cmd "OPEN_URL" then _open_url os arg
  else if String.eqb cmd "OPEN_APP" then _open_app os arg
  else if String.eqb cmd "SEARCH_WEB" then _search_web os arg
  else if String.eqb cmd "OPEN_FOLDER" then _open_folder os arg
  else if String.eqb cmd "FIND_FILE" then _find_file os arg
  else if String.eqb cmd "SYSTEM_CMD" then _system_cmd os arg
  else if String.eqb cmd "CLOSE_APP" then _close_app os arg
  else if String.eqb cmd "SCREENSHOT" then _screenshot os
  else if String.eqb cmd "TYPE_TEXT" then _type_text os arg
  else ret ("⚠️ Unknown action: " +++ cmd).

(** [ActionExecutor.run(cmd, arg)] *)
Definition run (os : Os.t) (cmd arg : string) : M string :=
  try_except (dispatch os cmd arg)
             (fun e => ret ("❌ Action failed: " +++ text e)).

End ActionExecutor.

(* ================================================================== *)
(** * ChatWindow: one conversational turn *)
(* ================================================================== *)

Module ChatWindow.
Import Re.

(** A [tk.Label] of the chat: the text it shows and whether its bubble
    was destroyed.  The window keeps its labels in the order in which
    [_add_bubble] made them; [_bot_label] refers to one of them by its
    position, so an update through [_bot_label] is seen in the window. *)
Record label : Type := Label { shown : string; destroyed : bool }.

Record t : Type := Make {
  top : bool;                       (* [self.top] is a window *)
  is_streaming : bool;
  cancel_event : bool;
  _bot_label : option nat;
  _intents_fired : bool;
  labels : list label
}.

(** The background threads a handler starts. *)
Inductive thread : Type :=
| run_intents (intents : list IntentDetector.action)
| chat_stream (text : string)
| execute_actions (actions : list string).

Inductive bubble : Type := is_user | is_bot | is_error | is_action.

Definition bot_prefix : string := "📎  ".

(** [_add_bubble(text, ...)]: the new window and the label made. *)
Definition _add_bubble (w : t) (text : string) (b : bubble) : t * nat :=
  let prefix :=
    match b with
    | is_bot => bot_prefix
    | is_action => "✓  "
    | _ => Str.empty
    end in
  (Make (top w) (is_streaming w) (cancel_event w) (_bot_label w)
        (_intents_fired w) (labels w ++ [Label (prefix +++ text) false]),
   length (labels w)).

(** [lbl.cget("text")] and [lbl.configure(text=...)] *)
Definition cget (w : t) (lbl : nat) : string :=
  match nth_error (labels w) lbl with
  | Some l => shown l
  | None => Str.empty
  end.

Fixpoint update (ls : list label) (lbl : nat) (f : label -> label)
  : list label :=
  match ls, lbl with
  | [], _ => []
  | l :: ls', O => f l :: ls'
  | l :: ls', S n => l :: update ls' n f
  end.

Definition with_labels (w : t) (ls : list label) : t :=
  Make (top w) (is_streaming w) (cancel_event w) (_bot_label w)
       (_intents_fired w) ls.

Definition configure (w : t) (lbl : nat) (text : string) : t :=
  with_labels w (update (labels w) lbl (fun l => Label text (destroyed l))).

Definition destroy (w : t) (lbl : nat) : t :=
  with_labels w (update (labels w) lbl (fun l => Label (shown l) true)).

(** [_finish] *)
Definition _finish (w : t) : t :=
  Make (top w) false (cancel_event w) None false (labels w).

(** [_send], with [entry] the content of the entry field. *)
Definition _send (os : Os.t) (apps : list string) (w : t) (entry : string)
  : t * list thread :=
  if negb (top w) || is_streaming w then (w, [])
  else
    let text := Str.strip entry in
    if Str.is_empty text then (w, [])
    else
      let w := fst (_add_bubble w text is_user) in
      let intents := IntentDetector.detect os apps text in
      let fired := negb (OllamaChat.is_nil intents) in
      let started := if fired then [run_intents intents] else [] in
      let '(w, lbl) := _add_bubble w Str.empty is_bot in
      (Make (top w) true false (Some lbl) fired (labels w),
       started ++ [chat_stream text]).

(** [_append_chunk] *)
Definition _append_chunk (w : t) (text : string) : t :=
  match _bot_label w with
  | Some lbl => configure w lbl (cget w lbl +++ text)
  | None => w
  end.

(** [_cancel] *)
Definition _cancel (w : t) : t :=
  Make (top w) (is_streaming w) true (_bot_label w) (_intents_fired w)
       (labels w).

(** [_show_error] *)
Definition _show_error (w : t) (err : string) : t :=
  let w := match _bot_label w with
           | Some lbl => destroy w lbl
           | None => w
           end in
  _finish (fst (_add_bubble w err is_error)).

(** \[ACTION:[^\]]*\] and \[ACTION:([^\]]+)\] *)
Definition tag_re : re :=
  seqs [ Lit "[ACTION:"; Star true (NoneOf ["]"%char]); Lit "]" ].
Definition tag_body_re : re :=
  seqs [ Lit "[ACTION:"; Grp 1 (Plus true (NoneOf ["]"%char])); Lit "]" ].

(** The text of the bot label without its prefix.  The program writes
    [full_text[3:]]: three characters, the length of [bot_prefix]. *)
Definition unprefixed (full_text : string) : string :=
  if Str.startswith bot_prefix full_text
  then Str.drop (String.length bot_prefix) full_text
  else full_text.

(** [_finish_and_run_actions] *)
Definition _finish_and_run_actions (w : t) : t * list thread :=
  match _bot_label w with
  | Some lbl =>
      let full_text := unprefixed (cget w lbl) in
      let clean := Str.strip (sub_empty tag_re full_text) in
      let w := if Str.is_empty clean then w
               else configure w lbl (bot_prefix +++ clean) in
      let started :=
        if negb (_intents_fired w) then
          let actions := findall tag_body_re full_text in
          if OllamaChat.is_nil actions then []
          else [execute_actions actions]
        else [] in
      (_finish w, started)
  | None => (_finish w, [])
  end.

(** The command and the argument [_execute_actions] takes from the body
    of one tag. *)
Definition parse_action (action_str : string) : IntentDetector.action :=
  let parts := Str.split_once "|" action_str in
  let cmd := Str.upper (Str.strip (fst parts)) in
  let arg := match snd parts with
             | Some a => Str.strip a
             | None => Str.empty
             end in
  (cmd, arg).

(** The calls of [ActionExecutor.run] a thread makes, one after the
    other; the non-empty results become action bubbles. *)
Fixpoint run_all (os : Os.t) (l : list IntentDetector.action)
  : ActionExecutor.M (list string) :=
  match l with
  | [] => ActionExecutor.ret []
  | (cmd, arg) :: l' =>
      ActionExecutor.bind (ActionExecutor.run os cmd arg) (fun result =>
      ActionExecutor.bind (run_all os l') (fun results =>
      ActionExecutor.ret
        (if Str.is_empty result then results else result :: results)))
  end.

(** [_execute_actions(actions)] and the thread [_run_intents] *)
Definition _execute_actions (os : Os.t) (actions : list string)
  : ActionExecutor.M (list string) :=
  run_all os (List.map parse_action actions).

Definition _run_intents (os : Os.t) (intents : list IntentDetector.action)
  : ActionExecutor.M (list string) :=
  run_all os intents.

(** [GREETING] *)
Definition GREETING : string :=
let nl := Str.newline in
let dq := String (ascii_of_nat 34) EmptyString in
Str.join [
  "Hi! I'm Clippy! 📎"; nl; nl; "I can chat AND do things for you!"; nl;
  nl; "Try saying:"; nl; "• "; dq; "Open YouTube"; dq; nl;
  "• "; dq; "Google how to learn Python"; dq; nl;
  "• "; dq; "Open my Documents folder"; dq; nl;
  "• "; dq; "Find PDF files on my Desktop"; dq; nl;
  "• "; dq; "Take a screenshot"; dq; nl; nl;
  "Or just chat! Type below and press Enter." ].

(** [w.destroy()] for every bubble of the chat. *)
Definition destroy_all (ls : list label) : list label :=
  List.map (fun l => Label (shown l) true) ls.

(** [_clear], the trash button of the header, as far as the window goes:
    its call of [self.app.chat.clear()] acts on the conversation, which
    the chat service holds ([OllamaChat.clear]).  It does not wait for
    the stream it cancels and leaves [_intents_fired] alone. *)
Definition _clear (w : t) : t :=
  let cancel := if is_streaming w then true else cancel_event w in
  let w := Make (top w) false cancel None (_intents_fired w) (labels w) in
  if top w then
    fst (_add_bubble (with_labels w (destroy_all (labels w))) GREETING is_bot)
  else w.

(** [close], the button that closes the window.  [is_open], which it
    resets, is read by [open] and [toggle] only and is not part of [t];
    destroying [self.top] destroys every bubble. *)
Definition close (w : t) : t :=
  let cancel := if is_streaming w then true else cancel_event w in
  Make false false cancel None (_intents_fired w)
       (if top w then destroy_all (labels w) else labels w).

(** [_on_chunk]: the fragment is handed to [_append_chunk] when the
    window exists. *)
Definition _on_chunk (w : t) (text : string) : t :=
  if top w then _append_chunk w text else w.

(** What reaches the window once it is open: a fragment of a reply, a
    click on the stop button, the Return key in the entry field, a click
    on the trash button, a click on the button that closes the window.
    The last two are accepted while a reply is streaming.  A fragment is
    a string here: for a value that is not one, [_append_chunk] raises
    inside the callback of the event loop and the window stays as it
    is. *)
Inductive ui_event : Type :=
| Chunk (text : string)
| StopClick
| ReturnKey (entry : string)
| ClearClick
| CloseClick.

Definition handle (os : Os.t) (apps : list string) (w : t) (ev : ui_event)
  : t * list thread :=
  match ev with
  | Chunk text => (_on_chunk w text, [])
  | StopClick => (_cancel w, [])
  | ReturnKey entry => _send os apps w entry
  | ClearClick => (_clear w, [])
  | CloseClick => (close w, [])
  end.

Fixpoint handle_all (os : Os.t) (apps : list string) (w : t)
         (evs : list ui_event) : t * list thread :=
  match evs with
  | [] => (w, [])
  | ev :: evs' =>
      let '(w1, started) := handle os apps w ev in
      let '(w2, started') := handle_all os apps w1 evs' in
      (w2, started ++ started')
  end.

End ChatWindow.

(* ================================================================== *)
(** * Sample environments *)
(* ================================================================== *)

(** Concrete machines and backends on which the statements below are
    exercised. *)

Module Sample.

Definition home : string := "C:\Users\me".

Definition expanduser (p : string) : string :=
  if Str.startswith "~" p then home +++ Str.drop 1 p else p.

Definition path_join (a b : string) : string := a +++ "\" +++ b.

Definition boom : Os.exn := Os.Exn Os.OtherException "boom".

(** A machine on which the paths [present] exist, [glob] answers the
    searches, no program is installed and every call succeeds. *)
Definition os (present : string -> bool) (glob : string -> list string)
  : Os.t :=
  Os.Make expanduser path_join present
    (fun p => p) (fun p => p) "\"
    (fun _ => None) (fun _ => None) (fun _ => None)
    (fun p => Os.Ok (glob p))
    (fun _ => Os.Ok tt) (fun _ => Os.Ok tt) (fun _ => Os.Ok tt)
    (fun _ => Os.Ok (Os.Completed 0 Str.empty Str.empty))
    (fun q => q) (Os.Ok tt) (fun _ => "20260101_120000")
    (fun _ => Os.Ok tt).

(** The bare machine: no path exists and no search finds a file. *)
Definition bare : Os.t := os (fun _ => false) (fun _ => []).

(** The bare machine with a browser that cannot be started. *)
Definition no_browser : Os.t :=
  Os.Make expanduser path_join (fun _ => false)
    (fun p => p) (fun p => p) "\"
    (fun _ => None) (fun _ => None) (fun _ => None)
    (fun _ => Os.Ok [])
    (fun _ => Os.Raise boom) (fun _ => Os.Ok tt) (fun _ => Os.Ok tt)
    (fun _ => Os.Ok (Os.Completed 0 Str.empty Str.empty))
    (fun q => q) (Os.Ok tt) (fun _ => "20260101_120000")
    (fun _ => Os.Ok tt).

(** [n] files below the directory [d]. *)
Definition files (d : string) (n : nat) : list string :=
  List.map (fun i => d +++ "\f" +++ Str.of_nat i +++ ".txt") (seq 0 n).

(** A machine with 20 matches on the Desktop, 9 in Documents and 20 in
    Downloads. *)
Definition crowded : Os.t :=
  os (fun _ => true)
     (fun p =>
        if Str.startswith (path_join home "Desktop") p
        then files (path_join home "Desktop") 20
        else if Str.startswith (path_join home "Documents") p
        then files (path_join home "Documents") 9
        else files (path_join home "Downloads") 20).

Definition settings : OllamaChat.Settings :=
  OllamaChat.MkSettings "http://localhost:11434" "llama3.2".

(** A backend that answers the probe with [probe] and the chat request
    with the status [status] and the stream [lines]; [models] are the
    models installed. *)
Definition net (probe status : nat) (models : list string)
           (lines : list OllamaChat.item) : OllamaChat.Net :=
  OllamaChat.MkNet
    (fun _ => Os.Ok probe)
    (fun _ => Os.Ok (200, models))
    (fun _ _ _ => Os.Ok (OllamaChat.Response status Str.empty lines)).

(** A backend that refuses the connection. *)
Definition down : OllamaChat.Net :=
  OllamaChat.MkNet
    (fun _ => Os.Raise (Os.Exn Os.ConnectionError "refused"))
    (fun _ => Os.Raise (Os.Exn Os.ConnectionError "refused"))
    (fun _ _ _ => Os.Raise (Os.Exn Os.ConnectionError "refused")).

(** An open chat window in which no turn is under way. *)
Definition idle : ChatWindow.t :=
  ChatWindow.Make true false false None false [].

(** The window at the end of a stream whose reply is [reply], with no
    local action fired. *)
Definition replied (reply : string) : ChatWindow.t :=
  ChatWindow.Make true true false (Some 0) false
    [ChatWindow.Label (ChatWindow.bot_prefix +++ reply) false].

Definition example_reply : string := "Sure! [ACTION:OPEN_URL|https://x.test]".

(** A stream in which the token is found set at the second record. *)
Definition interrupted : list OllamaChat.item :=
  [ OllamaChat.Got false (OllamaChat.Data None (OllamaChat.Text "Hel") false);
    OllamaChat.Got true (OllamaChat.Data None (OllamaChat.Text "lo") false);
    OllamaChat.Got false (OllamaChat.Data None (OllamaChat.Text "!") true) ].

(** The same stream, with a number where the first fragment should
    be. *)
Definition interrupted_after_number : list OllamaChat.item :=
  [ OllamaChat.Got false (OllamaChat.Data None (OllamaChat.Foreign true) false);
    OllamaChat.Got true (OllamaChat.Data None (OllamaChat.Text "lo") false);
    OllamaChat.Got false (OllamaChat.Data None (OllamaChat.Text "!") true) ].

(** What [_find_file] gathers on the crowded machine. *)
Definition crowded_results : list string :=
  files (path_join home "Desktop") 20
  ++ files (path_join home "Documents") 9
  ++ files (path_join home "Downloads") 20.

End Sample.

(* ================================================================== *)
(** * Notions used in the statements *)
(* ================================================================== *)

Module Spec.

(** Two characters are equal up to case: they are the same, or one is a
    capital letter and the other the matching small letter. *)
Definition ci_eqb (a b : ascii) : bool :=
  Ascii.eqb a b
  || (Str.is_upper a && Nat.eqb (Str.code b) (Str.code a + 32))
  || (Str.is_upper b && Nat.eqb (Str.code a) (Str.code b + 32)).

(** Two strings are equal up to case. *)
Fixpoint ci_equal (s d : string) : bool :=
  match s, d with
  | EmptyString, EmptyString => true
  | String a s', String b d' => ci_eqb a b && ci_equal s' d'
  | _, _ => false
  end.

(** [d] occurs in [s] as a case-insensitive substring. *)
Definition ci_occurs (d s : string) : Prop :=
  exists before mid after : string,
    s = before +++ mid +++ after /\ ci_equal mid d = true.

(** The character [ch] occurs in [s]. *)
Fixpoint has (ch : ascii) (s : string) : bool :=
  match s with
  | EmptyString => false
  | String c s' => Ascii.eqb c ch || has ch s'
  end.

(** A stream item that the loop of [OllamaChat.stream] passes without
    leaving: the token is not set, and the line is empty, malformed, or a
    record with no error that does not end the stream. *)
Definition passes (i : OllamaChat.item) : bool :=
  match i with
  | OllamaChat.Got false OllamaChat.Blank => true
  | OllamaChat.Got false OllamaChat.Malformed => true
  | OllamaChat.Got false (OllamaChat.Data None _ false) => true
  | _ => false
  end.

(** The fragments that the records among the items carry and that
    Python takes for true, in the order of the items. *)
Fixpoint deltas (items : list OllamaChat.item) : list OllamaChat.fragment :=
  match items with
  | [] => []
  | OllamaChat.Got _ (OllamaChat.Data _ delta _) :: items' =>
      if OllamaChat.truthy delta then delta :: deltas items'
      else deltas items'
  | _ :: items' => deltas items'
  end.

(** The address of the backend, [base] in [OllamaChat.stream]. *)
Definition base (settings : OllamaChat.Settings) : string :=
  Str.rstrip_char "/" (OllamaChat.ollama_url settings).

(** The configuration check and the liveness probe of
    [OllamaChat.stream] both succeed. *)
Definition reachable (net : OllamaChat.Net) (settings : OllamaChat.Settings)
  : bool :=
  let base := Str.rstrip_char "/" (OllamaChat.ollama_url settings) in
  negb (Str.is_empty base)
  && negb (Str.is_empty (OllamaChat.model settings))
  && OllamaChat.is_running net base.

(** The chat request that [OllamaChat.stream] sends. *)
Definition chat_request (net : OllamaChat.Net)
           (settings : OllamaChat.Settings) (messages : list OllamaChat.message)
           (user_text : string) : Os.outcome OllamaChat.response :=
  let base := Str.rstrip_char "/" (OllamaChat.ollama_url settings) in
  OllamaChat.post_chat net (base +++ "/api/chat")
    (OllamaChat.model settings)
    (messages ++ [OllamaChat.Message "user" user_text]).

(** The three directories that [_find_file] searches. *)
Definition desktop (os : Os.t) : string :=
  Os.path_join os (Os.expanduser os "~") "Desktop".
Definition documents (os : Os.t) : string :=
  Os.path_join os (Os.expanduser os "~") "Documents".
Definition downloads (os : Os.t) : string :=
  Os.path_join os (Os.expanduser os "~") "Downloads".

(** What one search directory adds to the results of [_find_file]. *)
Definition contribution (os : Os.t) (pattern d : string) : list string :=
  if Os.path_exists os d then
    match Os.glob_recursive os (Os.join3 os d "**" pattern) with
    | Os.Ok found => firstn 20 found
    | Os.Raise _ => []
    end
  else [].

(** What the Desktop, Documents and Downloads add. *)
Definition on_desktop (os : Os.t) (pattern : string) : list string :=
  contribution os pattern (desktop os).
Definition in_documents (os : Os.t) (pattern : string) : list string :=
  contribution os pattern (documents os).
Definition in_downloads (os : Os.t) (pattern : string) : list string :=
  contribution os pattern (downloads os).

(** The class of the characters that are not a closing bracket. *)
Definition not_bracket : Re.re := Re.NoneOf ["]"%char].

End Spec.

(* ================================================================== *)
(** * Further notions used in the statements *)
(* ================================================================== *)

Module Props.

(** A line that carries nothing: empty, or one on which [json.loads]
    raises JSONDecodeError, met while the token is not set. *)
Definition noise (i : OllamaChat.item) : bool :=
  match i with
  | OllamaChat.Got false OllamaChat.Blank => true
  | OllamaChat.Got false OllamaChat.Malformed => true
  | _ => false
  end.

(** The conversation once the user message of the call is appended. *)
Definition sent (messages : list OllamaChat.message) (user_text : string)
  : list OllamaChat.message :=
  messages ++ [OllamaChat.Message "user" user_text].

(** The assistant message for the text of a reply: none when the text
    is empty. *)
Definition reply (text : string) : list OllamaChat.message :=
  if Str.is_empty text then []
  else [OllamaChat.Message "assistant" text].

(** The part of the stream that the loop reads to the end of its body:
    the items it passes, up to and including a record with the [done]
    flag; it stops before an item at which the token is set, a record
    with an error, a line it cannot use and a fault of the transport. *)
Fixpoint read (items : list OllamaChat.item) : list OllamaChat.item :=
  match items with
  | [] => []
  | i :: items' =>
      if Spec.passes i then i :: read items'
      else
        match i with
        | OllamaChat.Got false (OllamaChat.Data None _ true) => [i]
        | _ => []
        end
  end.

(** The fragments a call has to report: those of the part of the stream
    that the loop reads, when the backend is reachable and answers the
    chat request with the status 200; none otherwise. *)
Definition reported (net : OllamaChat.Net) (settings : OllamaChat.Settings)
           (messages : list OllamaChat.message) (user_text : string)
  : list OllamaChat.fragment :=
  if Spec.reachable net settings then
    match Spec.chat_request net settings messages user_text with
    | Os.Ok resp =>
        if Nat.eqb (OllamaChat.status_code resp) 200
        then Spec.deltas (read (OllamaChat.lines resp))
        else []
    | Os.Raise _ => []
    end
  else [].

(** The end of a call whose loop was left with the fragments [ds]
    gathered and reported.  When they are all strings, their
    concatenation is stored as the reply and [on_done] is invoked.  When
    one of them is not a string, the join raises TypeError: nothing is
    stored and no closing callback is invoked. *)
Definition completed (messages : list OllamaChat.message) (user_text : string)
           (ds : list OllamaChat.fragment)
  : list OllamaChat.message * list OllamaChat.callback :=
  match OllamaChat.join_text ds with
  | Some text =>
      (sent messages user_text ++ reply text,
       List.map OllamaChat.on_chunk ds ++ [OllamaChat.on_done])
  | None =>
      (sent messages user_text,
       List.map OllamaChat.on_chunk ds ++ [OllamaChat.raises_TypeError])
  end.

End Props.

Module ActionProps.
Import ActionExecutor.

(** [url] carries the scheme of the web. *)
Definition has_scheme (url : string) : bool :=
  Str.startswith "http://" url || Str.startswith "https://" url.

(** The effect is a forced [taskkill] of an image whose name ends in
    [.exe], given five seconds. *)
Definition is_taskkill (e : effect) : bool :=
  match e with
  | RunProcess [a; b; c; image] 5 =>
      String.eqb a "taskkill" && String.eqb b "/f" && String.eqb c "/im"
      && Str.endswith ".exe" image
  | _ => false
  end.

(** The effect starts a program or opens a file. *)
Definition is_launch (e : effect) : bool :=
  match e with
  | StartFile _ => true
  | Popen [_] => true
  | _ => false
  end.

(** Every apostrophe of [s], the character U+0027, is followed by a
    second one that belongs to it. *)
Fixpoint quotes_paired (s : string) : bool :=
  match s with
  | EmptyString => true
  | String c s' =>
      if Ascii.eqb c "'" then
        match s' with
        | String c' s'' => Ascii.eqb c' "'" && quotes_paired s''
        | EmptyString => false
        end
      else quotes_paired s'
  end.

(** [s] with every pair of apostrophes turned into one apostrophe. *)
Fixpoint halve (s : string) : string :=
  match s with
  | EmptyString => EmptyString
  | String c s' =>
      if Ascii.eqb c "'" then
        match s' with
        | String c' s'' =>
            if Ascii.eqb c' "'" then String c (halve s'')
            else String c (halve s')
        | EmptyString => String c EmptyString
        end
      else String c (halve s')
  end.

(** The command line of [_type_text] for the text [ps_text] between the
    apostrophes. *)
Definition send_keys (ps_text : string) : list string :=
  [ "powershell"; "-Command";
    "Add-Type -AssemblyName System.Windows.Forms; "
    +++ "[System.Windows.Forms.SendKeys]::SendWait('" +++ ps_text
    +++ "')" ].

(** The handler of each command that [run] knows, with the argument it
    is given. *)
Definition handlers (os : Os.t) (arg : string) : list (string * M string) :=
  [ ("OPEN_URL", _open_url os arg);
    ("OPEN_APP", _open_app os arg);
    ("SEARCH_WEB", _search_web os arg);
    ("OPEN_FOLDER", _open_folder os arg);
    ("FIND_FILE", _find_file os arg);
    ("SYSTEM_CMD", _system_cmd os arg);
    ("CLOSE_APP", _close_app os arg);
    ("SCREENSHOT", _screenshot os);
    ("TYPE_TEXT", _type_text os arg) ].

Fixpoint handler_in (table : list (string * M string)) (cmd : string)
  : option (M string) :=
  match table with
  | [] => None
  | (name, m) :: table' =>
      if String.eqb cmd name then Some m else handler_in table' cmd
  end.

(** The handler of the command [cmd], when [run] knows the command. *)
Definition handler (os : Os.t) (cmd arg : string) : option (M string) :=
  handler_in (handlers os arg) cmd.

(** The text [_system_cmd] returns for the output [out] of a command. *)
Definition command_result (out : string) : string :=
  "⚡ Command result:" +++ Str.newline +++ out.

End ActionProps.

Module TextProps.

(** Every character of [s] is white space. *)
Fixpoint blank (s : string) : bool :=
  match s with
  | EmptyString => true
  | String c s' => Str.is_space c && blank s'
  end.

(** The commands that [IntentDetector.detect] can return. *)
Definition detected_commands : list string :=
  [ "CLOSE_APP"; "SCREENSHOT"; "SEARCH_WEB"; "FIND_FILE"; "OPEN_URL";
    "OPEN_FOLDER"; "OPEN_APP" ].

End TextProps.

Module TurnProps.
Import ChatWindow.

(** The events of a turn: fragments of the reply, stop clicks and
    presses of the Return key; the chat is neither cleared nor closed. *)
Definition in_turn (ev : ui_event) : bool :=
  match ev with
  | Chunk _ | StopClick | ReturnKey _ => true
  | ClearClick | CloseClick => false
  end.

(** The text of the fragments among the events. *)
Fixpoint fragments (evs : list ui_event) : string :=
  match evs with
  | [] => EmptyString
  | Chunk text :: evs' => text +++ fragments evs'
  | _ :: evs' => fragments evs'
  end.

(** The effects of the calls of [ActionExecutor.run], one action after
    the other. *)
Fixpoint logs (os : Os.t) (l : list IntentDetector.action)
  : list ActionExecutor.effect :=
  match l with
  | [] => []
  | (cmd, arg) :: l' =>
      ActionExecutor.log (ActionExecutor.run os cmd arg) ++ logs os l'
  end.

End TurnProps.

(* ================================================================== *)
(** * Positions on the screen *)
(* ================================================================== *)

Module Screen.
Local Open Scope Z_scope.

(** [_get_virtual_screen_bounds]; [metrics] is what the four calls of
    [GetSystemMetrics] give (left [x], top [y], width [w], height [h]), or the
    exception raised on the way. *)
Definition _get_virtual_screen_bounds (metrics : Os.outcome (Z * Z * Z * Z))
  : Z * Z * Z * Z :=
  match metrics with
  | Os.Ok (x, y, w, h) =>
      if (0 <? w) && (0 <? h) then (x, y, x + w, y + h)
      else (0, 0, 1920, 1080)
  | Os.Raise _ => (0, 0, 1920, 1080)
  end.

(** The target [_do_roam] walks to from [(cx, cy)]; [dx] and [dy] are
    the two numbers drawn with [random.randint]. *)
Definition roam_target (bounds : Z * Z * Z * Z) (cx cy dx dy : Z) : Z * Z :=
  let '(vl, vt, vr, vb) := bounds in
  (Z.max (vl + 20) (Z.min (vr - 110) (cx + dx)),
   Z.max (vt + 20) (Z.min (vb - 140) (cy + dy))).

(** [ClippyApp._do_roam]: the walk [_roam_to(cx, cy, tx, ty)] it starts,
    or nothing when the chat is open or Clippy is being dragged. *)
Definition _do_roam (chat_open dragging : bool)
           (metrics : Os.outcome (Z * Z * Z * Z)) (cx cy dx dy : Z)
  : option (Z * Z * Z * Z) :=
  if chat_open || dragging then None
  else
    let '(tx, ty) :=
      roam_target (_get_virtual_screen_bounds metrics) cx cy dx dy in
    Some (cx, cy, tx, ty).

Definition chat_w : Z := 420.
Definition chat_h : Z := 540.

(** Where [ChatWindow.open] puts the chat window: [(cx, cy)] is the
    position of Clippy, [root_w] its width, [sw] and [sh] the size of
    the screen. *)
Definition open_position (cx cy root_w sw sh : Z) : Z * Z :=
  let px := cx - chat_w - 10 in
  let px := if px <? 0 then cx + root_w + 10 else px in
  let px := Z.max 0 (Z.min px (sw - chat_w)) in
  let py := cy - chat_h / 2 in
  let py := Z.max 0 (Z.min py (sh - chat_h - 40)) in
  (px, py).

End Screen.

(* ================================================================== *)
(** * AnimatedSprite *)
(* ================================================================== *)

Module AnimatedSprite.

(** A frame of an image file: the picture, and the duration its
    [info] gives when it gives one. *)
Record frame : Type := Frame { picture : nat; duration : option nat }.

(** An opened image: whether it has the attribute [n_frames], and its
    frames, of which there is at least one. *)
Record image : Type := Image {
  has_n_frames : bool;
  first_frame : frame;
  more_frames : list frame
}.

Definition n_frames (img : image) : nat := S (length (more_frames img)).

Record t : Type := Sprite {
  frames : list nat;
  durations : list nat;
  current : nat
}.

(** [_load]: the frames and the durations it appends. *)
Definition _load (img : image) : list nat * list nat :=
  if has_n_frames img && (1 <? n_frames img) then
    let sequence := first_frame img :: more_frames img in
    (List.map picture sequence,
     List.map (fun f => Nat.max (match duration f with
                                 | Some dur => dur
                                 | None => 100
                                 end) 30) sequence)
  else ([picture (first_frame img)], [100]).

(** [__init__] *)
Definition init (img : image) : t :=
  Sprite (fst (_load img)) (snd (_load img)) 0.

(** [is_animated] *)
Definition is_animated (s : t) : bool := 1 <? length (frames s).

(** [next_frame]: the frame and its duration, and the sprite after the
    call; [None] stands for the [IndexError] of an index out of range. *)
Definition next_frame (s : t) : option (nat * nat * t) :=
  match nth_error (frames s) (current s),
        nth_error (durations s) (current s) with
  | Some frame, Some dur =>
      Some (frame, dur,
            Sprite (frames s) (durations s)
                   ((current s + 1) mod length (frames s)))
  | _, _ => None
  end.

(** [reset] *)
Definition reset (s : t) : t := Sprite (frames s) (durations s) 0.

(** [k] calls of [next_frame] in a row: what they return, in order. *)
Fixpoint play (s : t) (k : nat) : option (list (nat * nat) * t) :=
  match k with
  | O => Some ([], s)
  | S k' =>
      match next_frame s with
      | Some (frame, dur, s') =>
          match play s' k' with
          | Some (shown, s'') => Some ((frame, dur) :: shown, s'')
          | None => None
          end
      | None => None
      end
  end.

(** A sprite that [next_frame] can serve for ever: as many durations
    as frames, the index within range, no duration under 30. *)
Definition playable (s : t) : Prop :=
  length (durations s) = length (frames s)
  /\ current s < length (frames s)
  /\ Forall (fun dur => 30 <= dur) (durations s).

End AnimatedSprite.

(* ================================================================== *)
(** * SettingsDialog *)
(* ================================================================== *)

Module SettingsDialog.

Definition DEFAULT_OLLAMA_URL : string := "http://localhost:11434".
Definition DEFAULT_MODEL : string := "llama3.2".

(** [Settings], all its fields. *)
Record settings : Type := Settings {
  ollama_url : string;
  model : string;
  always_on_top : bool;
  idle_roaming : bool;
  show_tips : bool;
  auto_start_ollama : bool;
  pos_x : option Z;
  pos_y : option Z
}.

(** What the widgets of the dialog hold. *)
Record dialog : Type := Dialog {
  url_entry : string;
  model_entry : string;
  on_top : bool;
  roaming : bool;
  tips : bool;
  auto_ollama : bool
}.

(** [s or d] on strings *)
Definition or_default (s d : string) : string :=
  if Str.is_empty s then d else s.

(** [_save]: the settings after it; they are then written to the
    settings file and the dialog is destroyed. *)
Definition _save (d : dialog) (s : settings) : settings :=
  Settings (or_default (Str.strip (url_entry d)) DEFAULT_OLLAMA_URL)
           (or_default (Str.strip (model_entry d)) DEFAULT_MODEL)
           (on_top d) (roaming d) (tips d) (auto_ollama d)
           (pos_x s) (pos_y s).

(** The two settings that [OllamaChat.stream] reads. *)
Definition for_chat (s : settings) : OllamaChat.Settings :=
  OllamaChat.MkSettings (ollama_url s) (model s).

(** Every character of [s] satisfies [p]. *)
Fixpoint all (p : ascii -> bool) (s : string) : bool :=
  match s with
  | EmptyString => true
  | String c s' => p c && all p s'
  end.

End SettingsDialog.

(* ================================================================== *)
(** * OllamaManager.auto_start *)
(* ================================================================== *)

Module OllamaManager.
Import Os.

(** What [auto_start] does, step by step. *)
Inductive step : Type :=
| Probe                          (* a call of [is_running] *)
| Launch (argv : list string)    (* [subprocess.Popen] *)
| Sleep (seconds : nat).         (* [time.sleep] *)

(** The places where the program looks for Ollama when it is not on
    the search path. *)
Definition candidates (os : Os.t) : list string :=
  [ path_join os
      (path_join os
         (path_join os (ActionExecutor.getenv os "LOCALAPPDATA") "Programs")
         "Ollama")
      "ollama.exe";
    path_join os
      (path_join os (ActionExecutor.getenv os "PROGRAMFILES") "Ollama")
      "ollama.exe";
    "C:\Program Files\Ollama\ollama.exe" ].

Definition locate (os : Os.t) : option string :=
  match ActionExecutor.truthy (which os "ollama") with
  | Some path => Some path
  | None => find (path_exists os) (candidates os)
  end.

(** The loop that waits for the server: [tries] rounds of one second of
    sleep and a probe; [running k] is the answer of probe number [k]. *)
Fixpoint wait (running : nat -> bool) (k tries : nat)
  : list step * option string :=
  match tries with
  | O =>
      ([], Some "⏳ Ollama started but isn't responding yet. Try again in a moment.")
  | S tries' =>
      if running k then ([Sleep 1; Probe], None)
      else
        let '(steps, err) := wait running (S k) tries' in
        (Sleep 1 :: Probe :: steps, err)
  end.

(** [auto_start(url)]: the steps taken and the error message, [None]
    on success.  The answers of the successive probes of [url] are
    [running 0], [running 1], ... *)
Definition auto_start (os : Os.t) (running : nat -> bool)
  : list step * option string :=
  if running 0 then ([Probe], None)
  else
    match locate os with
    | None =>
        ([Probe],
         Some ("❌ Ollama not found on your system." +++ Str.newline
               +++ Str.newline +++ "Install it from:" +++ Str.newline
               +++ "https://ollama.com/download"))
    | Some ollama_path =>
        match popen os [ollama_path; "serve"] with
        | Raise e =>
            ([Probe; Launch [ollama_path; "serve"]],
             Some ("❌ Failed to start Ollama: " +++ text e))
        | Ok _ =>
            let '(steps, err) := wait running 1 15 in
            (Probe :: Launch [ollama_path; "serve"] :: steps, err)
        end
    end.

(** Counts over the steps. *)
Fixpoint launches (steps : list step) : nat :=
  match steps with
  | [] => 0
  | Launch _ :: l => S (launches l)
  | _ :: l => launches l
  end.

Fixpoint probes (steps : list step) : nat :=
  match steps with
  | [] => 0
  | Probe :: l => S (probes l)
  | _ :: l => probes l
  end.

Fixpoint slept (steps : list step) : nat :=
  match steps with
  | [] => 0
  | Sleep n :: l => n + slept l
  | _ :: l => slept l
  end.

End OllamaManager.

(* ================================================================== *)
(** * Further sample environments *)
(* ================================================================== *)

Module Scenario.

(** A stream in which the second record carries an error. *)
Definition failing : list OllamaChat.item :=
  [ OllamaChat.Got false (OllamaChat.Data None (OllamaChat.Text "Hel") false);
    OllamaChat.Got false
      (OllamaChat.Data (Some "out of memory") (OllamaChat.Text "lo") false);
    OllamaChat.Got false (OllamaChat.Data None (OllamaChat.Text "!") true) ].

(** A stream that ends with the [done] flag while a record follows. *)
Definition finishing : list OllamaChat.item :=
  [ OllamaChat.Got false (OllamaChat.Data None (OllamaChat.Text "Hel") false);
    OllamaChat.Got false OllamaChat.Blank;
    OllamaChat.Got false (OllamaChat.Data None (OllamaChat.Text "lo") true);
    OllamaChat.Got false (OllamaChat.Data None (OllamaChat.Text "!") false) ].

(** The same stream, with a non-empty list for the last fragment. *)
Definition finishing_with_a_list : list OllamaChat.item :=
  [ OllamaChat.Got false (OllamaChat.Data None (OllamaChat.Text "Hel") false);
    OllamaChat.Got false OllamaChat.Blank;
    OllamaChat.Got false (OllamaChat.Data None (OllamaChat.Foreign true) true);
    OllamaChat.Got false (OllamaChat.Data None (OllamaChat.Text "!") false) ].

(** The text made of [n] times the letter a. *)
Fixpoint letters (n : nat) : string :=
  match n with
  | O => EmptyString
  | S n' => String "a" (letters n')
  end.

(** The bare machine, on which every command prints 700 letters. *)
Definition chatty : Os.t :=
  Os.Make Sample.expanduser Sample.path_join (fun _ => false)
    (fun p => p) (fun p => p) "\"
    (fun _ => None) (fun _ => None) (fun _ => None)
    (fun _ => Os.Ok [])
    (fun _ => Os.Ok tt) (fun _ => Os.Ok tt) (fun _ => Os.Ok tt)
    (fun _ => Os.Ok (Os.Completed 0 (letters 700) Str.empty))
    (fun q => q) (Os.Ok tt) (fun _ => "20260101_120000")
    (fun _ => Os.Ok tt).

(** What reaches the window during a reply that is stopped half way. *)
Definition events : list ChatWindow.ui_event :=
  [ ChatWindow.Chunk "Sure! ";
    ChatWindow.StopClick;
    ChatWindow.ReturnKey "again";
    ChatWindow.Chunk "[ACTION:OPEN_URL|https://x.test]" ].

(** An open window in the middle of a turn. *)
Definition busy : ChatWindow.t :=
  ChatWindow.Make true true false (Some 1) true
    [ ChatWindow.Label "open youtube" false;
      ChatWindow.Label (ChatWindow.bot_prefix +++ "On it") false ].

(** The start of a reply, then a click on the trash button. *)
Definition cleared_half_way : list ChatWindow.ui_event :=
  [ ChatWindow.Chunk "On it! "; ChatWindow.ClearClick ].

(** A new message, then the rest of the reply that was streaming when
    the chat was cleared. *)
Definition sent_again : list ChatWindow.ui_event :=
  [ ChatWindow.ReturnKey "hello";
    ChatWindow.Chunk "[ACTION:OPEN_URL|https://www.youtube.com]" ].

End Scenario.

(* ================================================================== *)
(** * The matcher on the patterns of the program *)
(* ================================================================== *)

(** The lazy group of the file-search pattern stops at the first place
    from which the rest of the pattern matches. *)
Example find_re_group :
  List.map (fun s => option_map (Re.group 1)
                       (Re.match_ IntentDetector.find_re s))
    [ "find pdf files";
      "find my files called report.docx on desktop";
      "look for the txt files on my desktop";
      "find my keys";
      "open downloads" ]
  = [ Some "pdf"; Some "report.docx"; Some "the txt"; Some "keys"; None ].
Proof. vm_compute. reflexivity. Qed.

(** The first alternative that lets the whole pattern match wins. *)
Example web_re_first_alternative :
  option_map (Re.group 1) (Re.match_ IntentDetector.web_re "search for cats")
  = Some "for cats".
Proof. vm_compute. reflexivity. Qed.

(** A word boundary is required after the screenshot noun. *)
Example take_shot_re_boundary :
  Re.found (Re.search IntentDetector.take_shot_re
              "please do a screen  cap now") = true
  /\ Re.found (Re.search IntentDetector.take_shot_re
                 "please do a screen  capture now") = false.
Proof. split; vm_compute; reflexivity. Qed.

(** Tags are found left to right and do not overlap; a tag with an empty
    body is erased from the text and gives no action. *)
Example tags_in_a_reply :
  Re.findall ChatWindow.tag_body_re
    "Sure! [ACTION:OPEN_URL|https://x.test] [ACTION:] [ACTION:a|b|c][ACTION:[ACTION:x]]"
  = ["OPEN_URL|https://x.test"; "a|b|c"; "[ACTION:x"]
  /\ Re.sub_empty ChatWindow.tag_re
       "Sure! [ACTION:OPEN_URL|https://x.test] [ACTION:] [ACTION:a|b|c][ACTION:[ACTION:x]]"
     = "Sure!   ]".
Proof. split; vm_compute; reflexivity. Qed.

(* ================================================================== *)
(** * Lemmas on strings *)
(* ================================================================== *)

Lemma append_assoc (a b c : string) : (a +++ b) +++ c = a +++ (b +++ c).
Proof. induction a as [|x a IH]; simpl; [reflexivity | now rewrite IH]. Qed.

Lemma append_empty_r (a : string) : a +++ EmptyString = a.
Proof. induction a as [|x a IH]; simpl; [reflexivity | now rewrite IH]. Qed.

Lemma prefix_append (d b : string) : prefix d (d +++ b) = true.
Proof.
  induction d as [|x d IH]; simpl.
  - now destruct b.
  - destruct (ascii_dec x x) as [_|n]; [exact IH | now elim n].
Qed.

Lemma contains_prefix (d s : string) :
  prefix d s = true -> Str.contains d s = true.
Proof. intros H. destruct s; cbn [Str.contains]; now rewrite H. Qed.

Lemma contains_append (d a b : string) :
  Str.contains d (a +++ d +++ b) = true.
Proof.
  induction a as [|x a IH]; simpl.
  - apply contains_prefix, prefix_append.
  - rewrite IH. apply orb_true_r.
Qed.

Lemma lower_append (a b : string) :
  Str.lower (a +++ b) = Str.lower a +++ Str.lower b.
Proof.
  unfold Str.lower.
  induction a as [|x a IH]; simpl; [reflexivity | now rewrite IH].
Qed.

Lemma is_upper_bounds (c : ascii) :
  Str.is_upper c = true -> 65 <= Str.code c <= 90.
Proof.
  unfold Str.is_upper, Str.between. intros H.
  apply andb_true_iff in H. destruct H as [H1 H2].
  apply Nat.leb_le in H1. apply Nat.leb_le in H2. lia.
Qed.

(** A character equal up to case to a character that [lower] leaves
    alone is lowered to that character. *)
Lemma lower_char_ci (a b : ascii) :
  Spec.ci_eqb a b = true -> Str.lower_char b = b -> Str.lower_char a = b.
Proof.
  unfold Spec.ci_eqb. intros H Hb.
  apply orb_true_iff in H. destruct H as [H|H].
  - apply orb_true_iff in H. destruct H as [H|H].
    + apply Ascii.eqb_eq in H. now subst.
    + apply andb_true_iff in H. destruct H as [Hu Hc].
      apply Nat.eqb_eq in Hc. unfold Str.lower_char. rewrite Hu.
      rewrite <- Hc. apply ascii_nat_embedding.
  - apply andb_true_iff in H. destruct H as [Hu _].
    exfalso. unfold Str.lower_char in Hb. rewrite Hu in Hb.
    apply is_upper_bounds in Hu.
    assert (E : nat_of_ascii (ascii_of_nat (Str.code b + 32))
                = Str.code b + 32) by (apply nat_ascii_embedding; lia).
    rewrite Hb in E. unfold Str.code in *. lia.
Qed.

Lemma lower_ci (s d : string) :
  Spec.ci_equal s d = true -> Str.lower d = d -> Str.lower s = d.
Proof.
  unfold Str.lower.
  revert d. induction s as [|a s IH]; intros [|b d] H Hd;
    cbn [Str.map Spec.ci_equal] in *; try discriminate; try reflexivity.
  apply andb_true_iff in H. destruct H as [Hab Hsd].
  injection Hd as Hb Hd'.
  rewrite (lower_char_ci a b Hab Hb).
  f_equal. now apply IH.
Qed.

Lemma dangerous_lowered (d : string) :
  In d ActionExecutor.dangerous -> Str.lower d = d.
Proof.
  unfold ActionExecutor.dangerous. simpl.
  intros H; repeat (destruct H as [<-|H]; [reflexivity|]); contradiction.
Qed.

Lemma existsb_In {A : Type} (p : A -> bool) (l : list A) (x : A) :
  In x l -> p x = true -> existsb p l = true.
Proof. intros Hin Hp. apply existsb_exists. now exists x. Qed.

(* ================================================================== *)
(** * ActionExecutor: the denylist of [_system_cmd] *)
(* ================================================================== *)

(** C4.  A command in which an entry of the denylist occurs, in any
    casing, is answered with the blocked-command message and performs no
    effect at all: no process is started.  The check comes before
    everything else the handler does. *)
Theorem system_cmd_blocks_denylisted (os : Os.t) (command d : string) :
  In d ActionExecutor.dangerous ->
  Spec.ci_occurs d command ->
  ActionExecutor._system_cmd os command
  = ([], Os.Ok ("🚫 Blocked potentially dangerous command: " +++ command)).
Proof.
  intros Hin (before & mid & after & -> & Hci).
  unfold ActionExecutor._system_cmd.
  rewrite (existsb_In _ _ d Hin); [reflexivity|].
  rewrite !lower_append.
  rewrite (lower_ci mid d Hci (dangerous_lowered d Hin)).
  apply contains_append.
Qed.

Lemma system_cmd_blocks_denylisted_witness :
  In "shutdown" ActionExecutor.dangerous
  /\ Spec.ci_occurs "shutdown" "echo bye; ShutDown /s /t 0"
  /\ ActionExecutor._system_cmd Sample.bare "echo bye; ShutDown /s /t 0"
     = ([], Os.Ok ("🚫 Blocked potentially dangerous command: "
                   +++ "echo bye; ShutDown /s /t 0")).
Proof.
  assert (Hin : In "shutdown" ActionExecutor.dangerous)
    by (simpl; tauto).
  assert (Hci : Spec.ci_occurs "shutdown" "echo bye; ShutDown /s /t 0")
    by (exists "echo bye; ", "ShutDown", " /s /t 0"; split; reflexivity).
  split; [exact Hin | split; [exact Hci|]].
  exact (system_cmd_blocks_denylisted Sample.bare _ _ Hin Hci).
Defined.

(* ================================================================== *)
(** * ActionExecutor: [run] always returns a string *)
(* ================================================================== *)

Lemma try_except_ret {A : Type} (m : ActionExecutor.M A) (h : Os.exn -> A) :
  exists a,
    ActionExecutor.result
      (ActionExecutor.try_except m (fun e => ActionExecutor.ret (h e)))
    = Os.Ok a
    /\ (forall e, ActionExecutor.result m = Os.Raise e -> a = h e).
Proof.
  destruct m as [l [a|e]]; simpl.
  - exists a. split; [reflexivity | discriminate].
  - exists (h e). split; [reflexivity|]. intros e' [= ->]. reflexivity.
Qed.

(** [run] picks the handler by the name of the command. *)
Lemma dispatch_by_name (os : Os.t) (cmd arg : string) :
  ActionExecutor.dispatch os cmd arg
  = match ActionProps.handler os cmd arg with
    | Some m => m
    | None => ActionExecutor.ret ("⚠️ Unknown action: " +++ cmd)
    end.
Proof.
  unfold ActionExecutor.dispatch, ActionProps.handler, ActionProps.handlers.
  cbn [ActionProps.handler_in].
  repeat match goal with
         | |- context [String.eqb cmd ?name] =>
             destruct (String.eqb cmd name); [reflexivity|]
         end.
  reflexivity.
Qed.

(** C9.  Whatever the command, the argument and the behaviour of the
    machine, [run] returns a string and no exception reaches the caller.
    For a command it knows, [run] does what the handler of that command
    does and returns what the handler returns; when the handler raises,
    [run] returns the failure text built from the exception.  For any
    other command it does nothing and returns the text that names the
    unknown command. *)
Theorem run_returns_a_string (os : Os.t) (cmd arg : string) :
  exists s : string,
    ActionExecutor.result (ActionExecutor.run os cmd arg) = Os.Ok s
    /\ match ActionProps.handler os cmd arg with
       | Some m =>
           ActionExecutor.log (ActionExecutor.run os cmd arg)
           = ActionExecutor.log m
           /\ s = match ActionExecutor.result m with
                  | Os.Ok r => r
                  | Os.Raise e => "❌ Action failed: " +++ Os.text e
                  end
       | None =>
           ActionExecutor.log (ActionExecutor.run os cmd arg) = []
           /\ s = "⚠️ Unknown action: " +++ cmd
       end.
Proof.
  unfold ActionExecutor.run. rewrite dispatch_by_name.
  destruct (ActionProps.handler os cmd arg) as [[l [r|e]]|].
  - exists r. repeat split.
  - exists ("❌ Action failed: " +++ Os.text e).
    cbn. rewrite app_nil_r. repeat split.
  - eexists. repeat split.
Qed.

(** The nine commands, each with its handler; the names are compared as
    they are, so that a command in small letters is unknown. *)
Example run_knows_nine_commands (os : Os.t) (arg : string) :
  List.map (fun cmd => ActionProps.handler os cmd arg)
    [ "OPEN_URL"; "OPEN_APP"; "SEARCH_WEB"; "OPEN_FOLDER"; "FIND_FILE";
      "SYSTEM_CMD"; "CLOSE_APP"; "SCREENSHOT"; "TYPE_TEXT"; "open_url" ]
  = [ Some (ActionExecutor._open_url os arg);
      Some (ActionExecutor._open_app os arg);
      Some (ActionExecutor._search_web os arg);
      Some (ActionExecutor._open_folder os arg);
      Some (ActionExecutor._find_file os arg);
      Some (ActionExecutor._system_cmd os arg);
      Some (ActionExecutor._close_app os arg);
      Some (ActionExecutor._screenshot os);
      Some (ActionExecutor._type_text os arg);
      None ].
Proof. reflexivity. Qed.

(** The string returned for a fault is the failure text. *)
Lemma run_converts_faults (os : Os.t) (cmd arg : string) (e : Os.exn) :
  ActionExecutor.result (ActionExecutor.dispatch os cmd arg) = Os.Raise e ->
  ActionExecutor.result (ActionExecutor.run os cmd arg)
  = Os.Ok ("❌ Action failed: " +++ Os.text e).
Proof.
  unfold ActionExecutor.run. intros H.
  destruct (try_except_ret (ActionExecutor.dispatch os cmd arg)
              (fun e => "❌ Action failed: " +++ Os.text e)) as (s & Hs & Hc).
  rewrite Hs. f_equal. now apply Hc.
Qed.

(** An unrecognised command is answered without any effect. *)
Lemma run_unknown_command (os : Os.t) (arg : string) :
  ActionExecutor.run os "DANCE" arg
  = ([], Os.Ok ("⚠️ Unknown action: " +++ "DANCE")).
Proof. reflexivity. Qed.

(** A fault inside a handler becomes the result of [run]. *)
Lemma run_converts_fault :
  ActionExecutor.run Sample.no_browser "OPEN_URL" "example.org"
  = ([ActionExecutor.Browse "https://example.org"],
     Os.Ok ("❌ Action failed: " +++ "boom")).
Proof. reflexivity. Qed.

(* ================================================================== *)
(** * IntentDetector: the documented examples *)
(* ================================================================== *)

(** C5.  The four documented equations of [detect]; they hold on every
    machine and for every order in which the set [APPS] is visited. *)
Theorem detect_examples (os : Os.t) (apps : list string) :
  IntentDetector.detect os apps "open youtube"
  = [("OPEN_URL", "https://www.youtube.com")]
  /\ IntentDetector.detect os apps "find pdf files"
     = [("FIND_FILE", "*.pdf")]
  /\ IntentDetector.detect os apps "take a screenshot"
     = [("SCREENSHOT", EmptyString)]
  /\ IntentDetector.detect os apps "hello, how are you?" = [].
Proof. repeat split; vm_compute; reflexivity. Qed.

(* ================================================================== *)
(** * OllamaChat: [clear] *)
(* ================================================================== *)

(** C8.  [clear] leaves exactly the system message, whatever the
    conversation was, and clearing twice is the same as clearing once. *)
Theorem clear_resets_and_is_idempotent (messages : list OllamaChat.message) :
  OllamaChat.clear messages
  = [OllamaChat.Message "system" OllamaChat.SYSTEM_PROMPT]
  /\ OllamaChat.clear (OllamaChat.clear messages) = OllamaChat.clear messages.
Proof. split; reflexivity. Qed.

(* ================================================================== *)
(** * OllamaChat: [stream] *)
(* ================================================================== *)

Section Stream.
Import OllamaChat.

Variable net : Net.
Variable settings : Settings.
Variable messages : list message.
Variable user_text : string.
Variable handler : bool.

Lemma pop_user_last (ms : list message) (t : string) :
  pop_user (ms ++ [Message "user" t]) = ms.
Proof.
  unfold pop_user. rewrite rev_app_distr. simpl. apply rev_involutive.
Qed.

(** The loop passes the items that do not make it leave, gathering their
    fragments and reporting each one. *)
Lemma consume_passes (before rest : list item) (full : list fragment) :
  forallb Spec.passes before = true ->
  consume (before ++ rest) full
  = (fst (consume rest (full ++ Spec.deltas before)),
     List.map on_chunk (Spec.deltas before)
     ++ snd (consume rest (full ++ Spec.deltas before))).
Proof.
  revert full. induction before as [|i before IH]; intros full Hp.
  - simpl. rewrite app_nil_r. now destruct (consume rest full).
  - simpl in Hp. apply andb_true_iff in Hp. destruct Hp as [Hi Hp].
    destruct i as [[|] [| |e|[err|] delta [|]]|e]; try discriminate; simpl.
    + now apply IH.
    + now apply IH.
    + destruct (truthy delta) eqn:E; simpl.
      * rewrite (IH (full ++ [delta]) Hp). rewrite <- app_assoc. simpl.
        now destruct (consume rest (full ++ delta :: Spec.deltas before)).
      * rewrite (IH full Hp).
        now destruct (consume rest (full ++ Spec.deltas before)).
Qed.

(** Once the configuration check and the probe have passed and the
    backend has answered, [stream] goes by the status of the answer. *)
Lemma stream_answered (resp : response) :
  Spec.reachable net settings = true ->
  Spec.chat_request net settings messages user_text = Os.Ok resp ->
  stream net settings messages user_text handler
  = if Nat.eqb (status_code resp) 404 then
      if negb (is_nil (list_models net (Spec.base settings))) && handler
      then (pop_user (messages ++ [Message "user" user_text]), [on_model_not_found (list_models net (Spec.base settings))])
      else (messages ++ [Message "user" user_text],
            [on_error ("❌ Model '" +++ model settings +++ "' not found."
                       +++ Str.newline +++ Str.newline
                       +++ "Run: ollama pull " +++ model settings)])
    else if negb (Nat.eqb (status_code resp) 200) then
      (messages ++ [Message "user" user_text],
       [on_error ("❌ Ollama HTTP " +++ Str.of_nat (status_code resp)
                  +++ Str.newline +++ Str.take 300 (body resp))])
    else
      match consume (lines resp) [] with
      | (Returned, calls) => (messages ++ [Message "user" user_text], calls)
      | (Fell_through full, calls) =>
          match join_text full with
          | None =>
              (messages ++ [Message "user" user_text],
               calls ++ [raises_TypeError])
          | Some text =>
              (if Str.is_empty text
               then messages ++ [Message "user" user_text]
               else (messages ++ [Message "user" user_text])
                    ++ [Message "assistant" text],
               calls ++ [on_done])
          end
      end.
Proof.
  unfold Spec.reachable, Spec.chat_request, Spec.base, stream.
    intros Hr Hq.
  apply andb_true_iff in Hr. destruct Hr as [Hr Hrun].
  apply andb_true_iff in Hr. destruct Hr as [Hb Hm].
  apply negb_true_iff in Hb. apply negb_true_iff in Hm.
  rewrite Hb, Hm, Hrun, Hq. simpl. reflexivity.
Qed.

(** C7.  When the backend answers 404: if models are installed and a
    handler was supplied, the user message appended for this call is
    taken back, so the conversation is what it was before the call, and
    the handler receives the installed models; otherwise the error that
    names the missing model is reported and the user message stays. *)
Theorem model_not_found_rollback (resp : response) :
  Spec.reachable net settings = true ->
  Spec.chat_request net settings messages user_text = Os.Ok resp ->
  status_code resp = 404 ->
  stream net settings messages user_text handler
  = if negb (is_nil (list_models net (Spec.base settings))) && handler
    then (messages, [on_model_not_found (list_models net (Spec.base settings))])
    else (messages ++ [Message "user" user_text],
          [on_error ("❌ Model '" +++ model settings +++ "' not found."
                     +++ Str.newline +++ Str.newline
                     +++ "Run: ollama pull " +++ model settings)]).
Proof.
  intros Hr Hq Hs. rewrite (stream_answered resp Hr Hq), Hs. simpl.
  now rewrite pop_user_last.
Qed.

(** C3, as the program has it.  The user message is appended before
    anything is checked: when the configuration check or the liveness
    probe fails, the matching error is reported and the conversation is
    the one before the call followed by the user message. *)
Theorem failed_probe_keeps_user_message :
  Spec.reachable net settings = false ->
  stream net settings messages user_text handler
  = (messages ++ [Message "user" user_text],
     [on_error
        (if Str.is_empty (Spec.base settings) || Str.is_empty (model settings)
         then "⚠️ Configure Ollama URL and model in Settings."
         else "❌ Can't reach Ollama at " +++ Spec.base settings +++ Str.newline
              +++ Str.newline +++ "Make sure Ollama is running:"
              +++ Str.newline +++ "  ollama serve")]).
Proof.
  unfold Spec.reachable, Spec.base, stream. intros Hr.
  destruct (Str.is_empty (Str.rstrip_char "/" (ollama_url settings)));
    [reflexivity|].
  destruct (Str.is_empty (model settings)); [reflexivity|].
  simpl in *. now rewrite Hr.
Qed.

(** C2, as the program has it.  When the loop finds the token set, it
    stops: the items after that point play no part, and no error is
    reported.  The call then ends as a completed one does.  When the
    fragments received before the token was set are strings, as the
    protocol has them, they are stored as the assistant message, unless
    there are none, and [on_done] is invoked last.  When one of them is
    another JSON value, the join of the fragments raises TypeError
    outside the [try] statement: nothing is stored and neither [on_done]
    nor [on_error] is invoked. *)
Theorem cancel_ends_like_completion
        (resp : response) (before after : list item) (l : line) :
  Spec.reachable net settings = true ->
  Spec.chat_request net settings messages user_text = Os.Ok resp ->
  status_code resp = 200 ->
  lines resp = before ++ Got true l :: after ->
  forallb Spec.passes before = true ->
  stream net settings messages user_text handler
  = match join_text (Spec.deltas before) with
    | Some text =>
        (if Str.is_empty text
         then messages ++ [Message "user" user_text]
         else (messages ++ [Message "user" user_text])
              ++ [Message "assistant" text],
         List.map on_chunk (Spec.deltas before) ++ [on_done])
    | None =>
        (messages ++ [Message "user" user_text],
         List.map on_chunk (Spec.deltas before) ++ [raises_TypeError])
    end.
Proof.
  intros Hr Hq Hs Hl Hp.
  rewrite (stream_answered resp Hr Hq), Hs, Hl.
  cbn [Nat.eqb negb].
  rewrite (consume_passes before _ [] Hp).
  cbn [consume fst snd app]. rewrite app_nil_r.
  destruct (join_text (Spec.deltas before)); reflexivity.
Qed.

End Stream.

(* ================================================================== *)
(** * ActionExecutor: the bounds of [_find_file] *)
(* ================================================================== *)

Section FindFile.
Import ActionExecutor.

Variable os : Os.t.
Variable pattern : string.

Lemma result_bind {A B : Type} (m : M A) (f : A -> M B) :
  result (bind m f)
  = match result m with
    | Os.Ok a => result (f a)
    | Os.Raise e => Os.Raise e
    end.
Proof.
  destruct m as [l [a|e]]; simpl; [|reflexivity].
  now destruct (f a).
Qed.

Lemma contribution_le_20 (d : string) :
  length (Spec.contribution os pattern d) <= 20.
Proof.
  unfold Spec.contribution.
  destruct (Os.path_exists os d); [|simpl; lia].
  destruct (Os.glob_recursive os _); [|simpl; lia].
  apply firstn_le_length.
Qed.

(** One turn of the loop: the directory adds its contribution, and the
    loop goes on to the next directory exactly when fewer than 30
    results are gathered. *)
Lemma collect_turn (d : string) (dirs results0 results : list string) :
  result (collect os pattern (d :: dirs) results0) = Os.Ok results ->
  let gathered := results0 ++ Spec.contribution os pattern d in
  (30 <= length gathered /\ results = gathered)
  \/ (length gathered < 30
      /\ result (collect os pattern dirs gathered) = Os.Ok results).
Proof.
  cbn [collect]. rewrite result_bind. unfold Spec.contribution.
  destruct (Os.path_exists os d).
  - rewrite result_bind. unfold perform, result at 2. cbn [snd].
    destruct (Os.glob_recursive os _) as [found|e]; [|discriminate].
    cbn [ret result snd].
    destruct (Nat.leb_spec 30 (length (results0 ++ firstn 20 found)))
      as [Hge|Hlt]; cbn [ret result snd]; intros H.
    + left. split; [assumption | congruence].
    + right. split; assumption.
  - cbn [ret result snd]. rewrite app_nil_r.
    destruct (Nat.leb_spec 30 (length results0)) as [Hge|Hlt];
      cbn [ret result snd]; intros H.
    + left. split; [assumption | congruence].
    + right. split; assumption.
Qed.

Lemma endswith_append (a p : string) : Str.endswith p (a +++ p) = true.
Proof.
  induction a as [|x a IH]; simpl.
  - destruct p; cbn [Str.endswith]; now rewrite String.eqb_refl.
  - rewrite IH. apply orb_true_r.
Qed.


(** C10, as the program has it.  Each of the three directories adds at
    most 20 matches, and the third is visited exactly when the first
    two gave fewer than 30; so up to 29 + 20 = 49 matches are gathered.
    The text lists the first 10 of them at most and, when there are
    more than 10, ends with the line that counts the others. *)
Theorem find_file_bounds (results : list string) :
  result (collect os pattern (search_dirs os) []) = Os.Ok results ->
  let c1 := Spec.on_desktop os pattern in
  let c2 := Spec.in_documents os pattern in
  let c3 := Spec.in_downloads os pattern in
  length c1 <= 20 /\ length c2 <= 20 /\ length c3 <= 20
  /\ ((results = c1 ++ c2 /\ 30 <= length (c1 ++ c2))
      \/ (results = c1 ++ c2 ++ c3 /\ length (c1 ++ c2) < 30))
  /\ length results <= 49
  /\ result (_find_file os pattern)
     = Os.Ok (match results with
              | [] => "🔍 No files matching '" +++ pattern
                      +++ "' found in Desktop, Documents, or Downloads."
              | _ :: _ => listing_text os results
              end)
  /\ listing_text os results
     = ("🔍 Found " +++ Str.of_nat (length results) +++ " file(s):"
        +++ Str.newline +++ Str.newline)
       +++ Str.join (List.map (entry os) (firstn 10 results))
       +++ (if 10 <? length results
            then Str.newline +++ "  ... and "
                 +++ Str.of_nat (length results - 10) +++ " more."
            else EmptyString)
  /\ length (firstn 10 results) <= 10
  /\ (10 < length results ->
      Str.endswith ("  ... and " +++ Str.of_nat (length results - 10)
                    +++ " more.")
                   (listing_text os results) = true).
Proof.
  intros H c1 c2 c3.
  assert (H1 : length c1 <= 20) by apply contribution_le_20.
  assert (H2 : length c2 <= 20) by apply contribution_le_20.
  assert (H3 : length c3 <= 20) by apply contribution_le_20.
  assert (Hshape :
            (results = c1 ++ c2 /\ 30 <= length (c1 ++ c2))
            \/ (results = c1 ++ c2 ++ c3 /\ length (c1 ++ c2) < 30)).
  { unfold search_dirs in H.
    apply collect_turn in H. cbn [app] in H.
    fold (Spec.desktop os) in H. fold (Spec.on_desktop os pattern) in H.
    fold c1 in H. cbv zeta in H.
    destruct H as [[Hlen _]|[_ H]]; [lia|].
    apply collect_turn in H.
    fold (Spec.documents os) in H. fold (Spec.in_documents os pattern) in H.
    fold c2 in H. cbv zeta in H.
    destruct H as [[Hlen ->]|[Hlen H]];
      [left; split; [reflexivity|assumption]|].
    right. split; [|assumption].
    apply collect_turn in H.
    fold (Spec.downloads os) in H. fold (Spec.in_downloads os pattern) in H.
    fold c3 in H. cbv zeta in H.
    rewrite <- app_assoc in H.
    destruct H as [[_ ->]|[_ H]]; [reflexivity|].
    cbn in H. congruence. }
  assert (Hlen : length results <= 49).
  { destruct Hshape as [[-> _]|[-> Hlt]];
      rewrite ?length_app in *; lia. }
  repeat split; try assumption.
  - unfold _find_file. rewrite result_bind, H. now destruct results.
  - unfold listing_text.
    destruct (10 <? length results).
    + now rewrite !append_assoc.
    + now rewrite append_empty_r.
  - apply firstn_le_length.
  - intros Hmore. unfold listing_text.
    apply Nat.ltb_lt in Hmore. rewrite Hmore.
    set (text := _ +++ Str.join _).
    rewrite <- (append_assoc text Str.newline). apply endswith_append.
Qed.

End FindFile.

(** C10, the stated bound fails: on a machine with 20 matches on the
    Desktop, 9 in Documents and 20 in Downloads the program gathers all
    49 of them, more than 40. *)
Lemma find_file_gathers_49 :
  exists results : list string,
    ActionExecutor.result
      (ActionExecutor.collect Sample.crowded "*.txt"
         (ActionExecutor.search_dirs Sample.crowded) [])
    = Os.Ok results
    /\ length results = 49
    /\ ~ length results <= 40.
Proof.
  eexists. split; [vm_compute; reflexivity|].
  split; [reflexivity | vm_compute; lia].
Qed.

Lemma find_file_bounds_witness :
  ActionExecutor.result
    (ActionExecutor.collect Sample.crowded "*.txt"
       (ActionExecutor.search_dirs Sample.crowded) [])
  = Os.Ok Sample.crowded_results
  /\ length Sample.crowded_results <= 49
  /\ Str.endswith ("  ... and "
                   +++ Str.of_nat (length Sample.crowded_results - 10)
                   +++ " more.")
                  (ActionExecutor.listing_text Sample.crowded
                     Sample.crowded_results) = true.
Proof.
  assert (H : ActionExecutor.result
                (ActionExecutor.collect Sample.crowded "*.txt"
                   (ActionExecutor.search_dirs Sample.crowded) [])
              = Os.Ok Sample.crowded_results)
    by (vm_compute; reflexivity).
  destruct (find_file_bounds Sample.crowded "*.txt" Sample.crowded_results H)
    as (_ & _ & _ & _ & Hle & _ & _ & _ & Hend).
  split; [exact H | split; [exact Hle|]].
  apply Hend. vm_compute. lia.
Defined.

(* ================================================================== *)
(** * ChatWindow: arbitration between local intents and reply tags *)
(* ================================================================== *)

Section Arbitration.
Import ChatWindow.

Variable os : Os.t.
Variable apps : list string.

Lemma detect_nothing_in_empty_text :
  IntentDetector.detect os apps EmptyString = [].
Proof. reflexivity. Qed.

(** While a turn is under way and the chat is neither cleared nor
    closed, no handler changes [is_streaming] or [_intents_fired], and
    none starts a thread: fragments only touch the label, the stop
    button only sets the token, and [_send] is refused. *)
Lemma handle_while_streaming (w : t) (ev : ui_event) :
  TurnProps.in_turn ev = true ->
  is_streaming w = true ->
  is_streaming (fst (handle os apps w ev)) = true
  /\ _intents_fired (fst (handle os apps w ev)) = _intents_fired w
  /\ snd (handle os apps w ev) = [].
Proof.
  intros Hev Hs. destruct ev as [text| |entry| |]; try discriminate Hev;
    cbn [handle].
  - unfold _on_chunk, _append_chunk.
    destruct (top w); [|auto]. destruct (_bot_label w); simpl; auto.
  - simpl. auto.
  - unfold _send. rewrite Hs, orb_true_r. simpl. auto.
Qed.

Lemma handle_all_while_streaming (evs : list ui_event) (w : t) :
  forallb TurnProps.in_turn evs = true ->
  is_streaming w = true ->
  is_streaming (fst (handle_all os apps w evs)) = true
  /\ _intents_fired (fst (handle_all os apps w evs)) = _intents_fired w
  /\ snd (handle_all os apps w evs) = [].
Proof.
  revert w. induction evs as [|ev evs IH]; intros w Hevs Hs;
    cbn [handle_all].
  - simpl. auto.
  - cbn [forallb] in Hevs. apply andb_true_iff in Hevs.
    destruct Hevs as [Hev Hevs].
    destruct (handle_while_streaming w ev Hev Hs) as (H1 & H2 & H3).
    destruct (handle os apps w ev) as [w1 started]. cbn [fst snd] in *.
    destruct (IH w1 Hevs H1) as (H4 & H5 & H6).
    destruct (handle_all os apps w1 evs) as [w2 started'].
    cbn [fst snd] in *. subst. rewrite H5, H2. auto.
Qed.

(** With the flag set, the end of the stream starts no thread. *)
Lemma finish_with_flag_set (w : t) :
  _intents_fired w = true -> snd (_finish_and_run_actions w) = [].
Proof.
  intros Hf. unfold _finish_and_run_actions.
  destruct (_bot_label w); [|reflexivity].
  cbn [snd].
  match goal with |- context [Str.is_empty ?x] => destruct (Str.is_empty x) end;
    cbn [configure with_labels _intents_fired]; now rewrite Hf.
Qed.

(** What [_send] does in an open window in which no turn is under way,
    for a text that is not blank. *)
Lemma send_accepted (w : t) (entry : string) :
  top w = true -> is_streaming w = false ->
  Str.strip entry <> EmptyString ->
  let intents := IntentDetector.detect os apps (Str.strip entry) in
  is_streaming (fst (_send os apps w entry)) = true
  /\ _intents_fired (fst (_send os apps w entry))
     = negb (OllamaChat.is_nil intents)
  /\ snd (_send os apps w entry)
     = (if negb (OllamaChat.is_nil intents) then [run_intents intents]
        else [])
       ++ [chat_stream (Str.strip entry)].
Proof.
  intros Ht Hs Hne. unfold _send. rewrite Ht, Hs. cbn [negb orb].
  destruct (Str.strip entry) as [|ch text] eqn:E; [now elim Hne|].
  cbn [Str.is_empty]. simpl. auto.
Qed.

(** The arbitration as far as the program achieves it.  In a turn
    whose text makes [detect] return actions, [_send] sets
    [_intents_fired] and starts the thread that runs those actions next
    to the chat request; as long as the chat is neither cleared nor
    closed, the flag stays set while the reply arrives, whatever
    fragments, stop clicks and presses of the Return key reach the
    window, and at the end of the stream no thread is started for the
    tags of the reply. *)
Lemma local_intents_silence_reply_tags
      (w : t) (entry : string) (evs : list ui_event) :
  top w = true ->
  is_streaming w = false ->
  IntentDetector.detect os apps (Str.strip entry) <> [] ->
  forallb TurnProps.in_turn evs = true ->
  let sent := _send os apps w entry in
  let during := handle_all os apps (fst sent) evs in
  let finished := _finish_and_run_actions (fst during) in
  _intents_fired (fst sent) = true
  /\ snd sent
     = [ run_intents (IntentDetector.detect os apps (Str.strip entry));
         chat_stream (Str.strip entry) ]
  /\ _intents_fired (fst during) = true
  /\ snd during = []
  /\ snd finished = []
  /\ _intents_fired (fst finished) = false.
Proof.
  intros Ht Hs Hd Hevs sent during finished.
  assert (Hne : Str.strip entry <> EmptyString).
  { intros E. apply Hd. rewrite E. apply detect_nothing_in_empty_text. }
  destruct (send_accepted w entry Ht Hs Hne) as (H1 & H2 & H3).
  fold sent in H1, H2, H3.
  assert (Hfired : negb (OllamaChat.is_nil
                           (IntentDetector.detect os apps (Str.strip entry)))
                   = true).
  { destruct (IntentDetector.detect os apps (Str.strip entry));
      [now elim Hd | reflexivity]. }
  rewrite Hfired in H2, H3.
  destruct (handle_all_while_streaming evs (fst sent) Hevs H1)
    as (H4 & H5 & H6).
  fold during in H4, H5, H6. rewrite H2 in H5.
  repeat split; try assumption.
  - apply finish_with_flag_set. exact H5.
  - unfold finished, _finish_and_run_actions.
    destruct (_bot_label (fst during)); reflexivity.
Qed.

(** In a turn whose text makes [detect] return nothing, no thread for
    local intents is started: the tags of the reply are the only source
    of actions. *)
Lemma no_intents_no_local_thread (w : t) (entry : string) :
  top w = true ->
  is_streaming w = false ->
  Str.strip entry <> EmptyString ->
  IntentDetector.detect os apps (Str.strip entry) = [] ->
  snd (_send os apps w entry) = [chat_stream (Str.strip entry)]
  /\ _intents_fired (fst (_send os apps w entry)) = false.
Proof.
  intros Ht Hs Hne Hd.
  destruct (send_accepted w entry Ht Hs Hne) as (_ & H2 & H3).
  rewrite Hd in H2, H3. split; assumption.
Qed.

End Arbitration.

Lemma local_intents_silence_reply_tags_witness :
  ChatWindow.top Sample.idle = true
  /\ ChatWindow.is_streaming Sample.idle = false
  /\ IntentDetector.detect Sample.bare IntentDetector.APPS
       (Str.strip "open youtube") <> []
  /\ snd (ChatWindow._finish_and_run_actions
            (fst (ChatWindow.handle_all Sample.bare IntentDetector.APPS
                    (fst (ChatWindow._send Sample.bare IntentDetector.APPS
                            Sample.idle "open youtube"))
                    [ ChatWindow.Chunk "On it! ";
                      ChatWindow.Chunk "[ACTION:OPEN_URL|https://www.youtube.com]" ])))
     = [].
Proof.
  assert (Hd : IntentDetector.detect Sample.bare IntentDetector.APPS
                 (Str.strip "open youtube") <> [])
    by (vm_compute; discriminate).
  split; [reflexivity | split; [reflexivity | split; [exact Hd|]]].
  exact (proj1 (proj2 (proj2 (proj2 (proj2
           (local_intents_silence_reply_tags Sample.bare IntentDetector.APPS
              Sample.idle "open youtube"
              [ ChatWindow.Chunk "On it! ";
                ChatWindow.Chunk "[ACTION:OPEN_URL|https://www.youtube.com]" ]
              eq_refl eq_refl Hd eq_refl)))))).
Defined.

(** C1.  The arbitration is lost when the chat is cleared while a reply
    is streaming.  The user sends a text in which [detect] finds an
    action: the action is run at once and the flag is set.  The user
    clicks the trash button: [_clear] sets the token and resets
    [is_streaming], so that the window accepts the next message although
    the thread of the stream is still alive.  The user sends a text in
    which [detect] finds nothing: [_send] resets the flag and clears the
    token again, and the first stream, which polls the token only when a
    line arrives, goes on.  The rest of its reply now lands in the new
    label, and at its end the tag of the reply is run: the action of the
    first turn has fired from both sources, and the browser is asked for
    the same address twice. *)
Theorem clear_lets_reply_tags_fire :
  let sent :=
    ChatWindow._send Sample.bare IntentDetector.APPS Sample.idle
      "open youtube" in
  let cleared :=
    ChatWindow.handle_all Sample.bare IntentDetector.APPS (fst sent)
      Scenario.cleared_half_way in
  let resumed :=
    ChatWindow.handle_all Sample.bare IntentDetector.APPS (fst cleared)
      Scenario.sent_again in
  let finished := ChatWindow._finish_and_run_actions (fst resumed) in
  snd sent
  = [ ChatWindow.run_intents [("OPEN_URL", "https://www.youtube.com")];
      ChatWindow.chat_stream "open youtube" ]
  /\ ChatWindow._intents_fired (fst sent) = true
  /\ ChatWindow.is_streaming (fst cleared) = false
  /\ ChatWindow.cancel_event (fst cleared) = true
  /\ snd resumed = [ChatWindow.chat_stream "hello"]
  /\ ChatWindow.cancel_event (fst resumed) = false
  /\ ChatWindow._intents_fired (fst resumed) = false
  /\ snd finished
     = [ChatWindow.execute_actions ["OPEN_URL|https://www.youtube.com"]]
  /\ List.map ChatWindow.parse_action ["OPEN_URL|https://www.youtube.com"]
     = IntentDetector.detect Sample.bare IntentDetector.APPS "open youtube"
  /\ ActionExecutor.log
       (ChatWindow._run_intents Sample.bare
          [("OPEN_URL", "https://www.youtube.com")])
     = [ActionExecutor.Browse "https://www.youtube.com"]
  /\ ActionExecutor.log
       (ChatWindow._execute_actions Sample.bare
          ["OPEN_URL|https://www.youtube.com"])
     = [ActionExecutor.Browse "https://www.youtube.com"].
Proof. vm_compute. repeat split. Qed.

(* ================================================================== *)
(** * ChatWindow: the tags of the reply *)
(* ================================================================== *)

Section Tags.
Import Re ChatWindow.

Lemma length_append (a b : string) :
  String.length (a +++ b) = String.length a + String.length b.
Proof. induction a as [|x a IH]; simpl; [reflexivity | now rewrite IH]. Qed.

Lemma take_append (a b : string) : Str.take (String.length a) (a +++ b) = a.
Proof.
  unfold Str.take. induction a as [|x a IH]; simpl.
  - now destruct b.
  - now rewrite IH.
Qed.

Lemma has_append (ch : ascii) (a b : string) :
  Spec.has ch (a +++ b) = Spec.has ch a || Spec.has ch b.
Proof.
  induction a as [|x a IH]; simpl; [reflexivity|].
  now rewrite IH, orb_assoc.
Qed.

(** [split("|", 1)] cuts at the first bar. *)
Lemma split_once_first (ch : ascii) (c a : string) :
  Spec.has ch c = false ->
  Str.split_once ch (c +++ String ch a) = (c, Some a).
Proof.
  induction c as [|x c IH]; simpl; intros H.
  - now rewrite Ascii.eqb_refl.
  - apply orb_false_iff in H. destruct H as [Hx Hc].
    rewrite Hx, (IH Hc). reflexivity.
Qed.

(** Once a match is found the characters it covers are passed over. *)
Lemma pieces_skip (r : re) (s : string) (p : option ascii) :
  pieces r (String.length s) p s = [].
Proof.
  revert p. induction s as [|x s IH]; intros p; simpl; [reflexivity|].
  apply IH.
Qed.

Lemma not_bracket_step (k : mstate -> option mstate) (p : option ascii)
      (x : ascii) (r : string) (cs : list (nat * string)) :
  run Spec.not_bracket k (MState p (String x r) cs)
  = if Ascii.eqb x "]" then None else k (MState (Some x) r cs).
Proof.
  unfold Spec.not_bracket. cbn [run]. unfold eat_if. cbn [rest caps existsb].
  rewrite orb_false_r. now destruct (Ascii.eqb x "]").
Qed.

(** The greedy class [[^\]]*] runs up to the closing bracket. *)
Lemma iterate_to_bracket (b : string) :
  forall (n : nat) (p : option ascii) (cs : list (nat * string))
         (k : mstate -> option mstate) (m : mstate),
    Spec.has "]" b = false ->
    String.length b < n ->
    (forall q, k (MState q "]" cs) = Some m) ->
    iterate (run Spec.not_bracket) true k n (MState p (b +++ "]") cs) = Some m.
Proof.
  induction b as [|x b IH]; intros n p cs k m Hb Hn Hk.
  - destruct n as [|n]; [lia|].
    cbn [iterate String.append]. rewrite not_bracket_step.
    cbn [Ascii.eqb Bool.eqb]. apply Hk.
  - destruct n as [|n]; [simpl in Hn; lia|].
    simpl in Hb. apply orb_false_iff in Hb. destruct Hb as [Hx Hb].
    cbn [iterate String.append]. rewrite not_bracket_step, Hx.
    cbn [rest String.length].
    rewrite (proj2 (Nat.ltb_lt _ _) (Nat.lt_succ_diag_r _)).
    rewrite (IH n (Some x) cs k m Hb); [reflexivity | simpl in Hn; lia | exact Hk].
Qed.

Lemma run_Seq (r1 r2 : re) (k : mstate -> option mstate) (s : mstate) :
  run (Seq r1 r2) k s = run r1 (run r2 k) s.
Proof. reflexivity. Qed.

Lemma run_Lit (l : string) (k : mstate -> option mstate) (s : mstate) :
  run (Lit l) k s = match eat_lit l s with Some s' => k s' | None => None end.
Proof. reflexivity. Qed.

Lemma run_Star (g : bool) (r : re) (k : mstate -> option mstate) (s : mstate) :
  run (Star g r) k s = iterate (run r) g k (S (String.length (rest s))) s.
Proof. reflexivity. Qed.

Lemma run_Grp (n : nat) (r : re) (k : mstate -> option mstate) (s : mstate) :
  run (Grp n r) k s
  = run r (fun s' => k (MState (prev s') (rest s')
                          ((n, Str.take (consumed s s') (rest s)) :: caps s')))
        s.
Proof. reflexivity. Qed.

Lemma eat_tag_open (p : option ascii) (r : string) (cs : list (nat * string)) :
  eat_lit "[ACTION:" (MState p ("[ACTION:" +++ r) cs)
  = Some (MState (Some ":"%char) r cs).
Proof. reflexivity. Qed.

Lemma eat_tag_close (q : option ascii) (cs : list (nat * string)) :
  eat_lit "]" (MState q "]" cs) = Some (MState (Some "]"%char) EmptyString cs).
Proof. reflexivity. Qed.

(** A tag whose body is not empty and holds no closing bracket is
    matched as a whole, with the body as its group. *)
Lemma match_tag (body : string) (p : option ascii) :
  body <> EmptyString ->
  Spec.has "]" body = false ->
  run tag_body_re Some (start p ("[ACTION:" +++ body +++ "]"))
  = Some (MState (Some "]"%char) EmptyString [(1, body)]).
Proof.
  intros Hne Hb. destruct body as [|x b]; [now elim Hne|].
  simpl in Hb. apply orb_false_iff in Hb. destruct Hb as [Hx Hb].
  unfold tag_body_re, start, Plus. cbn [seqs].
  change (NoneOf ["]"%char]) with Spec.not_bracket.
  rewrite run_Seq, run_Lit, eat_tag_open.
  rewrite run_Seq, run_Grp, run_Seq.
  cbn [String.append]. rewrite not_bracket_step, Hx, run_Star.
  apply (iterate_to_bracket b);
    [exact Hb | cbn [rest]; rewrite length_append; lia|].
  intros q. rewrite run_Lit. cbn [prev rest caps].
  rewrite eat_tag_close. unfold consumed. cbn [rest String.length].
  rewrite length_append. cbn [String.length].
  replace (S (String.length b + 1) - 1) with (String.length (String x b))
    by (simpl; lia).
  change (String x (b +++ "]")) with (String x b +++ "]").
  now rewrite take_append.
Qed.

Lemma findall_tag (body : string) :
  body <> EmptyString ->
  Spec.has "]" body = false ->
  findall tag_body_re ("[ACTION:" +++ body +++ "]") = [body].
Proof.
  intros Hne Hb. unfold findall.
  pose proof (match_tag body None Hne Hb) as Hm.
  change ("[ACTION:" +++ body +++ "]")
    with (String "[" ("ACTION:" +++ body +++ "]")) in *.
  remember ("ACTION:" +++ body +++ "]") as s' eqn:Es. clear Es.
  cbn [pieces]. rewrite Hm. cbn [rest String.length Nat.sub].
  rewrite pieces_skip. reflexivity.
Qed.

Lemma nth_error_update (ls : list label) (lbl : nat) (f : label -> label)
      (l : label) :
  nth_error ls lbl = Some l -> nth_error (update ls lbl f) lbl = Some (f l).
Proof.
  revert lbl. induction ls as [|x ls IH]; intros [|lbl]; simpl;
    try discriminate.
  - now intros [= ->].
  - apply IH.
Qed.

(** C6, as the program has it.  For the reply of the example, with no
    local action fired, the label shows the text without the tag and one
    thread is started, which runs OPEN_URL on https://x.test and nothing
    else.  In general the body of a tag runs up to the closing bracket
    and is cut at its first bar: the command is the text before that bar
    with the blanks around it removed and its letters in upper case, and
    the argument is all the text after that bar, further bars included,
    with the blanks around it removed. *)
Theorem reply_tags_are_dispatched
        (w : t) (lbl : nat) (gone : bool) (c a : string) :
  _bot_label w = Some lbl ->
  nth_error (labels w) lbl = Some (Label (bot_prefix +++ Sample.example_reply) gone) ->
  _intents_fired w = false ->
  Spec.has "|" c = false ->
  Spec.has "]" c = false ->
  Spec.has "]" a = false ->
  nth_error (labels (fst (_finish_and_run_actions w))) lbl
  = Some (Label (bot_prefix +++ "Sure!") gone)
  /\ snd (_finish_and_run_actions w)
     = [execute_actions ["OPEN_URL|https://x.test"]]
  /\ List.map parse_action ["OPEN_URL|https://x.test"]
     = [("OPEN_URL", "https://x.test")]
  /\ (forall os : Os.t,
        ActionExecutor.log (_execute_actions os ["OPEN_URL|https://x.test"])
        = [ActionExecutor.Browse "https://x.test"])
  /\ findall tag_body_re ("[ACTION:" +++ (c +++ "|" +++ a) +++ "]")
     = [c +++ "|" +++ a]
  /\ parse_action (c +++ "|" +++ a) = (Str.upper (Str.strip c), Str.strip a).
Proof.
  intros Hl Hn Hf Hbar Hc Ha.
  assert (E1 : unprefixed (bot_prefix +++ Sample.example_reply) = Sample.example_reply)
    by reflexivity.
  assert (E2 : Str.strip (sub_empty tag_re Sample.example_reply) = "Sure!")
    by (vm_compute; reflexivity).
  assert (E3 : findall tag_body_re Sample.example_reply = ["OPEN_URL|https://x.test"])
    by (vm_compute; reflexivity).
  unfold _finish_and_run_actions, cget. rewrite Hl, Hn. cbn [shown].
  rewrite E1, E2, E3. cbn [Str.is_empty configure with_labels _intents_fired].
  rewrite Hf. cbn [negb OllamaChat.is_nil fst snd _finish labels].
  split; [exact (nth_error_update (labels w) lbl _ _ Hn)|].
  split; [reflexivity|].
  split; [reflexivity|].
  split.
  - intros os. unfold _execute_actions. cbn [List.map].
    change (parse_action "OPEN_URL|https://x.test")
      with ("OPEN_URL", "https://x.test").
    cbn [run_all]. unfold ActionExecutor.run.
    change (ActionExecutor.dispatch os "OPEN_URL" "https://x.test")
      with (ActionExecutor._open_url os "https://x.test").
    unfold ActionExecutor._open_url.
    change (Str.startswith "http://" "https://x.test"
            || Str.startswith "https://" "https://x.test") with true.
    cbv iota. unfold ActionExecutor.perform.
    destruct (Os.webbrowser_open os "https://x.test"); reflexivity.
  - split.
    + apply findall_tag.
      * destruct c; discriminate.
      * rewrite !has_append, Hc, Ha. reflexivity.
    + unfold parse_action.
      change (c +++ "|" +++ a) with (c +++ String "|" a).
      now rewrite (split_once_first "|" c a Hbar).
Qed.

End Tags.

(** C6, the general sentence fails as it is stated: the command that is
    run is not the text before the first bar as it stands, nor is the
    argument the text after it as it stands. *)
Lemma tag_fields_are_normalised :
  Re.findall ChatWindow.tag_body_re "[ACTION: open_url | x.test ]"
  = [" open_url | x.test "]
  /\ ChatWindow.parse_action " open_url | x.test " = ("OPEN_URL", "x.test")
  /\ ChatWindow.parse_action " open_url | x.test "
     <> (" open_url ", " x.test ").
Proof.
  split; [vm_compute; reflexivity|].
  split; [vm_compute; reflexivity | vm_compute; discriminate].
Qed.

Lemma reply_tags_are_dispatched_witness :
  ChatWindow._bot_label (Sample.replied Sample.example_reply) = Some 0
  /\ ChatWindow._intents_fired (Sample.replied Sample.example_reply) = false
  /\ Spec.has "|" "SEARCH_WEB" = false
  /\ snd (ChatWindow._finish_and_run_actions
            (Sample.replied Sample.example_reply))
     = [ChatWindow.execute_actions ["OPEN_URL|https://x.test"]]
  /\ ChatWindow.parse_action ("SEARCH_WEB" +++ "|" +++ "a|b")
     = (Str.upper (Str.strip "SEARCH_WEB"), Str.strip "a|b").
Proof.
  destruct (reply_tags_are_dispatched
              (Sample.replied Sample.example_reply) 0 false "SEARCH_WEB" "a|b"
              eq_refl eq_refl eq_refl eq_refl eq_refl eq_refl)
    as (_ & H2 & _ & _ & _ & H6).
  split; [reflexivity|]. split; [reflexivity|]. split; [reflexivity|].
  split; [exact H2 | exact H6].
Defined.

(* ================================================================== *)
(** * OllamaChat: the statements at concrete backends *)
(* ================================================================== *)

Lemma model_not_found_rollback_witness :
  Spec.reachable (Sample.net 200 404 ["mistral"] []) Sample.settings = true
  /\ Spec.chat_request (Sample.net 200 404 ["mistral"] []) Sample.settings
       OllamaChat.init "hi"
     = Os.Ok (OllamaChat.Response 404 EmptyString [])
  /\ OllamaChat.stream (Sample.net 200 404 ["mistral"] []) Sample.settings
       OllamaChat.init "hi" true
     = (OllamaChat.init, [OllamaChat.on_model_not_found ["mistral"]]).
Proof.
  split; [reflexivity | split; [reflexivity|]].
  exact (model_not_found_rollback (Sample.net 200 404 ["mistral"] [])
           Sample.settings OllamaChat.init "hi" true
           (OllamaChat.Response 404 EmptyString [])
           eq_refl eq_refl eq_refl).
Defined.

(** C3, the stated order fails: with a backend that cannot be reached
    the error is reported and the conversation is no longer what it was
    before the call, the user message has been appended to it. *)
Lemma failed_probe_changes_conversation :
  Spec.reachable Sample.down Sample.settings = false
  /\ fst (OllamaChat.stream Sample.down Sample.settings OllamaChat.init
            "hi" true)
     = OllamaChat.init ++ [OllamaChat.Message "user" "hi"]
  /\ fst (OllamaChat.stream Sample.down Sample.settings OllamaChat.init
            "hi" true)
     <> OllamaChat.init.
Proof.
  split; [reflexivity | split; [reflexivity|]].
  intros H. apply (f_equal (@length OllamaChat.message)) in H.
  discriminate H.
Qed.

Lemma failed_probe_keeps_user_message_witness :
  Spec.reachable Sample.down Sample.settings = false
  /\ OllamaChat.stream Sample.down Sample.settings OllamaChat.init "hi" true
     = (OllamaChat.init ++ [OllamaChat.Message "user" "hi"],
        [OllamaChat.on_error
           ("❌ Can't reach Ollama at " +++ "http://localhost:11434"
            +++ Str.newline +++ Str.newline
            +++ "Make sure Ollama is running:"
            +++ Str.newline +++ "  ollama serve")]).
Proof.
  split; [reflexivity|].
  exact (failed_probe_keeps_user_message Sample.down Sample.settings
           OllamaChat.init "hi" true eq_refl).
Defined.

(** C2, the stated silence fails: the token is found set at the second
    record, and yet [on_done] is invoked and the fragment received
    before is stored as the assistant message. *)
Lemma cancel_invokes_on_done :
  OllamaChat.stream (Sample.net 200 200 [] Sample.interrupted)
    Sample.settings OllamaChat.init "hi" true
  = (OllamaChat.init ++ [ OllamaChat.Message "user" "hi";
                          OllamaChat.Message "assistant" "Hel" ],
     [OllamaChat.on_chunk (OllamaChat.Text "Hel"); OllamaChat.on_done])
  /\ In OllamaChat.on_done
        (snd (OllamaChat.stream (Sample.net 200 200 [] Sample.interrupted)
                Sample.settings OllamaChat.init "hi" true))
  /\ In (OllamaChat.Message "assistant" "Hel")
        (fst (OllamaChat.stream (Sample.net 200 200 [] Sample.interrupted)
                Sample.settings OllamaChat.init "hi" true)).
Proof.
  split; [reflexivity|].
  split; simpl; tauto.
Qed.

Lemma cancel_ends_like_completion_witness :
  Spec.reachable (Sample.net 200 200 [] Sample.interrupted) Sample.settings
  = true
  /\ forallb Spec.passes
       [OllamaChat.Got false
          (OllamaChat.Data None (OllamaChat.Text "Hel") false)] = true
  /\ OllamaChat.stream (Sample.net 200 200 [] Sample.interrupted)
       Sample.settings OllamaChat.init "hi" true
     = ((OllamaChat.init ++ [OllamaChat.Message "user" "hi"])
        ++ [OllamaChat.Message "assistant" "Hel"],
        [OllamaChat.on_chunk (OllamaChat.Text "Hel"); OllamaChat.on_done]).
Proof.
  split; [reflexivity | split; [reflexivity|]].
  exact (cancel_ends_like_completion
           (Sample.net 200 200 [] Sample.interrupted) Sample.settings
           OllamaChat.init "hi" true
           (OllamaChat.Response 200 EmptyString Sample.interrupted)
           [OllamaChat.Got false
              (OllamaChat.Data None (OllamaChat.Text "Hel") false)]
           [OllamaChat.Got false
              (OllamaChat.Data None (OllamaChat.Text "!") true)]
           (OllamaChat.Data None (OllamaChat.Text "lo") false)
           eq_refl eq_refl eq_refl eq_refl eq_refl).
Defined.

(** The other end of a cancelled call: the fragment received before the
    token was set is a number, the join raises, and the call ends
    without a closing callback and without an assistant message. *)
Example cancel_after_a_number :
  OllamaChat.stream (Sample.net 200 200 [] Sample.interrupted_after_number)
    Sample.settings OllamaChat.init "hi" true
  = (OllamaChat.init ++ [OllamaChat.Message "user" "hi"],
     [OllamaChat.on_chunk (OllamaChat.Foreign true);
      OllamaChat.raises_TypeError]).
Proof. reflexivity. Qed.

(* ================================================================== *)
(** * OllamaChat: what every call of [stream] does *)
(* ================================================================== *)

Section StreamOutcome.
Import OllamaChat.

Lemma deltas_app (a b : list item) :
  Spec.deltas (a ++ b) = Spec.deltas a ++ Spec.deltas b.
Proof.
  induction a as [|i a IH]; [reflexivity|].
  destruct i as [c [| |e|o d dn]|e]; cbn [app Spec.deltas]; try exact IH.
  destruct (truthy d); [now rewrite IH | exact IH].
Qed.

(** What the loop reads is a part of the stream from its start. *)
Lemma read_is_a_prefix (items : list item) :
  exists rest : list item, items = Props.read items ++ rest.
Proof.
  induction items as [|i items [rest IH]]; [now exists []|].
  cbn [Props.read]. destruct (Spec.passes i).
  - exists rest. cbn [app]. now rewrite <- IH.
  - destruct i as [[|] [| |e|[err|] delta [|]]|e];
      try (now exists items); eexists; reflexivity.
Qed.

(** The loop reports the fragments of the part it reads, and then either
    falls through with the fragments gathered or returns after one
    error. *)
Lemma consume_shape (items : list item) (full : list fragment) :
  (consume items full
   = (Fell_through (full ++ Spec.deltas (Props.read items)),
      List.map on_chunk (Spec.deltas (Props.read items))))
  \/ (exists err,
        consume items full
        = (Returned,
           List.map on_chunk (Spec.deltas (Props.read items))
           ++ [on_error err])).
Proof.
  revert full. induction items as [|i items IH]; intros full.
  - left. simpl. now rewrite app_nil_r.
  - destruct i as [[|] l|e]; cbn [consume].
    + left. destruct l as [| |e|[err|] delta [|]]; simpl;
        now rewrite app_nil_r.
    + destruct l as [| |e|[err|] delta done].
      * apply IH.
      * apply IH.
      * right. now exists (except_message e).
      * right. exists ("❌ " +++ err). now destruct done.
      * destruct done.
        -- left. cbn [Props.read Spec.passes Spec.deltas].
           destruct (truthy delta); [reflexivity|].
           simpl. now rewrite app_nil_r.
        -- cbn [Props.read Spec.passes Spec.deltas].
           destruct (truthy delta) eqn:E.
           ++ destruct (IH (full ++ [delta])) as [H|[err H]]; rewrite H.
              ** left. now rewrite <- app_assoc.
              ** right. now exists err.
           ++ destruct (IH full) as [H|[err H]]; rewrite H.
              ** now left.
              ** right. now exists err.
    + right. now exists (except_message e).
Qed.

Variable net : Net.
Variable settings : Settings.
Variable messages : list message.
Variable user_text : string.
Variable handler : bool.

(** The ways in which a call of [stream] ends. *)
Lemma stream_cases :
  let ds := Props.reported net settings messages user_text in
  (stream net settings messages user_text handler
   = Props.completed messages user_text ds)
  \/ (exists err,
        stream net settings messages user_text handler
        = (Props.sent messages user_text,
           List.map on_chunk ds ++ [on_error err]))
  \/ (exists models,
        ds = [] /\ models <> [] /\ handler = true
        /\ stream net settings messages user_text handler
           = (messages, [on_model_not_found models])).
Proof.
  unfold Props.reported.
  destruct (Spec.reachable net settings) eqn:Hr.
  2:{ right. left. revert Hr. unfold Spec.reachable, stream, Props.sent.
      destruct (Str.is_empty (Str.rstrip_char "/" (ollama_url settings)));
        [intros _; eexists; reflexivity|].
      destruct (Str.is_empty (model settings));
        [intros _; eexists; reflexivity|].
      cbn [negb andb orb]. intros ->. eexists. reflexivity. }
  destruct (Spec.chat_request net settings messages user_text)
    as [resp|e] eqn:Hq.
  2:{ right. left. exists (except_message e).
      revert Hr Hq. unfold Spec.reachable, Spec.chat_request, stream.
      intros Hr Hq.
      apply andb_true_iff in Hr. destruct Hr as [Hr Hrun].
      apply andb_true_iff in Hr. destruct Hr as [Hb Hm].
      apply negb_true_iff in Hb. apply negb_true_iff in Hm.
      now rewrite Hb, Hm, Hrun, Hq. }
  rewrite (stream_answered net settings messages user_text handler resp Hr Hq).
  destruct (Nat.eqb (status_code resp) 404) eqn:E404.
  { apply Nat.eqb_eq in E404. rewrite E404. cbn [Nat.eqb].
    destruct (list_models net _) as [|m ms] eqn:Em; cbn [is_nil negb andb].
    - right. left. eexists. reflexivity.
    - destruct handler.
      + right. right. exists (m :: ms).
        repeat split; [discriminate|].
        now rewrite pop_user_last.
      + right. left. eexists. reflexivity. }
  destruct (Nat.eqb (status_code resp) 200) eqn:E200; cbn [negb].
  2:{ right. left. eexists. reflexivity. }
  unfold Props.completed, Props.sent, Props.reply.
  destruct (consume_shape (lines resp) []) as [H|[err H]]; rewrite H.
  - left. cbn [app].
    destruct (join_text (Spec.deltas (Props.read (lines resp)))) as [text|];
      [|reflexivity].
    destruct (Str.is_empty text); [now rewrite app_nil_r | reflexivity].
  - right. left. now exists err.
Qed.

(** X1.  Every call of [stream] reports the fragments of the part of
    the response that its loop reads, in the order of the stream (none
    when the backend is not reachable or does not answer with the status
    200), and then ends in one of these ways.  It completes: when the
    fragments are strings, [on_done] closes the call and the assistant
    message stored is their concatenation (nothing is stored when there
    is none); when one of them is not a string, TypeError leaves the
    call, no closing callback is invoked and nothing is stored.  It
    fails: [on_error] closes the call, no assistant message is stored
    and the user message stays.  The model is missing:
    [on_model_not_found], which needs a handler and a non-empty list of
    models, closes the call, no fragment was reported and the
    conversation is what it was before the call. *)
Theorem stream_outcome :
  let ds := Props.reported net settings messages user_text in
  (stream net settings messages user_text handler
   = Props.completed messages user_text ds)
  \/ (exists err,
        stream net settings messages user_text handler
        = (Props.sent messages user_text,
           List.map on_chunk ds ++ [on_error err]))
  \/ (exists models,
        ds = [] /\ models <> [] /\ handler = true
        /\ stream net settings messages user_text handler
           = (messages, [on_model_not_found models])).
Proof. exact stream_cases. Qed.

(** X2.  [stream] never rewrites the conversation it is given: the
    messages present before the call come first after it, in the same
    order, followed by at most the user message and the assistant
    message of this call. *)
Theorem stream_extends_history :
  exists added : list message,
    fst (stream net settings messages user_text handler) = messages ++ added
    /\ length added <= 2
    /\ Forall (fun m => role m = "user" \/ role m = "assistant") added.
Proof.
  destruct stream_cases as [H|[[err H]|[models (_ & _ & _ & H)]]];
    rewrite H; cbn [fst]; unfold Props.completed, Props.sent, Props.reply.
  - destruct (join_text _) as [text|]; cbn [fst].
    + destruct (Str.is_empty text).
      * exists [Message "user" user_text]. rewrite app_nil_r.
        split; [reflexivity | split; [simpl; lia|]].
        constructor; [now left | constructor].
      * exists [Message "user" user_text; Message "assistant" text].
        rewrite <- app_assoc.
        split; [reflexivity | split; [simpl; lia|]].
        constructor; [now left | constructor; [now right | constructor]].
    + exists [Message "user" user_text].
      split; [reflexivity | split; [simpl; lia|]].
      constructor; [now left | constructor].
  - exists [Message "user" user_text].
    split; [reflexivity | split; [simpl; lia|]].
    constructor; [now left | constructor].
  - exists []. rewrite app_nil_r.
    split; [reflexivity | split; [simpl; lia | constructor]].
Qed.

End StreamOutcome.

Section StreamLoop.
Import OllamaChat.

(** X3.  Lines that are empty, and lines on which [json.loads] raises
    JSONDecodeError, are skipped: taking them out of the stream changes
    neither the fragments gathered nor the callbacks.  (A line on which
    [json.loads] raises another exception is not among them: it ends the
    call with [on_error].) *)
Theorem consume_skips_noise (items : list item) (full : list fragment) :
  consume (filter (fun i => negb (Props.noise i)) items) full
  = consume items full.
Proof.
  revert full. induction items as [|i items IH]; intros full;
    [reflexivity|].
  destruct i as [[|] l|e]; cbn [filter Props.noise negb]; try reflexivity.
  destruct l as [| |e|[err|] delta done]; cbn [filter Props.noise negb consume];
    try reflexivity.
  - apply IH.
  - apply IH.
  - destruct done; [reflexivity|]. now rewrite IH.
Qed.

(** A line that is not UTF-8 is not skipped. *)
Example undecodable_line_is_an_error (e : Os.exn) (items : list item) :
  consume (Got false (Unusable e) :: items) []
  = (Returned, [on_error (except_message e)]).
Proof. reflexivity. Qed.

Variable net : Net.
Variable settings : Settings.
Variable messages : list message.
Variable user_text : string.
Variable handler : bool.

(** X4.  A record that carries an error ends the call at once: the
    fragments received before it have been reported, the error is
    reported with them, nothing after the record is read, and what was
    gathered is dropped, so that the conversation ends with the user
    message. *)
Theorem inline_error_aborts
        (resp : response) (before after : list item)
        (err : string) (delta : fragment) (done : bool) :
  Spec.reachable net settings = true ->
  Spec.chat_request net settings messages user_text = Os.Ok resp ->
  status_code resp = 200 ->
  lines resp = before ++ Got false (Data (Some err) delta done) :: after ->
  forallb Spec.passes before = true ->
  stream net settings messages user_text handler
  = (messages ++ [Message "user" user_text],
     List.map on_chunk (Spec.deltas before) ++ [on_error ("❌ " +++ err)]).
Proof.
  intros Hr Hq Hs Hl Hp.
  rewrite (stream_answered net settings messages user_text handler resp Hr Hq).
  rewrite Hs, Hl. cbn [Nat.eqb negb].
  rewrite (consume_passes before _ [] Hp). reflexivity.
Qed.

(** X5.  The record with the [done] flag ends the stream: its own
    fragment is the last one reported and what the backend sends after
    it is not read.  When all the fragments up to it are strings, the
    reply stored is their concatenation and [on_done] is invoked; when
    one of them is not a string, TypeError leaves the call, nothing is
    stored and no closing callback is invoked. *)
Theorem done_flag_completes
        (resp : response) (before after : list item) (delta : fragment) :
  Spec.reachable net settings = true ->
  Spec.chat_request net settings messages user_text = Os.Ok resp ->
  status_code resp = 200 ->
  lines resp = before ++ Got false (Data None delta true) :: after ->
  forallb Spec.passes before = true ->
  stream net settings messages user_text handler
  = Props.completed messages user_text
      (Spec.deltas (before ++ [Got false (Data None delta true)])).
Proof.
  intros Hr Hq Hs Hl Hp.
  rewrite (stream_answered net settings messages user_text handler resp Hr Hq).
  rewrite Hs, Hl. cbn [Nat.eqb negb].
  rewrite (consume_passes before _ [] Hp). cbn [app consume fst snd].
  rewrite deltas_app. cbn [Spec.deltas].
  unfold Props.completed, Props.sent, Props.reply.
  destruct (truthy delta); cbn [fst snd].
  - rewrite map_app. cbn [List.map].
    destruct (join_text (Spec.deltas before ++ [delta])) as [text|];
      [|reflexivity].
    destruct (Str.is_empty text); [now rewrite app_nil_r | reflexivity].
  - rewrite !app_nil_r.
    destruct (join_text (Spec.deltas before)) as [text|]; [|reflexivity].
    destruct (Str.is_empty text); [now rewrite app_nil_r | reflexivity].
Qed.

End StreamLoop.

(* ================================================================== *)
(** * ActionExecutor: what the handlers do to the machine *)
(* ================================================================== *)

Section Handlers.
Import ActionExecutor.

Variable os : Os.t.

Lemma log_bind {A B : Type} (m : M A) (f : A -> M B) :
  log (bind m f)
  = match result m with
    | Os.Ok a => log m ++ log (f a)
    | Os.Raise _ => log m
    end.
Proof.
  destruct m as [l [a|e]]; simpl; [|reflexivity].
  now destruct (f a).
Qed.

Lemma take_length (n : nat) (s : string) : String.length (Str.take n s) <= n.
Proof.
  unfold Str.take. revert s. induction n as [|n IH]; intros [|c s]; simpl;
    try lia.
  specialize (IH s). lia.
Qed.

(** X6.  [_open_url] asks the browser once, for an address that begins
    with http:// or https:// and ends with the text it was given: an
    address that has the scheme is passed on as it is, any other gets
    https:// in front. *)
Theorem open_url_adds_scheme (url : string) :
  exists u : string,
    log (_open_url os url) = [Browse u]
    /\ ActionProps.has_scheme u = true
    /\ Str.endswith url u = true
    /\ (ActionProps.has_scheme url = true -> u = url).
Proof.
  unfold _open_url, ActionProps.has_scheme.
  destruct (Str.startswith "http://" url || Str.startswith "https://" url)
    eqn:E.
  - exists url. repeat split.
    + unfold perform. now destruct (Os.webbrowser_open os url).
    + exact E.
    + apply (endswith_append EmptyString url).
  - exists ("https://" +++ url). repeat split.
    + unfold perform. now destruct (Os.webbrowser_open os _).
    + unfold Str.startswith. rewrite (prefix_append "https://" url).
      apply orb_true_r.
    + apply endswith_append.
    + discriminate.
Qed.

(** X7.  A command that passes the denylist and whose process returns
    gives either the no-output text or the result text with at most 616
    characters of output: 600 of the output itself and the truncation
    mark.  One process is started and no exception leaves. *)
Theorem system_cmd_output_is_bounded (command : string) (r : Os.completed) :
  existsb (fun d => Str.contains d (Str.lower command)) dangerous = false ->
  Os.subprocess_run os ["powershell"; "-Command"; command] = Os.Ok r ->
  log (_system_cmd os command)
  = [RunProcess ["powershell"; "-Command"; command] 15]
  /\ (result (_system_cmd os command)
      = Os.Ok "⚡ Command executed (no output)."
      \/ exists out : string,
           result (_system_cmd os command)
           = Os.Ok (ActionProps.command_result out)
           /\ String.length out <= 616).
Proof.
  intros Hd Hr. unfold _system_cmd. rewrite Hd.
  unfold try_except, bind, perform. rewrite Hr. cbn [log result fst snd].
  set (output := Str.strip (first_nonempty (Os.stdout r) (Os.stderr r))).
  destruct (600 <? String.length output) eqn:El.
  - cbn [Str.is_empty String.append].
    destruct (Str.take 600 output +++ Str.newline +++ "... (truncated)")
      as [|c s] eqn:Eo; cbn [Str.is_empty ret fst snd app].
    + split; [reflexivity | now left].
    + split; [reflexivity|]. right. exists (String c s).
      split; [reflexivity|]. rewrite <- Eo.
      rewrite !length_append. pose proof (take_length 600 output).
      change (String.length Str.newline) with 1.
      change (String.length "... (truncated)") with 15.
      revert H. generalize (String.length (Str.take 600 output)). lia.
  - destruct output as [|c s] eqn:Eo; cbn [Str.is_empty ret fst snd app].
    + split; [reflexivity | now left].
    + split; [reflexivity|]. right. exists (String c s).
      split; [reflexivity|]. apply Nat.ltb_ge in El.
      apply (Nat.le_trans _ 600); [exact El | clear; lia].
Qed.

(** Whatever the process does, [_system_cmd] returns a text. *)
Lemma system_cmd_returns (command : string) :
  exists s, result (_system_cmd os command) = Os.Ok s.
Proof.
  unfold _system_cmd.
  destruct (existsb _ dangerous); [now eexists|].
  unfold try_except, bind, perform.
  destruct (Os.subprocess_run os _) as [r|e]; cbn [fst snd].
  - match goal with |- context [Str.is_empty ?x] => destruct (Str.is_empty x) end;
      now eexists.
  - destruct (Os.cls e); now eexists.
Qed.

(** One turn of the loop over the candidate process names. *)
Lemma kill_any_step (proc : string) (rest : list string) :
  let argv := [ "taskkill"; "/f"; "/im";
                if Str.endswith ".exe" proc then proc else proc +++ ".exe" ] in
  let killed := match Os.subprocess_run os argv with
                | Os.Ok r => Nat.eqb (Os.returncode r) 0
                | Os.Raise _ => false
                end in
  kill_any os (proc :: rest)
  = (RunProcess argv 5 :: (if killed then [] else log (kill_any os rest)),
     if killed then Os.Ok true else result (kill_any os rest)).
Proof.
  cbn [kill_any]. unfold try_except, bind, perform, ret, log, result.
  destruct (Os.subprocess_run os _) as [r|e]; cbn [fst snd app].
  - destruct (Nat.eqb (Os.returncode r) 0); [reflexivity|].
    now destruct (kill_any os rest) as [l [x|x]].
  - now destruct (kill_any os rest) as [l [x|x]].
Qed.

Lemma kill_any_spec (names : list string) :
  (exists b, result (kill_any os names) = Os.Ok b)
  /\ forallb ActionProps.is_taskkill (log (kill_any os names)) = true
  /\ length (log (kill_any os names)) <= length names.
Proof.
  induction names as [|proc rest IH]; [simpl; eauto|].
  destruct IH as ([b Hb] & Hk & Hl).
  assert (Hexe : Str.endswith ".exe"
                   (if Str.endswith ".exe" proc then proc else proc +++ ".exe")
                 = true).
  { destruct (Str.endswith ".exe" proc) eqn:E;
      [exact E | apply endswith_append]. }
  rewrite kill_any_step. cbv zeta. cbn [log result fst snd].
  cbn [forallb ActionProps.is_taskkill String.eqb Ascii.eqb Bool.eqb andb].
  rewrite Hexe. cbn [andb length].
  destruct (match Os.subprocess_run os _ with
            | Os.Ok r => Nat.eqb (Os.returncode r) 0
            | Os.Raise _ => false
            end).
  - repeat split; [eauto | simpl; lia].
  - repeat split; [eauto | exact Hk | lia].
Qed.

Lemma get_Forall {A : Type} (P : A -> Prop) (d : list (string * A))
      (key : string) (v : A) :
  Forall (fun kv => P (snd kv)) d -> get d key = Some v -> P v.
Proof.
  induction 1 as [|[k x] d Hx _ IH]; cbn [get]; [discriminate|].
  destruct (String.eqb k key); [|exact IH].
  now intros [= <-].
Qed.

(** X8.  [_close_app] only ever runs forced [taskkill]s of images
    named [*.exe], three at most, and always returns a text: a failing
    or timed out [taskkill] is passed over and never raised. *)
Theorem close_app_only_kills_exe_images (name : string) :
  (exists s, result (_close_app os name) = Os.Ok s)
  /\ forallb ActionProps.is_taskkill (log (_close_app os name)) = true
  /\ length (log (_close_app os name)) <= 3.
Proof.
  unfold _close_app.
  set (names := match get KILL_MAP (Str.strip (Str.lower name)) with
                | Some (p :: ps) => p :: ps
                | _ => [Str.strip (Str.lower name);
                        Str.strip (Str.lower name) +++ ".exe"]
                end).
  assert (Hn : length names <= 3).
  { unfold names.
    destruct (get KILL_MAP (Str.strip (Str.lower name))) as [l|] eqn:E;
      [|simpl; lia].
    assert (length l <= 3).
    { apply (get_Forall (fun l => length l <= 3) KILL_MAP
                        (Str.strip (Str.lower name)) l); [|exact E].
      unfold KILL_MAP. repeat constructor. }
    destruct l; simpl in *; lia. }
  destruct (kill_any_spec names) as ([b Hb] & Hk & Hl).
  rewrite log_bind, result_bind, Hb.
  destruct b; cbn [ret log result fst snd]; rewrite app_nil_r;
    repeat split; eauto; lia.
Qed.

(** [_open_folder] never opens a path that does not exist: for a
    missing path it reports that and does nothing, otherwise the one
    thing it opens is the expanded path, which exists. *)
Lemma open_folder_only_opens_existing (path : string) :
  let p := Os.expanduser os (Str.replace "/" "\" path) in
  (Os.path_exists os p = false
   /\ _open_folder os path = ([], Os.Ok ("❌ Folder not found: " +++ p)))
  \/ (Os.path_exists os p = true
      /\ log (_open_folder os path) = [StartFile p]).
Proof.
  intros p. unfold _open_folder. fold p.
  destruct (Os.path_exists os p); cbn [negb].
  - right. split; [reflexivity|].
    unfold perform. now destruct (Os.startfile os p).
  - now left.
Qed.

(** X9.  [_open_app] launches one thing and one only, by the search
    path, the installation roots or the shell, whatever it is asked to
    open and however the attempt ends. *)
Theorem open_app_launches_once (name : string) :
  exists e, log (_open_app os name) = [e] /\ ActionProps.is_launch e = true.
Proof.
  unfold _open_app.
  destruct (Str.startswith "ms-" _).
  - eexists. unfold perform, bind. destruct (Os.startfile os _);
      cbn [log fst ret app]; split; reflexivity.
  - destruct (truthy _) as [path|].
    + eexists. unfold perform, bind. destruct (Os.popen os _);
        cbn [log fst ret app]; split; reflexivity.
    + eexists. unfold try_except, perform, bind. destruct (Os.startfile os _);
        cbn [log fst ret app]; split; reflexivity.
Qed.

Lemma replace_quote_step (c : ascii) (s : string) :
  Str.replace_from "'" "''" 0 (String c s)
  = if Ascii.eqb c "'"
    then String "'" (String "'" (Str.replace_from "'" "''" 0 s))
    else String c (Str.replace_from "'" "''" 0 s).
Proof.
  cbn [Str.replace_from prefix String.length Nat.sub].
  destruct (ascii_dec "'" c) as [<-|n].
  - cbn. now destruct s.
  - destruct (Ascii.eqb c "'") eqn:E; [|reflexivity].
    apply Ascii.eqb_eq in E. now elim n.
Qed.

(** X10.  [_type_text] runs one command, given five seconds, in which
    the text stands between two apostrophes with each of its own
    apostrophes (the character U+0027) doubled and nothing else changed:
    the apostrophes of what stands there come in pairs, and turning each
    pair into one apostrophe gives the text back.  The handler returns a
    string whether the command can be run or not. *)
Theorem type_text_quotes_are_paired (text : string) :
  exists ps_text : string,
    ActionProps.quotes_paired ps_text = true
    /\ ActionProps.halve ps_text = text
    /\ log (_type_text os text)
       = [RunProcess (ActionProps.send_keys ps_text) 5]
    /\ exists s, result (_type_text os text) = Os.Ok s.
Proof.
  exists (Str.replace "'" "''" text).
  split; [|split; [|split]].
  - unfold Str.replace. cbn [Str.is_empty].
    induction text as [|c s IH]; [reflexivity|].
    rewrite replace_quote_step.
    destruct (Ascii.eqb c "'") eqn:E; cbn [ActionProps.quotes_paired].
    + cbn [Ascii.eqb Bool.eqb andb]. exact IH.
    + rewrite E. exact IH.
  - unfold Str.replace. cbn [Str.is_empty].
    induction text as [|c s IH]; [reflexivity|].
    rewrite replace_quote_step.
    destruct (Ascii.eqb c "'") eqn:E; cbn [ActionProps.halve].
    + apply Ascii.eqb_eq in E. subst c.
      cbn [Ascii.eqb Bool.eqb andb]. now rewrite IH.
    + rewrite E. now rewrite IH.
  - unfold _type_text, ActionProps.send_keys, perform.
    destruct (Os.subprocess_run os _); reflexivity.
  - unfold _type_text, perform.
    destruct (Os.subprocess_run os _); eexists; reflexivity.
Qed.

End Handlers.

(* ================================================================== *)
(** * IntentDetector: shape and normalisation *)
(* ================================================================== *)

Section Detect.
Import IntentDetector.

Variable os : Os.t.
Variable apps : list string.

Lemma detect_open_single (target : string) :
  exists cmd arg,
    detect_open os apps target = [(cmd, arg)]
    /\ In cmd TextProps.detected_commands.
Proof.
  unfold detect_open, TextProps.detected_commands.
  destruct (Re.found _ || Re.found _); [do 2 eexists; split; [reflexivity|simpl; tauto]|].
  destruct (known_key SITES target); [do 2 eexists; split; [reflexivity|simpl; tauto]|].
  destruct (known_key (FOLDERS os) target); [do 2 eexists; split; [reflexivity|simpl; tauto]|].
  destruct (Str.contains "\" target || Str.contains "/" target
            || Str.contains ":" target).
  - destruct (Os.path_exists os _); do 2 eexists; split; try reflexivity; simpl; tauto.
  - destruct (known_app apps target); do 2 eexists; split; try reflexivity; simpl; tauto.
Qed.

(** X11.  [detect] returns no action or exactly one, and the command of
    that one is among the seven that the rules build, each of them a
    command that [ActionExecutor.run] knows. *)
Theorem detect_returns_at_most_one (text : string) :
  detect os apps text = []
  \/ exists cmd arg,
       detect os apps text = [(cmd, arg)]
       /\ In cmd TextProps.detected_commands.
Proof.
  unfold detect.
  destruct (Re.match_ close_re _).
  { right. destruct (known_app apps _); do 2 eexists;
      split; try reflexivity; simpl; tauto. }
  destruct (Re.found _ || Re.found _).
  { right. do 2 eexists. split; [reflexivity | simpl; tauto]. }
  destruct (Re.match_ web_re _).
  { right. do 2 eexists. split; [reflexivity | simpl; tauto]. }
  unfold detect_find.
  destruct (Re.match_ find_re _) as [m|].
  - destruct (negb _).
    + destruct (existsb _ _ || Re.found _).
      * right. do 2 eexists. split; [reflexivity | simpl; tauto].
      * destruct (Re.match_ open_re _); [right; apply detect_open_single | now left].
    + destruct (Re.match_ open_re _); [right; apply detect_open_single | now left].
  - destruct (Re.match_ open_re _); [right; apply detect_open_single | now left].
Qed.

(** A capital letter and its small letter are lowered alike. *)
Lemma lower_char_pair (a b : ascii) :
  Str.is_upper a = true -> Str.code b = Str.code a + 32 ->
  Str.lower_char a = Str.lower_char b.
Proof.
  intros Hu Hc.
  assert (Hb : Str.is_upper b = false).
  { apply is_upper_bounds in Hu. unfold Str.is_upper, Str.between.
    rewrite Hc. apply andb_false_iff. right. apply Nat.leb_gt. lia. }
  unfold Str.lower_char. rewrite Hu, Hb, <- Hc. apply ascii_nat_embedding.
Qed.

Lemma lower_char_ci_eq (a b : ascii) :
  Spec.ci_eqb a b = true -> Str.lower_char a = Str.lower_char b.
Proof.
  unfold Spec.ci_eqb. intros H.
  apply orb_true_iff in H. destruct H as [H|H].
  - apply orb_true_iff in H. destruct H as [H|H].
    + apply Ascii.eqb_eq in H. now subst.
    + apply andb_true_iff in H. destruct H as [Hu Hc].
      apply Nat.eqb_eq in Hc. now apply lower_char_pair.
  - apply andb_true_iff in H. destruct H as [Hu Hc].
    apply Nat.eqb_eq in Hc. symmetry. now apply lower_char_pair.
Qed.

Lemma lower_ci_eq (s t : string) :
  Spec.ci_equal s t = true -> Str.lower s = Str.lower t.
Proof.
  unfold Str.lower. revert t.
  induction s as [|a s IH]; intros [|b t] H;
    cbn [Str.map Spec.ci_equal] in *; try discriminate; try reflexivity.
  apply andb_true_iff in H. destruct H as [Hab Hst].
  now rewrite (lower_char_ci_eq a b Hab), (IH t Hst).
Qed.

Lemma is_space_lower_char (c : ascii) :
  Str.is_space (Str.lower_char c) = Str.is_space c.
Proof.
  unfold Str.lower_char. destruct (Str.is_upper c) eqn:Hu; [|reflexivity].
  apply is_upper_bounds in Hu.
  unfold Str.is_space, Str.between, Str.code in *.
  rewrite nat_ascii_embedding by lia.
  repeat match goal with
         | |- context [?a <=? ?b] => destruct (Nat.leb_spec a b)
         end; try reflexivity; lia.
Qed.

Lemma blank_lower (s : string) : TextProps.blank (Str.lower s) = TextProps.blank s.
Proof.
  unfold Str.lower. induction s as [|c s IH]; [reflexivity|].
  cbn [Str.map TextProps.blank]. now rewrite is_space_lower_char, IH.
Qed.

Lemma lstrip_blank (a s : string) :
  TextProps.blank a = true -> Str.lstrip (a +++ s) = Str.lstrip s.
Proof.
  induction a as [|c a IH]; [reflexivity|].
  cbn [TextProps.blank String.append Str.lstrip]. intros H.
  apply andb_true_iff in H. destruct H as [Hc Ha]. rewrite Hc. now apply IH.
Qed.

Lemma rstrip_blank_only (b : string) :
  TextProps.blank b = true -> Str.rstrip b = EmptyString.
Proof.
  unfold Str.rstrip. induction b as [|c b IH]; [reflexivity|].
  cbn [TextProps.blank Str.rstrip_by]. intros H.
  apply andb_true_iff in H. destruct H as [Hc Hb].
  now rewrite (IH Hb), Hc.
Qed.

Lemma rstrip_blank (s b : string) :
  TextProps.blank b = true -> Str.rstrip (s +++ b) = Str.rstrip s.
Proof.
  intros Hb. unfold Str.rstrip. induction s as [|c s IH].
  - cbn [String.append]. now apply rstrip_blank_only.
  - cbn [String.append Str.rstrip_by]. now rewrite IH.
Qed.

Lemma strip_leading_blank (a s : string) :
  TextProps.blank a = true -> Str.strip (a +++ s) = Str.strip s.
Proof.
  unfold Str.strip, Str.rstrip. induction a as [|c a IH]; [reflexivity|].
  cbn [TextProps.blank String.append Str.rstrip_by]. intros H.
  apply andb_true_iff in H. destruct H as [Hc Ha]. rewrite Hc.
  cbn [andb]. specialize (IH Ha).
  destruct (Str.rstrip_by Str.is_space (a +++ s)) as [|x r] eqn:E.
  - cbn [Str.is_empty Str.lstrip]. rewrite <- IH. reflexivity.
  - cbn [Str.is_empty Str.lstrip]. rewrite Hc. exact IH.
Qed.

(** X12.  [detect] looks at the text without its letter case and
    without the white space around it: two texts that are equal up to
    the case of their letters, one of them wrapped in white space, give
    the same actions. *)
Theorem detect_ignores_case_and_margins (before text text' after : string) :
  TextProps.blank before = true ->
  TextProps.blank after = true ->
  Spec.ci_equal text' text = true ->
  detect os apps (before +++ text' +++ after) = detect os apps text.
Proof.
  intros Hb Ha Hci.
  assert (E : Str.strip (Str.lower (before +++ text' +++ after))
              = Str.strip (Str.lower text)).
  { rewrite !lower_append, (lower_ci_eq text' text Hci).
    rewrite strip_leading_blank by (now rewrite blank_lower).
    unfold Str.strip. rewrite rstrip_blank by (now rewrite blank_lower).
    reflexivity. }
  unfold detect. rewrite E. reflexivity.
Qed.

End Detect.

(* ================================================================== *)
(** * ChatWindow: the reply and its tags *)
(* ================================================================== *)

Section Reply.
Import Re ChatWindow.

Variable os : Os.t.
Variable apps : list string.

Lemma drop_append (a b : string) : Str.drop (String.length a) (a +++ b) = b.
Proof. induction a as [|x a IH]; [now destruct b | exact IH]. Qed.

Lemma unprefixed_reply (reply : string) :
  unprefixed (bot_prefix +++ reply) = reply.
Proof.
  unfold unprefixed, Str.startswith.
  now rewrite prefix_append, drop_append.
Qed.

Lemma nth_error_last {A : Type} (l : list A) (x : A) :
  nth_error (l ++ [x]) (length l) = Some x.
Proof. induction l as [|y l IH]; [reflexivity | exact IH]. Qed.

(** While the reply arrives, the bot label gathers the fragments and
    nothing else changes. *)
Lemma handle_all_gathers (evs : list ui_event) :
  forallb TurnProps.in_turn evs = true ->
  forall (w : t) (lbl : nat) (shown_text : string) (gone : bool),
    top w = true ->
    is_streaming w = true ->
    _bot_label w = Some lbl ->
    nth_error (labels w) lbl = Some (Label shown_text gone) ->
    let w' := fst (handle_all os apps w evs) in
    is_streaming w' = true
    /\ _bot_label w' = Some lbl
    /\ _intents_fired w' = _intents_fired w
    /\ nth_error (labels w') lbl
       = Some (Label (shown_text +++ TurnProps.fragments evs) gone)
    /\ snd (handle_all os apps w evs) = [].
Proof.
  induction evs as [|ev evs IH]; intros Hevs w lbl t gone Ht Hs Hl Hn.
  - cbn. rewrite append_empty_r. auto.
  - cbn [forallb] in Hevs. apply andb_true_iff in Hevs.
    destruct Hevs as [Hev Hevs].
    cbn [handle_all TurnProps.fragments].
    assert (Hstep :
              exists w1,
                handle os apps w ev = (w1, [])
                /\ top w1 = true
                /\ is_streaming w1 = true /\ _bot_label w1 = Some lbl
                /\ _intents_fired w1 = _intents_fired w
                /\ nth_error (labels w1) lbl
                   = Some (Label (t +++ match ev with
                                        | Chunk text => text
                                        | _ => EmptyString
                                        end) gone)).
    { destruct ev as [text| |entry| |]; try discriminate Hev; cbn [handle].
      - exists (_append_chunk w text). unfold _on_chunk. rewrite Ht.
        unfold _append_chunk. rewrite Hl.
        unfold configure, with_labels, cget. rewrite Hn.
        cbn [shown top is_streaming _bot_label _intents_fired labels].
        repeat split; try assumption.
        exact (nth_error_update (labels w) lbl _ _ Hn).
      - exists (_cancel w). unfold _cancel.
        cbn [top is_streaming _bot_label _intents_fired labels].
        rewrite append_empty_r. repeat split; assumption.
      - exists w. unfold _send. rewrite Hs, orb_true_r.
        rewrite append_empty_r. repeat split; assumption. }
    destruct Hstep as (w1 & E & Ht1 & Hs1 & Hl1 & Hf1 & Hn1). rewrite E.
    specialize (IH Hevs w1 lbl _ gone Ht1 Hs1 Hl1 Hn1). cbv zeta in IH.
    destruct (handle_all os apps w1 evs) as [w2 started].
    cbn [fst snd] in *. destruct IH as (H1 & H2 & H3 & H4 & H5).
    repeat split; try assumption; try congruence.
    rewrite H4. f_equal. f_equal.
    destruct ev; rewrite append_assoc; cbn [String.append]; reflexivity.
Qed.

(** X14.  In a turn whose text makes [detect] return nothing, only the
    chat request is started by [_send], and at the end of the stream the
    tags are taken from the reply as it was received, the fragments put
    together in their order: one thread is started for them when there
    is one.  The label shows the reply without its tags, except when
    nothing but tags was received: then it is left as it is.  The events
    of the turn are fragments, stop clicks and presses of the Return
    key. *)
Theorem reply_tags_fire_without_local_intent
        (w : t) (entry : string) (evs : list ui_event) :
  top w = true ->
  is_streaming w = false ->
  Str.strip entry <> EmptyString ->
  IntentDetector.detect os apps (Str.strip entry) = [] ->
  forallb TurnProps.in_turn evs = true ->
  let sent := _send os apps w entry in
  let during := handle_all os apps (fst sent) evs in
  let finished := _finish_and_run_actions (fst during) in
  let reply := TurnProps.fragments evs in
  let clean := Str.strip (sub_empty tag_re reply) in
  snd sent = [chat_stream (Str.strip entry)]
  /\ snd during = []
  /\ snd finished
     = (if OllamaChat.is_nil (findall tag_body_re reply) then []
        else [execute_actions (findall tag_body_re reply)])
  /\ nth_error (labels (fst finished)) (S (length (labels w)))
     = Some (Label (bot_prefix +++ (if Str.is_empty clean then reply
                                    else clean)) false).
Proof.
  intros Ht Hs Hne Hd Hevs sent during finished reply clean.
  destruct (no_intents_no_local_thread os apps w entry Ht Hs Hne Hd)
    as (Hth & Hfl). fold sent in Hth, Hfl.
  (* the window after [_send] *)
  assert (Hw : top (fst sent) = true
               /\ is_streaming (fst sent) = true
               /\ _bot_label (fst sent) = Some (S (length (labels w)))
               /\ nth_error (labels (fst sent)) (S (length (labels w)))
                  = Some (Label bot_prefix false)).
  { unfold sent, _send. rewrite Ht, Hs. cbn [negb orb].
    destruct (Str.strip entry) as [|ch text] eqn:E; [now elim Hne|].
    cbn [Str.is_empty _add_bubble fst snd labels is_streaming _bot_label
         top cancel_event _intents_fired].
    rewrite length_app. cbn [length]. rewrite Nat.add_1_r.
    repeat split; [exact Ht|].
    replace (S (length (labels w)))
      with (length (labels w ++ [Label (Str.empty +++ String ch text) false]))
      by (rewrite length_app; cbn [length]; lia).
    apply nth_error_last. }
  destruct Hw as (Ht1 & Hs1 & Hl1 & Hn1).
  destruct (handle_all_gathers evs Hevs (fst sent) _ _ _ Ht1 Hs1 Hl1 Hn1)
    as (Hs2 & Hl2 & Hf2 & Hn2 & Hth2).
  fold during in Hs2, Hl2, Hf2, Hn2, Hth2. fold reply in Hn2.
  rewrite Hfl in Hf2.
  split; [exact Hth | split; [exact Hth2|]].
  unfold finished, _finish_and_run_actions, cget. rewrite Hl2, Hn2.
  cbn [shown]. rewrite unprefixed_reply. fold clean.
  destruct (Str.is_empty clean) eqn:Ec.
  - rewrite Hf2. cbn [negb fst snd _finish labels].
    split; [reflexivity | exact Hn2].
  - cbn [configure with_labels _intents_fired]. rewrite Hf2.
    cbn [negb fst snd _finish labels].
    split; [reflexivity|].
    exact (nth_error_update (labels (fst during)) _ _ _ Hn2).
Qed.

Lemma split_once_none (ch : ascii) (s : string) :
  Spec.has ch s = false -> Str.split_once ch s = (s, None).
Proof.
  induction s as [|x s IH]; simpl; intros H; [reflexivity|].
  apply orb_false_iff in H. destruct H as [Hx Hs].
  now rewrite Hx, (IH Hs).
Qed.

(** X15.  A tag without a bar is a command without an argument: the
    whole body, trimmed and in upper case, is the command, and the
    argument is the empty text. *)
Theorem tag_without_bar (body : string) :
  Spec.has "|" body = false ->
  parse_action body = (Str.upper (Str.strip body), EmptyString).
Proof.
  intros H. unfold parse_action. now rewrite (split_once_none "|" body H).
Qed.

Lemma strip_blank (s : string) :
  TextProps.blank s = true -> Str.strip s = EmptyString.
Proof.
  intros H. unfold Str.strip. now rewrite (rstrip_blank_only s H).
Qed.

(** X16.  [_send] does nothing at all, neither to the window nor by
    starting a thread, when the window is closed, when a turn is under
    way, or when the entry holds white space only. *)
Theorem send_is_refused (w : t) (entry : string) :
  top w = false \/ is_streaming w = true \/ TextProps.blank entry = true ->
  _send os apps w entry = (w, []).
Proof.
  intros [H|[H|H]]; unfold _send.
  - now rewrite H.
  - now rewrite H, orb_true_r.
  - destruct (negb (top w) || is_streaming w); [reflexivity|].
    now rewrite (strip_blank entry H).
Qed.

End Reply.

Section Clearing.
Import ChatWindow.

Variable os : Os.t.
Variable apps : list string.

Lemma late_fragments_are_dropped (chunks : list string) (w : t) :
  _bot_label w = None ->
  handle_all os apps w (List.map Chunk chunks) = (w, []).
Proof.
  intros Hl. induction chunks as [|c chunks IH]; [reflexivity|].
  cbn [List.map handle_all handle].
  assert (E : _on_chunk w c = w).
  { unfold _on_chunk, _append_chunk. rewrite Hl. now destruct (top w). }
  rewrite E, IH. reflexivity.
Qed.

(** X17.  [_clear] in an open window sets the token when a reply is
    streaming, resets [is_streaming] and [_bot_label], leaves
    [_intents_fired] as it is, destroys every bubble and shows the
    greeting.  Until the next message is sent, the fragments of the
    reply that still arrive are not shown, each leaves the window
    exactly as it is, and when the stream then ends
    [_finish_and_run_actions] starts no thread and changes nothing but
    the flag. *)
Theorem clear_drops_late_fragments (w : t) (chunks : list string) :
  top w = true ->
  let cleared := _clear w in
  let late := handle_all os apps cleared (List.map Chunk chunks) in
  cleared
  = Make true false (is_streaming w || cancel_event w) None
         (_intents_fired w)
         (destroy_all (labels w) ++ [Label (bot_prefix +++ GREETING) false])
  /\ late = (cleared, [])
  /\ _finish_and_run_actions (fst late)
     = (Make true false (is_streaming w || cancel_event w) None false
             (labels cleared), []).
Proof.
  intros Ht cleared late.
  assert (Hc : cleared
               = Make true false (is_streaming w || cancel_event w) None
                   (_intents_fired w)
                   (destroy_all (labels w)
                    ++ [Label (bot_prefix +++ GREETING) false])).
  { unfold cleared, _clear. cbn [top]. rewrite Ht.
    cbn [_add_bubble with_labels fst top is_streaming cancel_event
         _bot_label _intents_fired labels].
    now destruct (is_streaming w). }
  assert (Hl : late = (cleared, [])).
  { unfold late. apply late_fragments_are_dropped. now rewrite Hc. }
  split; [exact Hc | split; [exact Hl|]].
  rewrite Hl. cbn [fst]. rewrite Hc. reflexivity.
Qed.

End Clearing.

(* ================================================================== *)
(** * Positions on the screen *)
(* ================================================================== *)

Section Positions.
Import Screen.
Local Open Scope Z_scope.

(** The virtual desktop that is reported is never empty. *)
Lemma virtual_screen_is_not_empty (metrics : Os.outcome (Z * Z * Z * Z)) :
  let '(vl, vt, vr, vb) := _get_virtual_screen_bounds metrics in
  vl < vr /\ vt < vb.
Proof.
  unfold _get_virtual_screen_bounds.
  destruct metrics as [[[[x y] w] h]|e]; [|lia].
  destruct (0 <? w) eqn:Ew; destruct (0 <? h) eqn:Eh; cbn [andb]; lia.
Qed.

(** X19.  A roam started inside the roaming area of the desktop (20
    from its left and top edges, 110 and 140 from its right and bottom
    edges) ends inside it, and moves Clippy by no more than the numbers
    drawn: 200 across and 150 down at most. *)
Theorem roam_stays_in_the_area (vl vt vr vb cx cy dx dy : Z) :
  vl + 20 <= cx <= vr - 110 ->
  vt + 20 <= cy <= vb - 140 ->
  -200 <= dx <= 200 ->
  -150 <= dy <= 150 ->
  let '(tx, ty) := roam_target (vl, vt, vr, vb) cx cy dx dy in
  vl + 20 <= tx <= vr - 110
  /\ vt + 20 <= ty <= vb - 140
  /\ Z.abs (tx - cx) <= 200
  /\ Z.abs (ty - cy) <= 150.
Proof. intros Hx Hy Hdx Hdy. unfold roam_target. lia. Qed.

(** X20.  [_do_roam] starts no walk while the chat is open or Clippy is
    dragged.  Otherwise the walk starts where Clippy is and its target
    is never left of or above the roaming area of the desktop that
    [_get_virtual_screen_bounds] reports, a desktop that is never empty
    since the fallback of 1920 by 1080 replaces a failed or degenerate
    answer. *)
Theorem do_roam_target (chat_open dragging : bool)
        (metrics : Os.outcome (Z * Z * Z * Z)) (cx cy dx dy : Z) :
  let '(vl, vt, vr, vb) := _get_virtual_screen_bounds metrics in
  vl < vr /\ vt < vb
  /\ match _do_roam chat_open dragging metrics cx cy dx dy with
     | None => chat_open = true \/ dragging = true
     | Some (sx, sy, tx, ty) =>
         chat_open = false /\ dragging = false
         /\ sx = cx /\ sy = cy
         /\ vl + 20 <= tx /\ vt + 20 <= ty
         /\ (130 <= vr - vl -> tx <= vr - 110)
         /\ (160 <= vb - vt -> ty <= vb - 140)
     end.
Proof.
  pose proof (virtual_screen_is_not_empty metrics) as Hb.
  unfold _do_roam.
  destruct (_get_virtual_screen_bounds metrics) as [[[vl vt] vr] vb].
  destruct Hb as [H1 H2]. split; [exact H1 | split; [exact H2|]].
  destruct chat_open; [now left|].
  destruct dragging; [now right|].
  cbn [orb roam_target]. repeat split; lia.
Qed.

(** X21.  The chat window opens at coordinates that are never negative,
    and on a screen that has room for it (420 wide, 540 high and 40 to
    spare below) it lies on the screen with its whole width and height. *)
Theorem chat_window_opens_on_screen (cx cy root_w sw sh : Z) :
  chat_w <= sw ->
  chat_h + 40 <= sh ->
  let '(px, py) := open_position cx cy root_w sw sh in
  0 <= px /\ px + chat_w <= sw /\ 0 <= py /\ py + chat_h + 40 <= sh.
Proof.
  unfold open_position, chat_w, chat_h. intros Hw Hh.
  destruct (cx - 420 - 10 <? 0); lia.
Qed.

End Positions.

(* ================================================================== *)
(** * AnimatedSprite: playing the frames *)
(* ================================================================== *)

Section Sprite.
Import AnimatedSprite.

Lemma init_playable (img : image) : playable (init img).
Proof.
  unfold playable, init, _load.
  destruct (has_n_frames img && (1 <? n_frames img));
    cbn [fst snd frames durations current].
  - rewrite !length_map. cbn [length]. repeat split; [lia|].
    apply Forall_map, Forall_forall. intros f _. lia.
  - cbn [length]. repeat split; [lia|]. repeat constructor.
Qed.

Lemma next_frame_playable (s : t) :
  playable s ->
  exists frame dur s',
    next_frame s = Some (frame, dur, s')
    /\ nth_error (frames s) (current s) = Some frame
    /\ 30 <= dur
    /\ frames s' = frames s /\ durations s' = durations s
    /\ current s' = (current s + 1) mod length (frames s)
    /\ playable s'.
Proof.
  intros (Hlen & Hcur & Hdur). unfold next_frame.
  destruct (nth_error (frames s) (current s)) as [f|] eqn:Ef.
  2:{ apply nth_error_None in Ef. lia. }
  destruct (nth_error (durations s) (current s)) as [d|] eqn:Ed.
  2:{ apply nth_error_None in Ed. lia. }
  exists f, d. eexists. split; [reflexivity|].
  cbn [frames durations current].
  assert (Hd : 30 <= d).
  { rewrite Forall_forall in Hdur. apply Hdur.
    eapply nth_error_In. exact Ed. }
  repeat split; try assumption.
  cbn [frames durations current]. apply Nat.mod_upper_bound. lia.
Qed.

(** X22.  A sprite loaded from any image can be played for ever:
    however many frames are asked for, [next_frame] never runs out of
    range, every frame is shown for 30 ms at least, and the frames come
    round in a cycle, the call number [k] leaving the sprite at frame
    [k mod n]. *)
Theorem sprite_plays_in_a_cycle (img : image) (k : nat) :
  exists shown s,
    play (init img) k = Some (shown, s)
    /\ length shown = k
    /\ Forall (fun fd => 30 <= snd fd) shown
    /\ frames s = frames (init img)
    /\ current s = k mod length (frames (init img)).
Proof.
  assert (G : forall k s,
             playable s ->
             exists shown s',
               play s k = Some (shown, s')
               /\ length shown = k
               /\ Forall (fun fd => 30 <= snd fd) shown
               /\ frames s' = frames s
               /\ current s' = (current s + k) mod length (frames s)).
  { clear. induction k as [|k IH]; intros s Hp.
    - exists [], s. cbn [play length]. repeat split; [constructor|].
      rewrite Nat.add_0_r. symmetry. apply Nat.mod_small. apply Hp.
    - destruct (next_frame_playable s Hp)
        as (f & d & s1 & E & _ & Hd & Hf & _ & Hc & Hp1).
      destruct (IH s1 Hp1) as (shown & s2 & E2 & Hl & Hall & Hf2 & Hc2).
      exists ((f, d) :: shown), s2. cbn [play]. rewrite E, E2.
      repeat split.
      + cbn [length]. now rewrite Hl.
      + constructor; assumption.
      + congruence.
      + rewrite Hc2, Hf, Hc.
        rewrite Nat.Div0.add_mod_idemp_l. f_equal. lia. }
  destruct (G k (init img) (init_playable img))
    as (shown & s & E & Hl & Hall & Hf & Hc).
  exists shown, s. repeat split; assumption.
Qed.

End Sprite.

(* ================================================================== *)
(** * SettingsDialog: what is saved, and the check of [stream] *)
(* ================================================================== *)

Section Saving.
Import SettingsDialog.

Lemma rstrip_by_empty (p : ascii -> bool) (s : string) :
  Str.is_empty (Str.rstrip_by p s) = all p s.
Proof.
  induction s as [|c s IH]; [reflexivity|].
  cbn [Str.rstrip_by all]. rewrite IH.
  destruct (p c); destruct (all p s); reflexivity.
Qed.

Lemma or_default_not_empty (s d : string) :
  Str.is_empty d = false -> Str.is_empty (or_default s d) = false.
Proof. unfold or_default. intros H. now destruct s. Qed.

(** X23.  Saving the dialog never stores an empty address or an empty
    model name: a blank entry is replaced by the default.  After it, the
    configuration check of [OllamaChat.stream] fails in one case only,
    an address that is made of slashes. *)
Theorem saved_settings_pass_the_check (d : dialog) (s : settings) :
  let saved := for_chat (_save d s) in
  Str.is_empty (OllamaChat.ollama_url saved) = false
  /\ Str.is_empty (OllamaChat.model saved) = false
  /\ (Str.is_empty (Spec.base saved) || Str.is_empty (OllamaChat.model saved))
     = negb (Str.is_empty (Str.strip (url_entry d)))
       && all (Ascii.eqb "/") (Str.strip (url_entry d)).
Proof.
  cbv zeta. unfold for_chat, _save, Spec.base.
  cbn [ollama_url model OllamaChat.ollama_url OllamaChat.model].
  assert (Hm : Str.is_empty (or_default (Str.strip (model_entry d))
                                        DEFAULT_MODEL) = false)
    by (now apply or_default_not_empty).
  assert (Hu : Str.is_empty (or_default (Str.strip (url_entry d))
                                        DEFAULT_OLLAMA_URL) = false)
    by (now apply or_default_not_empty).
  split; [exact Hu | split; [exact Hm|]].
  rewrite Hm, orb_false_r. unfold Str.rstrip_char. rewrite rstrip_by_empty.
  unfold or_default.
  destruct (Str.strip (url_entry d)) as [|c u]; reflexivity.
Qed.

End Saving.

(* ================================================================== *)
(** * OllamaManager: starting the server *)
(* ================================================================== *)

Section AutoStart.
Import OllamaManager.

Variable os : Os.t.
Variable running : nat -> bool.

Lemma wait_bounds (tries k : nat) :
  launches (fst (wait running k tries)) = 0
  /\ probes (fst (wait running k tries)) <= tries
  /\ slept (fst (wait running k tries)) <= tries
  /\ (snd (wait running k tries) = None ->
      exists j, k <= j < k + tries /\ running j = true).
Proof.
  revert k. induction tries as [|n IH]; intros k; cbn [wait].
  - cbn. repeat split; try lia. discriminate.
  - destruct (running k) eqn:E.
    + cbn. repeat split; try lia. intros _. exists k. split; [lia | exact E].
    + destruct (IH (S k)) as (H1 & H2 & H3 & H4).
      destruct (wait running (S k) n) as [steps err].
      cbn [fst snd launches probes slept] in *.
      repeat split; try lia.
      intros He. destruct (H4 He) as (j & Hj & Hr).
      exists j. split; [lia | exact Hr].
Qed.

(** X24.  [auto_start] starts the server at most once and never when
    the first probe finds it running; it then sleeps 15 seconds at most
    and probes 16 times at most in all.  It reports success only when
    one of these probes, the first or one of the 15 after the start,
    found the server running. *)
Theorem auto_start_is_bounded :
  let '(steps, err) := auto_start os running in
  launches steps <= 1
  /\ probes steps <= 16
  /\ slept steps <= 15
  /\ (running 0 = true -> steps = [Probe] /\ err = None)
  /\ (err = None -> exists j, j <= 15 /\ running j = true).
Proof.
  unfold auto_start. destruct (running 0) eqn:E0.
  { cbn. repeat split; try lia. intros _. exists 0. split; [lia | exact E0]. }
  destruct (locate os) as [p|].
  2:{ cbn. repeat split; try lia; discriminate. }
  destruct (Os.popen os _) as [u|e].
  2:{ cbn. repeat split; try lia; discriminate. }
  destruct (wait_bounds 15 1) as (H1 & H2 & H3 & H4).
  destruct (wait running 1 15) as [steps err].
  cbn [fst snd launches probes slept] in *.
  repeat split; try lia; try discriminate.
  intros He. destruct (H4 He) as (j & Hj & Hr).
  exists j. split; [lia | exact Hr].
Qed.

End AutoStart.

(* ================================================================== *)
(** * IntentDetector: the file-search rule *)
(* ================================================================== *)

Section FindRule.
Import IntentDetector.

Variable os : Os.t.
Variable apps : list string.

Lemma detect_open_not_find (target pattern : string) :
  detect_open os apps target <> [("FIND_FILE", pattern)].
Proof.
  unfold detect_open.
  destruct (Re.found _ || Re.found _); [discriminate|].
  destruct (known_key SITES target); [discriminate|].
  destruct (known_key (FOLDERS os) target); [discriminate|].
  destruct (Str.contains "\" target || Str.contains "/" target
            || Str.contains ":" target).
  - destruct (Os.path_exists os _); discriminate.
  - destruct (known_app apps target); discriminate.
Qed.

(** X13.  A file search is only ever detected for a text without one
    of the verbs open, launch, go and navigate, and the pattern handed
    to [FIND_FILE] always holds a star or a dot: a bare word is turned
    into an extension. *)
Theorem find_file_pattern_is_a_glob (text pattern : string) :
  detect os apps text = [("FIND_FILE", pattern)] ->
  Re.search open_verb_re (Str.strip (Str.lower text)) = None
  /\ (Str.contains "*" pattern || Str.contains "." pattern) = true.
Proof.
  unfold detect.
  destruct (Re.match_ close_re _).
  { destruct (known_app apps _); discriminate. }
  destruct (Re.found _ || Re.found _); [discriminate|].
  destruct (Re.match_ web_re _); [discriminate|].
  unfold detect_find.
  assert (Hopen : forall l : Prop,
             match Re.match_ open_re (Str.strip (Str.lower text)) with
             | Some m =>
                 detect_open os apps
                   (Str.rstrip_char "." (Str.strip (Re.group 1 m)))
             | None => []
             end = [("FIND_FILE", pattern)] -> l).
  { intros l H. destruct (Re.match_ open_re _); [|discriminate].
    now apply detect_open_not_find in H. }
  destruct (Re.match_ find_re _) as [m|]; [|apply Hopen].
  destruct (Re.search open_verb_re _) as [v|] eqn:Ev; cbn [Re.found negb];
    [apply Hopen|].
  destruct (existsb _ _ || Re.found _); [|apply Hopen].
  intros [= <-]. split; [reflexivity|].
  destruct (Str.contains "*" (Str.strip (Re.group 1 m))) eqn:E1;
    cbn [negb andb]; [now rewrite E1|].
  destruct (Str.contains "." (Str.strip (Re.group 1 m))) eqn:E2;
    cbn [negb andb]; [now rewrite E1, E2|].
  apply orb_true_iff. left. apply contains_prefix. reflexivity.
Qed.

End FindRule.

(* ================================================================== *)
(** * ChatWindow: running the actions of a turn *)
(* ================================================================== *)

Section RunAll.
Import ChatWindow.

Variable os : Os.t.

(** X18.  Every action of a turn is run, in order, whatever happens to
    the ones before it: a failing action gives its failure text and the
    thread goes on.  The thread itself never fails, and it shows one
    bubble per action at most. *)
Theorem every_action_is_run (l : list IntentDetector.action) :
  exists results : list string,
    ActionExecutor.result (run_all os l) = Os.Ok results
    /\ length results <= length l
    /\ ActionExecutor.log (run_all os l) = TurnProps.logs os l.
Proof.
  induction l as [|[cmd arg] l IH].
  - exists []. repeat split. cbn. lia.
  - destruct IH as (results & Hr & Hlen & Hlog).
    destruct (try_except_ret (ActionExecutor.dispatch os cmd arg)
                (fun e => "❌ Action failed: " +++ Os.text e))
      as (s & Hs & _).
    fold (ActionExecutor.run os cmd arg) in Hs.
    cbn [run_all TurnProps.logs].
    rewrite !result_bind, !log_bind, Hs, !result_bind, !log_bind, Hr.
    cbn [ActionExecutor.ret ActionExecutor.result ActionExecutor.log fst snd].
    rewrite app_nil_r, Hlog.
    exists (if Str.is_empty s then results else s :: results).
    repeat split. destruct (Str.is_empty s); cbn [length]; lia.
Qed.

End RunAll.

(* ================================================================== *)
(** * The further statements at concrete inputs *)
(* ================================================================== *)

Lemma inline_error_aborts_witness :
  Spec.reachable (Sample.net 200 200 [] Scenario.failing) Sample.settings
  = true
  /\ forallb Spec.passes
       [OllamaChat.Got false
          (OllamaChat.Data None (OllamaChat.Text "Hel") false)] = true
  /\ OllamaChat.stream (Sample.net 200 200 [] Scenario.failing)
       Sample.settings OllamaChat.init "hi" true
     = (OllamaChat.init ++ [OllamaChat.Message "user" "hi"],
        [OllamaChat.on_chunk (OllamaChat.Text "Hel");
         OllamaChat.on_error ("❌ " +++ "out of memory")]).
Proof.
  split; [reflexivity | split; [reflexivity|]].
  exact (inline_error_aborts
           (Sample.net 200 200 [] Scenario.failing) Sample.settings
           OllamaChat.init "hi" true
           (OllamaChat.Response 200 EmptyString Scenario.failing)
           [OllamaChat.Got false
              (OllamaChat.Data None (OllamaChat.Text "Hel") false)]
           [OllamaChat.Got false
              (OllamaChat.Data None (OllamaChat.Text "!") true)]
           "out of memory" (OllamaChat.Text "lo") false
           eq_refl eq_refl eq_refl eq_refl eq_refl).
Defined.

Lemma done_flag_completes_witness :
  Spec.reachable (Sample.net 200 200 [] Scenario.finishing) Sample.settings
  = true
  /\ OllamaChat.stream (Sample.net 200 200 [] Scenario.finishing)
       Sample.settings OllamaChat.init "hi" true
     = (OllamaChat.init ++ [ OllamaChat.Message "user" "hi";
                             OllamaChat.Message "assistant" "Hello" ],
        [OllamaChat.on_chunk (OllamaChat.Text "Hel");
         OllamaChat.on_chunk (OllamaChat.Text "lo");
         OllamaChat.on_done]).
Proof.
  split; [reflexivity|].
  exact (done_flag_completes
           (Sample.net 200 200 [] Scenario.finishing) Sample.settings
           OllamaChat.init "hi" true
           (OllamaChat.Response 200 EmptyString Scenario.finishing)
           [OllamaChat.Got false
              (OllamaChat.Data None (OllamaChat.Text "Hel") false);
            OllamaChat.Got false OllamaChat.Blank]
           [OllamaChat.Got false
              (OllamaChat.Data None (OllamaChat.Text "!") false)]
           (OllamaChat.Text "lo")
           eq_refl eq_refl eq_refl eq_refl eq_refl).
Defined.

(** The same stream with a list where the last fragment should be: the
    fragments are reported, and the call ends with the TypeError. *)
Example done_flag_after_a_list :
  OllamaChat.stream (Sample.net 200 200 [] Scenario.finishing_with_a_list)
    Sample.settings OllamaChat.init "hi" true
  = (OllamaChat.init ++ [OllamaChat.Message "user" "hi"],
     [OllamaChat.on_chunk (OllamaChat.Text "Hel");
      OllamaChat.on_chunk (OllamaChat.Foreign true);
      OllamaChat.raises_TypeError]).
Proof. reflexivity. Qed.

Lemma system_cmd_output_is_bounded_witness :
  existsb (fun d => Str.contains d (Str.lower "Get-Date"))
          ActionExecutor.dangerous = false
  /\ ActionExecutor.log (ActionExecutor._system_cmd Scenario.chatty "Get-Date")
     = [ActionExecutor.RunProcess ["powershell"; "-Command"; "Get-Date"] 15]
  /\ ActionExecutor.result
       (ActionExecutor._system_cmd Scenario.chatty "Get-Date")
     = Os.Ok (ActionProps.command_result
                (Scenario.letters 600 +++ Str.newline +++ "... (truncated)")).
Proof.
  split; [reflexivity|].
  split.
  - exact (proj1 (system_cmd_output_is_bounded Scenario.chatty "Get-Date"
                    (Os.Completed 0 (Scenario.letters 700) Str.empty)
                    eq_refl eq_refl)).
  - vm_compute. reflexivity.
Defined.

Lemma detect_ignores_case_and_margins_witness :
  TextProps.blank "  " = true
  /\ Spec.ci_equal "OPEN YouTube" "open youtube" = true
  /\ IntentDetector.detect Sample.bare IntentDetector.APPS
       ("  " +++ "OPEN YouTube" +++ " ")
     = IntentDetector.detect Sample.bare IntentDetector.APPS "open youtube".
Proof.
  split; [reflexivity | split; [reflexivity|]].
  exact (detect_ignores_case_and_margins Sample.bare IntentDetector.APPS
           "  " "open youtube" "OPEN YouTube" " " eq_refl eq_refl eq_refl).
Defined.

Lemma find_file_pattern_is_a_glob_witness :
  IntentDetector.detect Sample.bare IntentDetector.APPS "find pdf files"
  = [("FIND_FILE", "*.pdf")]
  /\ (Str.contains "*" "*.pdf" || Str.contains "." "*.pdf") = true.
Proof.
  assert (H : IntentDetector.detect Sample.bare IntentDetector.APPS
                "find pdf files" = [("FIND_FILE", "*.pdf")])
    by (vm_compute; reflexivity).
  split; [exact H|].
  exact (proj2 (find_file_pattern_is_a_glob Sample.bare IntentDetector.APPS
                  "find pdf files" "*.pdf" H)).
Defined.

Lemma reply_tags_fire_without_local_intent_witness :
  ChatWindow.top Sample.idle = true
  /\ IntentDetector.detect Sample.bare IntentDetector.APPS (Str.strip "hello")
     = []
  /\ snd (ChatWindow._finish_and_run_actions
            (fst (ChatWindow.handle_all Sample.bare IntentDetector.APPS
                    (fst (ChatWindow._send Sample.bare IntentDetector.APPS
                            Sample.idle "hello"))
                    Scenario.events)))
     = [ChatWindow.execute_actions ["OPEN_URL|https://x.test"]].
Proof.
  assert (Hd : IntentDetector.detect Sample.bare IntentDetector.APPS
                 (Str.strip "hello") = [])
    by (vm_compute; reflexivity).
  assert (Hne : Str.strip "hello" <> EmptyString) by discriminate.
  split; [reflexivity | split; [exact Hd|]].
  destruct (reply_tags_fire_without_local_intent
              Sample.bare IntentDetector.APPS Sample.idle "hello"
              Scenario.events eq_refl eq_refl Hne Hd eq_refl)
    as (_ & _ & H & _).
  rewrite H. vm_compute. reflexivity.
Defined.

Lemma clear_drops_late_fragments_witness :
  ChatWindow.top Scenario.busy = true
  /\ ChatWindow.handle_all Sample.bare IntentDetector.APPS
       (ChatWindow._clear Scenario.busy)
       [ChatWindow.Chunk "[ACTION:OPEN_URL|https://x.test]"]
     = (ChatWindow._clear Scenario.busy, []).
Proof.
  split; [reflexivity|].
  exact (proj1 (proj2 (clear_drops_late_fragments
                         Sample.bare IntentDetector.APPS Scenario.busy
                         ["[ACTION:OPEN_URL|https://x.test]"] eq_refl))).
Defined.

Lemma tag_without_bar_witness :
  Spec.has "|" " screenshot " = false
  /\ ChatWindow.parse_action " screenshot " = ("SCREENSHOT", EmptyString).
Proof.
  split; [reflexivity|].
  exact (tag_without_bar " screenshot " eq_refl).
Defined.

Lemma send_is_refused_witness :
  TextProps.blank "   " = true
  /\ ChatWindow._send Sample.bare IntentDetector.APPS Sample.idle "   "
     = (Sample.idle, []).
Proof.
  split; [reflexivity|].
  exact (send_is_refused Sample.bare IntentDetector.APPS Sample.idle "   "
           (or_intror (or_intror eq_refl))).
Defined.

Lemma roam_stays_in_the_area_witness :
  (0 + 20 <= 1700 <= 1920 - 110)%Z
  /\ (let '(tx, ty) :=
        Screen.roam_target (0, 0, 1920, 1080)%Z 1700 500 200 (-150) in
      tx = 1810 /\ ty = 350 /\ Z.abs (tx - 1700) <= 200)%Z.
Proof.
  split; [lia|].
  pose proof (roam_stays_in_the_area 0 0 1920 1080 1700 500 200 (-150)
                ltac:(lia) ltac:(lia) ltac:(lia) ltac:(lia)) as H.
  cbv in H |- *. intuition congruence.
Defined.

Lemma chat_window_opens_on_screen_witness :
  (Screen.chat_w <= 1920)%Z
  /\ (let '(px, py) := Screen.open_position 100 50 130 1920 1080 in
      0 <= px /\ px + Screen.chat_w <= 1920 /\ 0 <= py
      /\ py + Screen.chat_h + 40 <= 1080)%Z.
Proof.
  split; [unfold Screen.chat_w; lia|].
  exact (chat_window_opens_on_screen 100 50 130 1920 1080
           ltac:(unfold Screen.chat_w; lia)
           ltac:(unfold Screen.chat_h; lia)).
Defined.
